(** * Filer: the wildcard matcher and the rebuild engine of [filer.py]

    A shallow embedding of the [Filer] class of [src/filer.py] and the
    properties of its matcher ([Filer.match]), its rebuild engine
    ([Filer.rebuild] and the [rb_*] helpers) and its driver
    ([Filer.process_files]).

    Modelling conventions.
    - A Python [str] is a [list ascii]; a one-character string such as
      [fn[fp]] is a one-element list.  [int(c)] on a one-character string
      is the decimal value of an ASCII digit and [ValueError] otherwise.
    - The object [self] is the record [Filer]; every method is a
      computation in the monad [M], which threads the record and carries
      Python's exceptions ([IndexError], [SystemExit]).
    - Standard output, the clock read by [datetime.now()] and the result
      of [os.listdir] are the environment: printed lines are appended to
      [stdout], the clock is a sequence of readings, and the directory
      listing is an argument of [process_files].
    - Indices are natural numbers: the source never forms a negative one.
    - Loops whose trip count is not a literal run on fuel; the methods
      start them with enough of it, which is proved below.  The host's
      recursion limit is not modelled. *)

From Stdlib Require Import Ascii String DecimalString.
From stdpp Require Import base tactics option list strings.

(** ** Strings *)

Definition str := list ascii.

Definition lit (x : string) : str := list_ascii_of_string x.
Arguments lit x%_string.

(** [''], the empty string every table cell is initialised with. *)
Definition E : str := [].

Definition ascii_eqb (a b : ascii) : bool := Ascii.eqb a b.
Arguments ascii_eqb (a b)%_char.

Fixpoint str_eqb (a b : str) : bool :=
  match a, b with
  | [], [] => true
  | x :: a', y :: b' => ascii_eqb x y && str_eqb a' b'
  | _, _ => false
  end.

(** [s.startswith(c)] for a one-character [c]. *)
Definition startswith (s : str) (c : ascii) : bool :=
  match s with
  | x :: _ => ascii_eqb x c
  | [] => false
  end.
Arguments startswith s c%_char.

(** [str(n)] for a non-negative integer. *)
Definition str_of_nat (n : nat) : str := lit (NilZero.string_of_uint (Nat.to_uint n)).

(** [s.zfill(width)]: zeros are inserted on the left, after a leading sign. *)
Definition zfill (s : str) (width : nat) : str :=
  if decide (width <= length s) then s
  else match s with
       | c :: rest =>
           if ascii_eqb c "+" || ascii_eqb c "-"
           then c :: replicate (width - length s) "0"%char ++ rest
           else replicate (width - length s) "0"%char ++ s
       | [] => replicate width "0"%char
       end.

(** [int(c)] on a one-character string: [None] stands for [ValueError]. *)
Definition int_of_char (c : ascii) : option nat :=
  let n := nat_of_ascii c in
  if decide (48 <= n <= 57) then Some (n - 48) else None.

(** ** The clock *)

Record datetime := mkDatetime
  { year : nat; month : nat; day : nat; hour : nat; minute : nat }.

Definition pad (width n : nat) : str := zfill (str_of_nat n) width.

(** The [strftime] directives the program uses. *)
Definition strftime_y (d : datetime) : str := pad 2 (year d mod 100).
Definition strftime_Y (d : datetime) : str := pad 4 (year d).
Definition strftime_m (d : datetime) : str := pad 2 (month d).
Definition strftime_d (d : datetime) : str := pad 2 (day d).
Definition strftime_M (d : datetime) : str := pad 2 (minute d).
Definition strftime_H (d : datetime) : str := pad 2 (hour d).

(** ** The object *)

Definition FNLEN : nat := 300.

Record Filer := mkFiler
  { include_dots : bool;
    quotenames : bool;
    table : list (list str);
    nn : list str;
    nnp : nat;
    r : str;
    p : str;
    cmd : str;
    stk : nat;
    qmk : nat;
    seq_number : nat;
    (* the environment *)
    stdout : list str;
    clock : nat -> datetime;
    ticks : nat }.

Definition set_table (v : list (list str)) (s : Filer) : Filer :=
  mkFiler (include_dots s) (quotenames s) v (nn s) (nnp s) (r s) (p s) (cmd s)
          (stk s) (qmk s) (seq_number s) (stdout s) (clock s) (ticks s).
Definition set_nn (v : list str) (s : Filer) : Filer :=
  mkFiler (include_dots s) (quotenames s) (table s) v (nnp s) (r s) (p s) (cmd s)
          (stk s) (qmk s) (seq_number s) (stdout s) (clock s) (ticks s).
Definition set_nnp (v : nat) (s : Filer) : Filer :=
  mkFiler (include_dots s) (quotenames s) (table s) (nn s) v (r s) (p s) (cmd s)
          (stk s) (qmk s) (seq_number s) (stdout s) (clock s) (ticks s).
Definition set_stk (v : nat) (s : Filer) : Filer :=
  mkFiler (include_dots s) (quotenames s) (table s) (nn s) (nnp s) (r s) (p s) (cmd s)
          v (qmk s) (seq_number s) (stdout s) (clock s) (ticks s).
Definition set_qmk (v : nat) (s : Filer) : Filer :=
  mkFiler (include_dots s) (quotenames s) (table s) (nn s) (nnp s) (r s) (p s) (cmd s)
          (stk s) v (seq_number s) (stdout s) (clock s) (ticks s).
Definition set_seq_number (v : nat) (s : Filer) : Filer :=
  mkFiler (include_dots s) (quotenames s) (table s) (nn s) (nnp s) (r s) (p s) (cmd s)
          (stk s) (qmk s) v (stdout s) (clock s) (ticks s).
Definition set_stdout (v : list str) (s : Filer) : Filer :=
  mkFiler (include_dots s) (quotenames s) (table s) (nn s) (nnp s) (r s) (p s) (cmd s)
          (stk s) (qmk s) (seq_number s) v (clock s) (ticks s).
Definition set_ticks (v : nat) (s : Filer) : Filer :=
  mkFiler (include_dots s) (quotenames s) (table s) (nn s) (nnp s) (r s) (p s) (cmd s)
          (stk s) (qmk s) (seq_number s) (stdout s) (clock s) v.

(** ** Exceptions and the monad *)

Inductive exn :=
| IndexError
| SystemExit (status : nat).

Inductive res (A : Type) :=
| Val (a : A)
| Raise (e : exn)
| NoFuel.
Arguments Val {A} a.
Arguments Raise {A} e.
Arguments NoFuel {A}.

Definition M (A : Type) : Type := Filer -> res A * Filer.

Definition ret {A} (a : A) : M A := fun s => (Val a, s).

Definition raise {A} (e : exn) : M A := fun s => (Raise e, s).

Definition diverge {A} : M A := fun s => (NoFuel, s).

Definition bind {A B} (c : M A) (k : A -> M B) : M B :=
  fun s =>
    match c s with
    | (Val a, s') => k a s'
    | (Raise e, s') => (Raise e, s')
    | (NoFuel, s') => (NoFuel, s')
    end.

Declare Scope filer_scope.
Delimit Scope filer_scope with filer.
Notation "x <- c ;; k" := (bind c (fun x => k))
  (at level 100, c at next level, right associativity) : filer_scope.
Notation "c ;; k" := (bind c (fun _ => k))
  (at level 100, k at level 200, right associativity) : filer_scope.
Open Scope filer_scope.

Definition gets {A} (f : Filer -> A) : M A := fun s => (Val (f s), s).

Definition modify (f : Filer -> Filer) : M unit := fun s => (Val tt, f s).

(** [print(line)] *)
Definition print (line : str) : M unit :=
  modify (fun s => set_stdout (stdout s ++ [line]) s).

(** [sys.exit(status)] *)
Definition sys_exit {A} (status : nat) : M A := raise (SystemExit status).

(** [datetime.now()]: the next reading of the clock. *)
Definition datetime_now : M datetime :=
  fun s => (Val (clock s (ticks s)), set_ticks (S (ticks s)) s).

(** [l[i]] as an expression: [IndexError] out of range. *)
Definition getitem {A} (l : list A) (i : nat) : M A :=
  match l !! i with
  | Some x => ret x
  | None => raise IndexError
  end.

(** [self.table[line][k] = v] *)
Definition table_set (line k : nat) (v : str) : M unit :=
  tbl <- gets table ;;
  row <- getitem tbl line ;;
  if decide (k < length row)
  then modify (set_table (<[line := <[k := v]> row]> tbl))
  else raise IndexError.

(** [self.table[line][k]] *)
Definition table_get (line k : nat) : M str :=
  tbl <- gets table ;;
  row <- getitem tbl line ;;
  getitem row k.

(** [self.nn[k] = v] *)
Definition nn_set (k : nat) (v : str) : M unit :=
  buf <- gets nn ;;
  if decide (k < length buf)
  then modify (set_nn (<[k := v]> buf))
  else raise IndexError.

(** [for k in range(n): body(k)], counting from [k]. *)
Fixpoint for_range_from (k n : nat) (body : nat -> M unit) : M unit :=
  match n with
  | 0 => ret tt
  | S n' => body k ;; for_range_from (S k) n' body
  end.

Definition for_range (n : nat) (body : nat -> M unit) : M unit :=
  for_range_from 0 n body.

(** ** [Filer.__init__] *)

Definition Filer_init (clk : nat -> datetime) : Filer :=
  {| include_dots := false;
     quotenames := false;
     table := replicate 10 (replicate FNLEN E);
     nn := replicate FNLEN E;
     nnp := 0;
     r := [];
     p := [];
     cmd := [];
     stk := 0;
     qmk := 0;
     seq_number := 1;
     stdout := [];
     clock := clk;
     ticks := 0 |}.

(** ** [Filer.clear_table_line] *)

Definition clear_table_line (line : nat) : M unit :=
  for_range FNLEN (fun k => table_set line k E).

(** ** [Filer.match]

    Every path through the body of the outer [while True] returns, so the
    body runs once per call; the inner [while True] is [star_loop_fuel],
    entered with the values [fp] and [sp] have before the increments. *)

Fixpoint match_fuel (fuel : nat) (fn p : str) (fp pp tp : nat) {struct fuel} : M bool :=
  match fuel with
  | 0 => diverge
  | S fuel' =>
      dots <- gets include_dots ;;
      if startswith fn "." && negb dots then ret false
      else if bool_decide (length fn <= fp) && bool_decide (length p <= pp) then ret true
      else if bool_decide (length fn <= fp) || bool_decide (length p <= pp) then ret false
      else
        c <- getitem fn fp ;;
        q <- getitem p pp ;;
        if ascii_eqb c q then match_fuel fuel' fn p (fp + 1) (pp + 1) tp
        else if ascii_eqb q "?" then
          clear_table_line tp ;;
          table_set tp 0 (lit "?") ;;
          table_set tp 1 [c] ;;
          match_fuel fuel' fn p (fp + 1) (pp + 1) (tp + 1)
        else if ascii_eqb q "*" then
          let sp := 1 in
          clear_table_line tp ;;
          table_set tp 0 (lit "*") ;;
          table_set tp sp [c] ;;
          b <- match_fuel fuel' fn p (fp + 1) (pp + 1) (tp + 1) ;;
          if b then ret true
          else star_loop_fuel fuel' fn p fp sp pp tp
        else ret false
  end
with star_loop_fuel (fuel : nat) (fn p : str) (fp sp pp tp : nat) {struct fuel} : M bool :=
  match fuel with
  | 0 => diverge
  | S fuel' =>
      let fp := fp + 1 in
      let sp := sp + 1 in
      if bool_decide (length fn <= fp) then
        if bool_decide (length p <= pp + 1) then ret true else ret false
      else
        c <- getitem fn fp ;;
        table_set tp sp [c] ;;
        b <- match_fuel fuel' fn p (fp + 1) (pp + 1) (tp + 1) ;;
        if b then ret true
        else star_loop_fuel fuel' fn p fp sp pp tp
  end.

(** The recursion consumes at least one filename character per call, so
    [length fn - fp] calls deep is as far as it goes. *)
Definition Filer_match (fn p : str) (fp pp tp : nat) : M bool :=
  match_fuel (S (length fn - fp)) fn p fp pp tp.

Definition star_loop (fn p : str) (fp sp pp tp : nat) : M bool :=
  star_loop_fuel (S (length fn - fp)) fn p fp sp pp tp.

(** ** The rebuild engine *)

(** [Filer.get_digit] *)
Definition get_digit (l : nat) : M nat :=
  tmpl <- gets r ;;
  if bool_decide (length tmpl <= l + 1) then ret 0
  else
    c <- getitem tmpl (l + 1) ;;
    if negb (ascii_eqb c "'") then ret 0
    else if bool_decide (length tmpl <= l + 2) then ret 99
    else
      c2 <- getitem tmpl (l + 2) ;;
      match int_of_char c2 with
      | Some d => if bool_decide (1 <= d) && bool_decide (d <= 9) then ret d else ret 99
      | None => ret 99
      end.

(** [Filer.rb_copy]: the loop, [n] being a bound on the cells left in the row. *)
Fixpoint rb_copy_loop (n : nat) (where_ tk : nat) : M unit :=
  match n with
  | 0 => diverge
  | S n' =>
      if bool_decide (tk < FNLEN) then
        cell <- table_get where_ tk ;;
        if str_eqb cell E then ret tt
        else
          k <- gets nnp ;;
          nn_set k cell ;;
          modify (set_nnp (k + 1)) ;;
          rb_copy_loop n' where_ (tk + 1)
      else ret tt
  end.

Definition rb_copy (where_ : nat) : M unit :=
  rb_copy_loop FNLEN where_ 1.

(** [Filer.insert_string] *)
Fixpoint insert_string (s : str) : M unit :=
  match s with
  | [] => ret tt
  | char :: s' =>
      k <- gets nnp ;;
      (if bool_decide (k < FNLEN)
       then nn_set k [char] ;; modify (set_nnp (k + 1))
       else ret tt) ;;
      insert_string s'
  end.

(** The search loop shared, up to the marker, by [rb_star] and [rb_qmark]:
    [while temp_dg != 0 and where < 10: ...]; it leaves [where]. *)
Fixpoint where_loop (n : nat) (marker : str) (temp_dg where_ : nat) : M nat :=
  match n with
  | 0 => diverge
  | S n' =>
      if negb (bool_decide (temp_dg = 0)) && bool_decide (where_ < 10) then
        m <- table_get where_ 0 ;;
        let temp_dg := if str_eqb m marker then temp_dg - 1 else temp_dg in
        let where_ := if bool_decide (0 < temp_dg) then where_ + 1 else where_ in
        where_loop n' marker temp_dg where_
      else ret where_
  end.

(** The tail of [rb_star] and [rb_qmark] after the search. *)
Definition copy_found (where_ : nat) : M unit :=
  if bool_decide (10 <= where_) then print (lit "Can't find indexed pattern item.")
  else
    m <- table_get where_ 0 ;;
    if str_eqb m E then print (lit "Can't find indexed pattern item.")
    else rb_copy where_.

(** [Filer.rb_star] *)
Definition rb_star (l : nat) : M unit :=
  let l := l + 1 in
  dg <- get_digit l ;;
  if bool_decide (dg = 99) then print (lit "Filer: Pattern index must be 1-9!")
  else
    dg <- (if bool_decide (dg = 0)
           then k <- gets stk ;; modify (set_stk (k + 1)) ;; gets stk
           else modify (set_stk dg) ;; ret dg) ;;
    where_ <- where_loop 12 (lit "*") dg 0 ;;
    copy_found where_.

(** [Filer.rb_qmark] *)
Definition rb_qmark (l : nat) : M unit :=
  let l := l + 1 in
  dg <- get_digit l ;;
  if bool_decide (dg = 99) then print (lit "Filer: Pattern index must be 1-9!")
  else
    dg <- (if bool_decide (dg = 0)
           then k <- gets qmk ;; modify (set_qmk (k + 1)) ;; gets qmk
           else modify (set_qmk dg) ;; ret dg) ;;
    where_ <- where_loop 12 (lit "?") dg 0 ;;
    copy_found where_.

(** [Filer.rb_date] *)
Definition rb_date (l : nat) : M nat :=
  let l := l + 1 in
  tmpl <- gets r ;;
  if bool_decide (length tmpl <= l) then
    print (lit "Filer: Invalid 'd_ date spec!") ;; sys_exit 2
  else
    now <- datetime_now ;;
    c <- getitem tmpl l ;;
    (if ascii_eqb c "y" then insert_string (strftime_y now)
     else if ascii_eqb c "Y" then insert_string (strftime_Y now)
     else if ascii_eqb c "m" then insert_string (strftime_m now)
     else if ascii_eqb c "d" then insert_string (strftime_d now)
     else if ascii_eqb c "M" then insert_string (strftime_M now)
     else if ascii_eqb c "H" then insert_string (strftime_H now)
     else if ascii_eqb c "s" then
       insert_string (strftime_Y now ++ strftime_m now ++ strftime_d now)
     else if ascii_eqb c "t" then
       insert_string (strftime_H now ++ strftime_M now)
     else print (lit "Filer: Invalid 'd_ date spec!") ;; sys_exit 2) ;;
    ret (l + 1).

(** [Filer.rb_seq] *)
Definition rb_seq (l : nat) : M nat :=
  let l := l + 1 in
  tmpl <- gets r ;;
  if bool_decide (length tmpl <= l) then
    print (lit "Filer: Invalid 's_ sequence spec!") ;; sys_exit 2
  else
    c <- getitem tmpl l ;;
    match int_of_char c with
    | Some digits =>
        if bool_decide (digits < 1) || bool_decide (9 < digits) then
          print (lit "Filer: Sequence digit count must be 1-9!") ;; sys_exit 2
        else
          n <- gets seq_number ;;
          insert_string (zfill (str_of_nat n) digits) ;;
          ret (l + 1)
    | None =>
        print (lit "Filer: Invalid 's_ sequence spec!") ;; sys_exit 2
    end.

(** [Filer.rb_quote] *)
Definition rb_quote (l : nat) : M nat :=
  let l := l + 1 in
  tmpl <- gets r ;;
  if bool_decide (l < length tmpl) then
    c <- getitem tmpl l ;;
    if ascii_eqb c "d" then rb_date l
    else if ascii_eqb c "s" then rb_seq l
    else print (lit "Filer: Invalid '_ quote spec!") ;; sys_exit 2
  else ret l.

(** [Filer.rebuild]: the [while l < len(self.r)] loop. *)
Fixpoint rebuild_loop (n : nat) (l : nat) : M unit :=
  match n with
  | 0 => diverge
  | S n' =>
      tmpl <- gets r ;;
      if bool_decide (l < length tmpl) then
        c <- getitem tmpl l ;;
        if ascii_eqb c "*" then rb_star l ;; rebuild_loop n' (l + 1)
        else if ascii_eqb c "?" then rb_qmark l ;; rebuild_loop n' (l + 1)
        else if ascii_eqb c "'" then l' <- rb_quote l ;; rebuild_loop n' l'
        else
          k <- gets nnp ;;
          nn_set k [c] ;;
          modify (set_nnp (k + 1)) ;;
          rebuild_loop n' (l + 1)
      else ret tt
  end.

Definition rebuild : M unit :=
  modify (set_stk 0) ;;
  modify (set_qmk 0) ;;
  modify (set_nnp 0) ;;
  for_range FNLEN (fun k => nn_set k E) ;;
  tmpl <- gets r ;;
  rebuild_loop (S (length tmpl)) 0.

(** [Filer.get_rebuilt_name] *)
Fixpoint get_rebuilt_name_from (i n : nat) (result : str) : M str :=
  match n with
  | 0 => ret result
  | S n' =>
      buf <- gets nn ;;
      cell <- getitem buf i ;;
      get_rebuilt_name_from (S i) n' (if str_eqb cell E then result else result ++ cell)
  end.

Definition get_rebuilt_name : M str :=
  n <- gets nnp ;;
  get_rebuilt_name_from 0 n [].

(** ** The driver *)

(** [os.path.join(a, b)] (POSIX). *)
Definition path_join (a b : str) : str :=
  if startswith b "/" then b
  else if str_eqb a E || startswith (rev a) "/" then a ++ b
  else a ++ lit "/" ++ b.

(** What [os.listdir] answered. *)
Inductive listdir_result :=
| Listing (files : list str)
| OSError (e : str).

Definition dquote : ascii := "034"%char.

(** The body of [for filename in files]. *)
Definition process_file (dirspec filename : str) : M unit :=
  for_range 10 clear_table_line ;;
  pat <- gets p ;;
  ok <- Filer_match filename pat 0 0 0 ;;
  if ok then
    rebuild ;;
    rebuilt_name <- get_rebuilt_name ;;
    q <- gets quotenames ;;
    c <- gets cmd ;;
    (if q
     then print (c ++ lit " " ++ [dquote] ++ path_join dirspec filename ++ [dquote]
                   ++ lit " " ++ [dquote] ++ rebuilt_name ++ [dquote])
     else print (c ++ lit " " ++ path_join dirspec filename ++ lit " " ++ rebuilt_name)) ;;
    n <- gets seq_number ;;
    modify (set_seq_number (n + 1))
  else ret tt.

Fixpoint for_each (files : list str) (body : str -> M unit) : M unit :=
  match files with
  | [] => ret tt
  | f :: files' => body f ;; for_each files' body
  end.

(** [Filer.process_files] *)
Definition process_files (dirspec : str) (ls : listdir_result) : M unit :=
  match ls with
  | OSError e =>
      print (lit "Error reading directory " ++ dirspec ++ lit ": " ++ e)
  | Listing files => for_each files (process_file dirspec)
  end.

(** The parsed command line. *)
Record args := mkArgs
  { match_pattern : option str;
    rebuild_pattern : option str;
    command : str;
    directory : str;
    all : bool;
    quote : bool }.

(** [x or ""] *)
Definition or_empty (x : option str) : str :=
  match x with
  | Some v => v
  | None => E
  end.

(** [main], after [parser.parse_args()]. *)
Definition main (a : args) (clk : nat -> datetime) (ls : listdir_result) : res unit * Filer :=
  let filer := Filer_init clk in
  let filer :=
    mkFiler (all a) (quote a) (table filer) (nn filer) (nnp filer)
            (or_empty (rebuild_pattern a)) (or_empty (match_pattern a)) (command a)
            (stk filer) (qmk filer) (seq_number filer) (stdout filer) (clock filer)
            (ticks filer) in
  process_files (directory a) ls filer.

(** The status the interpreter exits with: [sys.exit(n)] gives [n], any
    other uncaught exception gives 1 after the traceback. *)
Definition exit_status {A} (o : res A) : nat :=
  match o with
  | Val _ => 0
  | Raise (SystemExit n) => n
  | Raise IndexError => 1
  | NoFuel => 0
  end.

(** * Definitions used by the properties *)

(** ** The shape of the object

    Ten rows of [FNLEN] cells, and a buffer of [FNLEN] cells: [__init__]
    builds them and item assignment keeps them. *)

Definition wf_table (t : list (list str)) : Prop :=
  length t = 10 /\ forall i row, t !! i = Some row -> length row = FNLEN.

Definition wf (s : Filer) : Prop :=
  wf_table (table s) /\ length (nn s) = FNLEN.

(** The test on line 61: the name starts with a dot and dotfiles are off. *)
Definition dot_excluded (fn : str) (s : Filer) : bool :=
  startswith fn "." && negb (include_dots s).

(** A pattern character that is not a wildcard. *)
Definition literal (c : ascii) : Prop := c <> "*"%char /\ c <> "?"%char.

(** ** The body of [Filer.match], in terms of the method itself *)

Definition match_body (fn p : str) (fp pp tp : nat) : M bool :=
  dots <- gets include_dots ;;
  if startswith fn "." && negb dots then ret false
  else if bool_decide (length fn <= fp) && bool_decide (length p <= pp) then ret true
  else if bool_decide (length fn <= fp) || bool_decide (length p <= pp) then ret false
  else
    c <- getitem fn fp ;;
    q <- getitem p pp ;;
    if ascii_eqb c q then Filer_match fn p (fp + 1) (pp + 1) tp
    else if ascii_eqb q "?" then
      clear_table_line tp ;;
      table_set tp 0 (lit "?") ;;
      table_set tp 1 [c] ;;
      Filer_match fn p (fp + 1) (pp + 1) (tp + 1)
    else if ascii_eqb q "*" then
      clear_table_line tp ;;
      table_set tp 0 (lit "*") ;;
      table_set tp 1 [c] ;;
      b <- Filer_match fn p (fp + 1) (pp + 1) (tp + 1) ;;
      if b then ret true
      else star_loop fn p fp 1 pp tp
    else ret false.

Definition star_loop_body (fn p : str) (fp sp pp tp : nat) : M bool :=
  if bool_decide (length fn <= fp + 1) then ret (bool_decide (length p <= pp + 1))
  else
    c <- getitem fn (fp + 1) ;;
    table_set tp (sp + 1) [c] ;;
    b <- Filer_match fn p (fp + 1 + 1) (pp + 1) (tp + 1) ;;
    if b then ret true
    else star_loop fn p (fp + 1) (sp + 1) pp tp.

(** ** Outcomes and frames

    [sat I ok c s]: run from [s], the computation [c] ends in a state
    related to [s] by [I], with an outcome in the class [ok].  The class
    looks at an outcome through [cls], which forgets the returned value. *)

Definition cls {A} (o : res A) : res unit :=
  match o with
  | Val _ => Val tt
  | Raise e => Raise e
  | NoFuel => NoFuel
  end.

(** Returned, or raised [IndexError]: neither an exit nor an exhausted loop. *)
Definition no_exit (o : res unit) : Prop :=
  match o with
  | Val _ => True
  | Raise IndexError => True
  | _ => False
  end.

Definition sat {A} (I : relation Filer) (ok : res unit -> Prop) (c : M A) (s : Filer) : Prop :=
  I s (c s).2 /\ ok (cls (c s).1).

(** What the matcher leaves alone: everything but the table. *)
Definition match_frame (s s' : Filer) : Prop :=
  s' = set_table (table s') s.

(** What the rebuild engine leaves alone: the configuration, the table and
    the counter; what was printed stays printed, the buffer keeps its
    length and the cursor [nnp] stays inside it. *)
Definition rb_frame (s s' : Filer) : Prop :=
  include_dots s' = include_dots s /\ quotenames s' = quotenames s /\
  table s' = table s /\ r s' = r s /\ p s' = p s /\ cmd s' = cmd s /\
  seq_number s' = seq_number s /\ clock s' = clock s /\
  stdout s `prefix_of` stdout s' /\
  length (nn s') = length (nn s) /\
  (nnp s <= length (nn s) -> nnp s' <= length (nn s')).

(** ** Malformed quote-escapes

    The template read token by token, as [rebuild] does: [true] when a
    malformed quote-escape is reached, that is, an unknown letter after
    the quote marker, an unknown or missing date code after ['d], or a
    missing character, a non-digit or a digit outside 1-9 after ['s].  A
    quote marker that ends the template is not one. *)

Definition is_date_code (c : ascii) : bool :=
  ascii_eqb c "y" || ascii_eqb c "Y" || ascii_eqb c "m" || ascii_eqb c "d" ||
  ascii_eqb c "M" || ascii_eqb c "H" || ascii_eqb c "s" || ascii_eqb c "t".

Definition is_seq_digit (c : ascii) : bool :=
  match int_of_char c with
  | Some d => bool_decide (1 <= d) && bool_decide (d <= 9)
  | None => false
  end.

Fixpoint fatal_escape (t : str) : bool :=
  match t with
  | [] => false
  | c :: t1 =>
      if ascii_eqb c "'" then
        match t1 with
        | [] => false
        | k :: t2 =>
            if ascii_eqb k "d" then
              match t2 with
              | [] => true
              | x :: t3 => if is_date_code x then fatal_escape t3 else true
              end
            else if ascii_eqb k "s" then
              match t2 with
              | [] => true
              | x :: t3 => if is_seq_digit x then fatal_escape t3 else true
              end
            else true
        end
      else fatal_escape t1
  end.

(** The outcomes allowed to a run whose template is [t]: an exit has
    status 2 and a malformed quote-escape behind it. *)
Definition exit_only_if_fatal (t : str) (o : res unit) : Prop :=
  match o with
  | Val _ => True
  | Raise IndexError => True
  | Raise (SystemExit n) => n = 2 /\ fatal_escape t = true
  | NoFuel => False
  end.

(** The outcomes of the token loop on the rest [t] of the template. *)
Definition loop_outcome (t : str) (o : res unit) : Prop :=
  if fatal_escape t
  then o = Raise (SystemExit 2) \/ o = Raise IndexError
  else o = Val tt \/ o = Raise IndexError.

(** What a run of the driver leaves alone, from a well-shaped object. *)
Definition run_frame (s s' : Filer) : Prop :=
  wf s ->
  wf s' /\
  include_dots s' = include_dots s /\ quotenames s' = quotenames s /\
  r s' = r s /\ p s' = p s /\ cmd s' = cmd s /\ clock s' = clock s /\
  stdout s `prefix_of` stdout s' /\ seq_number s <= seq_number s'.

(** ** What the matcher does to the table

    A run of [Filer.match] with cursor [tp] is a sequence of two kinds of
    writes, all of them in rows [tp] and above: a wildcard is recorded in
    a fresh row (marker in cell 0, the current filename character in cell
    1, the rest empty), and a star's text grows by one cell. *)

Definition capture_row (m : str) (c : ascii) : list str :=
  <[1 := [c]]> (<[0 := m]> (replicate FNLEN E)).

Inductive captures (tp : nat) : Filer -> Filer -> Prop :=
| captures_refl s : captures tp s s
| captures_begin s s' line m c :
    tp <= line -> line < 10 -> m = lit "?" \/ m = lit "*" ->
    captures tp (set_table (<[line := capture_row m c]> (table s)) s) s' ->
    captures tp s s'
| captures_grow s s' line row k c :
    tp <= line -> table s !! line = Some row -> 2 <= k -> k < length row ->
    captures tp (set_table (<[line := <[k := [c]]> row]> (table s)) s) s' ->
    captures tp s s'.

Definition match_inv (tp : nat) (s s' : Filer) : Prop :=
  wf s -> wf s' /\ captures tp s s'.

(** ** Concrete objects for the examples *)

(** A clock stuck at 22 September 2020, 14:05. *)
Definition clock0 : nat -> datetime := fun _ => mkDatetime 2020 9 22 14 5.

(** A fresh object, with [include_dots] set as the command line asks. *)
Definition new_filer (dots : bool) : Filer :=
  let s := Filer_init clock0 in
  mkFiler dots (quotenames s) (table s) (nn s) (nnp s) (r s) (p s) (cmd s)
          (stk s) (qmk s) (seq_number s) (stdout s) (clock s) (ticks s).

(** The text of a capture: the cells [rb_copy] would copy from a row. *)
Fixpoint text_of (cells : list str) : str :=
  match cells with
  | [] => []
  | c :: cells' => if str_eqb c E then [] else c ++ text_of cells'
  end.

Definition capture_text (row : list str) : str := text_of (drop 1 row).

(** The markers and texts of the first [n] rows of the table. *)
Definition captures_of (n : nat) (s : Filer) : list (str * str) :=
  map (fun row => (default E (row !! 0), capture_text row)) (take n (table s)).

(** Every row marked [*] holds a text of at least one character. *)
Definition star_rows_nonempty (s : Filer) : Prop :=
  forall i row, table s !! i = Some row -> row !! 0 = Some (lit "*") ->
    exists c, row !! 1 = Some [c].

(** The number of wildcards in a pattern. *)
Definition count_wildcards (pat : str) : nat :=
  length (filter (fun c => c = "*"%char \/ c = "?"%char) pat).

(** A whole run: [main] with command [mv], directory [.], no quoting, the
    clock [clock0] and the listing [files]. *)
Definition run_main (dots : bool) (pat tmpl : str) (files : list str) : res unit * Filer :=
  main (mkArgs (Some pat) (Some tmpl) (lit "mv") (lit ".") dots false) clock0 (Listing files).

(** The name built so far: the first [nnp] cells of the buffer. *)
Definition buffer_text (s : Filer) : str := concat (take (nnp s) (nn s)).

(** The object [main] builds, before any file is looked at, and the
    object right after [match] ran on the file [f]. *)
Definition configured (dots : bool) (pat tmpl : str) : Filer :=
  (run_main dots pat tmpl []).2.

Definition matched (dots : bool) (pat tmpl f : str) : Filer :=
  (Filer_match f pat 0 0 0 (configured dots pat tmpl)).2.

(** From a well-shaped object, only the table changed, and it kept its shape. *)
Definition table_only (s s' : Filer) : Prop :=
  wf s -> wf s' /\ s' = set_table (table s') s.

(** What [process_files] does for one file up to the test of the match. *)
Definition clear_and_match (f : str) : M bool :=
  for_range 10 clear_table_line ;;
  pat <- gets p ;;
  Filer_match f pat 0 0 0.

(** Whether a filename matches a pattern, as [match] decides it on a
    fresh object. *)
Definition does_match (dots : bool) (pat f : str) : bool :=
  match (Filer_match f pat 0 0 0 (new_filer dots)).1 with
  | Val true => true
  | _ => false
  end.

(** Two well-shaped objects with the same dotfile setting. *)
Definition same_setting (s1 s2 : Filer) : Prop :=
  wf s1 /\ wf s2 /\ include_dots s1 = include_dots s2.

(** The number of rows that carry a marker. *)
Definition count_marked (marker : str) (t : list (list str)) : nat :=
  length (filter (fun row => row !! 0 = Some marker) t).

(** * Definitions for the further properties *)

(** ** What the matcher decides

    [Matches f pat]: the filename [f] can be read along the pattern [pat],
    a pattern character standing for itself, a [?] for one character and
    a [*] for a run of one or more characters.  A wildcard is only read as
    a wildcard in front of a different character: [match] compares the two
    characters first. *)

Inductive Matches : str -> str -> Prop :=
| Matches_nil : Matches [] []
| Matches_same c f pat : Matches f pat -> Matches (c :: f) (c :: pat)
| Matches_qmark c f pat :
    c <> "?"%char -> Matches f pat -> Matches (c :: f) ("?"%char :: pat)
| Matches_star c u f pat :
    c <> "*"%char -> Matches f pat -> Matches (c :: u ++ f) ("*"%char :: pat).

(** ** What the rebuild engine builds from a template without quotes *)

(** The cells [rb_copy] copies from a row: those after the marker, up to
    the first empty one. *)
Fixpoint leading_cells (cells : list str) : list str :=
  match cells with
  | [] => []
  | c :: cells' => if str_eqb c E then [] else c :: leading_cells cells'
  end.

Definition capture_cells (row : list str) : list str := leading_cells (drop 1 row).

(** The captures of one kind, in table order. *)
Definition captures_marked (marker : str) (t : list (list str)) : list (list str) :=
  map capture_cells (filter (fun row => row !! 0 = Some marker) t).

(** The cells a template without quotes puts in the buffer: a plain
    character for itself, the k-th unindexed [*] (resp. [?]) for the k-th
    capture of its kind, or for nothing where there is none. *)
Fixpoint expand (stars qms : list (list str)) (stk qmk : nat) (t : str) : list str :=
  match t with
  | [] => []
  | c :: t' =>
      if ascii_eqb c "*" then default [] (stars !! stk) ++ expand stars qms (stk + 1) qmk t'
      else if ascii_eqb c "?" then default [] (qms !! qmk) ++ expand stars qms stk (qmk + 1) t'
      else [c] :: expand stars qms stk qmk t'
  end.

(** The diagnostics it prints meanwhile: one per reference without a capture. *)
Fixpoint misses {A} (stars qms : list A) (stk qmk : nat) (t : str) : nat :=
  match t with
  | [] => 0
  | c :: t' =>
      if ascii_eqb c "*"
      then (if stars !! stk is Some _ then 0 else 1) + misses stars qms (stk + 1) qmk t'
      else if ascii_eqb c "?"
      then (if qms !! qmk is Some _ then 0 else 1) + misses stars qms stk (qmk + 1) t'
      else misses stars qms stk qmk t'
  end.

Definition count_char (c : ascii) (t : str) : nat := length (filter (fun x => x = c) t).

(** The object after [cells] were appended to the buffer and [out] was
    printed, with the star and question-mark cursors at [stk'] and [qmk']. *)
Definition emit (cells out : list str) (stk' qmk' : nat) (s : Filer) : Filer :=
  mkFiler (include_dots s) (quotenames s) (table s)
          (take (nnp s) (nn s) ++ cells ++ drop (nnp s + length cells) (nn s))
          (nnp s + length cells) (r s) (p s) (cmd s) stk' qmk' (seq_number s)
          (stdout s ++ out) (clock s) (ticks s).

(** The object as [rebuild] starts on the template: cursors at 0 and an
    empty buffer. *)
Definition reset (s : Filer) : Filer :=
  set_nn (replicate FNLEN E) (set_nnp 0 (set_qmk 0 (set_stk 0 s))).

Definition not_found_message : str := lit "Can't find indexed pattern item.".

(** ** The captures a successful match leaves in the table *)

(** A text as the cells that hold it, one character each. *)
Definition cells_of (x : str) : list str := map (fun c => [c]) x.

(** The row of a capture: its marker, its text, then empty cells. *)
Definition row_of (cap : str * str) : list str :=
  cap.1 :: cells_of cap.2 ++ replicate (FNLEN - 1 - length cap.2) E.

(** [Captured f pat caps]: the name [f] matches the pattern [pat] with the
    wildcards met taking the texts [caps], in pattern order, a star taking
    the shortest text after which the rest of the pattern matches. *)
Inductive Captured : str -> str -> list (str * str) -> Prop :=
| Captured_nil : Captured [] [] []
| Captured_same c f pat caps :
    Captured f pat caps -> Captured (c :: f) (c :: pat) caps
| Captured_qmark c f pat caps :
    c <> "?"%char -> Captured f pat caps ->
    Captured (c :: f) ("?"%char :: pat) ((lit "?", [c]) :: caps)
| Captured_star c u f pat caps :
    c <> "*"%char ->
    (forall k, k < length u -> ~ Matches (drop k (u ++ f)) pat) ->
    Captured f pat caps ->
    Captured (c :: u ++ f) ("*"%char :: pat) ((lit "*", c :: u) :: caps).

(** The texts of the captures of one kind, as cells. *)
Definition caps_marked (marker : str) (caps : list (str * str)) : list (list str) :=
  map (fun cap => cells_of cap.2) (filter (fun cap => cap.1 = marker) caps).

(** ** The line printed for a file that matched *)

Definition rename_line (q : bool) (c dirspec filename rebuilt_name : str) : str :=
  if q
  then c ++ lit " " ++ [dquote] ++ path_join dirspec filename ++ [dquote]
         ++ lit " " ++ [dquote] ++ rebuilt_name ++ [dquote]
  else c ++ lit " " ++ path_join dirspec filename ++ lit " " ++ rebuilt_name.

(** ** The lines a run prints for a listing

    [Renamed dirspec s files lines]: with the configuration of [s], the
    files of the listing that match give [lines], in listing order; every
    name is shorter than FNLEN, and for the ones that match the template
    refers to no more wildcards than were captured and its expansion fits
    the buffer. *)
Inductive Renamed (dirspec : str) (s : Filer) : list str -> list str -> Prop :=
| Renamed_nil : Renamed dirspec s [] []
| Renamed_skip f files lines :
    length f < FNLEN ->
    dot_excluded f s = true \/ ~ Matches f (p s) ->
    Renamed dirspec s files lines ->
    Renamed dirspec s (f :: files) lines
| Renamed_match f caps files lines :
    length f < FNLEN ->
    dot_excluded f s = false ->
    Captured f (p s) caps ->
    count_char "*" (r s) <= length (caps_marked (lit "*") caps) ->
    count_char "?" (r s) <= length (caps_marked (lit "?") caps) ->
    length (expand (caps_marked (lit "*") caps) (caps_marked (lit "?") caps) 0 0 (r s))
      <= FNLEN ->
    Renamed dirspec s files lines ->
    Renamed dirspec s (f :: files)
      (rename_line (quotenames s) (cmd s) dirspec f
         (concat (expand (caps_marked (lit "*") caps)
                         (caps_marked (lit "?") caps) 0 0 (r s)))
       :: lines).

(** ** A malformed quote-escape where the token loop stands

    [escape_defect t l]: the template [t] has at position [l] a quote
    marker that starts a malformed escape; the value is the line that
    [rb_quote], [rb_date] or [rb_seq] prints for it before [sys.exit(2)]. *)
Definition escape_defect (t : str) (l : nat) : option str :=
  match drop l t with
  | q :: k :: rest =>
      if ascii_eqb q "'" then
        if ascii_eqb k "d" then
          match rest with
          | [] => Some (lit "Filer: Invalid 'd_ date spec!")
          | x :: _ =>
              if is_date_code x then None
              else Some (lit "Filer: Invalid 'd_ date spec!")
          end
        else if ascii_eqb k "s" then
          match rest with
          | [] => Some (lit "Filer: Invalid 's_ sequence spec!")
          | x :: _ =>
              match int_of_char x with
              | Some d =>
                  if bool_decide (1 <= d) && bool_decide (d <= 9) then None
                  else Some (lit "Filer: Sequence digit count must be 1-9!")
              | None => Some (lit "Filer: Invalid 's_ sequence spec!")
              end
          end
        else Some (lit "Filer: Invalid '_ quote spec!")
      else None
  | _ => None
  end.

(** [only_overflow c s]: run from [s], the computation [c] raises
    [IndexError] only with the buffer full, the cursor [nnp] at its end. *)
Definition only_overflow {A} (c : M A) (s : Filer) : Prop :=
  (c s).1 = Raise IndexError -> length (nn (c s).2) <= nnp (c s).2.

(** * Properties *)

(** ** Reasoning about the monad *)

Lemma bind_Val {A B} (c : M A) (k : A -> M B) s a s' :
  c s = (Val a, s') -> bind c k s = k a s'.
Proof. intros H. unfold bind. by rewrite H. Qed.

Lemma bind_Raise {A B} (c : M A) (k : A -> M B) s e s' :
  c s = (Raise e, s') -> bind c k s = (Raise e, s').
Proof. intros H. unfold bind. by rewrite H. Qed.

Lemma bind_ext {A B} (c : M A) (k1 k2 : A -> M B) s :
  (forall a s', k1 a s' = k2 a s') -> bind c k1 s = bind c k2 s.
Proof. intros H. unfold bind. destruct (c s) as [[a|e|] s']; auto. Qed.

Ltac msimpl :=
  cbv beta iota zeta delta
    [bind gets modify ret raise diverge print sys_exit getitem].

Lemma FNLEN_eq : FNLEN = 300.
Proof. reflexivity. Qed.

Global Opaque FNLEN.

(** ** The shape of the object *)

Lemma wf_init clk : wf (Filer_init clk).
Proof.
  unfold wf, wf_table, Filer_init; cbn [table nn].
  split; [split|].
  - by rewrite length_replicate.
  - intros i row H. apply lookup_replicate in H as [-> _]. by rewrite length_replicate.
  - by rewrite length_replicate.
Qed.

Lemma wf_table_insert t line row :
  wf_table t -> length row = FNLEN -> wf_table (<[line := row]> t).
Proof.
  intros [Hl Hr] Hrow. split.
  - by rewrite length_insert.
  - intros i row' H. destruct (decide (i = line)) as [->|Hne].
    + destruct (decide (line < length t)).
      * rewrite list_lookup_insert_eq in H by done. congruence.
      * rewrite list_insert_ge in H by lia. eauto.
    + rewrite list_lookup_insert_ne in H by done. eauto.
Qed.

Lemma table_set_in line k v s row :
  table s !! line = Some row -> k < length row ->
  table_set line k v s = (Val tt, set_table (<[line := <[k := v]> row]> (table s)) s).
Proof.
  intros Hrow Hk. unfold table_set. msimpl. rewrite Hrow.
  destruct (decide (k < length row)); [done|lia].
Qed.

Lemma table_set_no_row line k v s :
  length (table s) <= line -> table_set line k v s = (Raise IndexError, s).
Proof.
  intros H. unfold table_set. msimpl.
  by rewrite (lookup_ge_None_2 _ _ H).
Qed.

Lemma table_set_no_cell line k v s row :
  table s !! line = Some row -> length row <= k ->
  table_set line k v s = (Raise IndexError, s).
Proof.
  intros Hrow Hk. unfold table_set. msimpl. rewrite Hrow.
  destruct (decide (k < length row)); [lia|done].
Qed.

Lemma set_table_id s : set_table (table s) s = s.
Proof. by destruct s. Qed.

Lemma all_cells_replicate (row : list str) k :
  length row = k -> (forall i, i < k -> row !! i = Some E) -> row = replicate k E.
Proof.
  intros Hl Hc. apply list_eq. intros i.
  destruct (decide (i < k)).
  - rewrite Hc by done. symmetry. by apply lookup_replicate_2.
  - rewrite lookup_ge_None_2 by lia. symmetry. apply lookup_replicate_None. lia.
Qed.

Lemma clear_cells line n : forall k s row,
  table s !! line = Some row -> length row = k + n ->
  (forall i, i < k -> row !! i = Some E) ->
  for_range_from k n (fun k => table_set line k E) s
  = (Val tt, set_table (<[line := replicate (k + n) E]> (table s)) s).
Proof.
  induction n as [|n IH]; intros k s row Hrow Hlen Hc; cbn [for_range_from].
  - msimpl. rewrite Nat.add_0_r in *.
    rewrite <- (all_cells_replicate row k) by done.
    by rewrite list_insert_id, set_table_id.
  - erewrite bind_Val; [|apply table_set_in; [done|lia]].
    erewrite IH.
    + cbn [table set_table]. rewrite list_insert_insert_eq.
      by rewrite Nat.add_succ_r.
    + cbn [table set_table]. apply list_lookup_insert_eq.
      by eapply lookup_lt_Some.
    + rewrite length_insert. lia.
    + intros i Hi. destruct (decide (i = k)) as [->|].
      * apply list_lookup_insert_eq. lia.
      * rewrite list_lookup_insert_ne by done. apply Hc. lia.
Qed.

Lemma clear_table_line_in line s :
  wf s -> line < 10 ->
  clear_table_line line s
  = (Val tt, set_table (<[line := replicate FNLEN E]> (table s)) s).
Proof.
  intros [[Hl Hr] _] Hline.
  destruct (lookup_lt_is_Some_2 (table s) line) as [row Hrow]; [lia|].
  unfold clear_table_line, for_range.
  erewrite clear_cells; eauto. lia.
Qed.

Lemma for_range_from_S k n body :
  for_range_from k (S n) body = (body k ;; for_range_from (S k) n body).
Proof. done. Qed.

Lemma clear_table_line_out line s :
  length (table s) <= line -> clear_table_line line s = (Raise IndexError, s).
Proof.
  intros H. unfold clear_table_line, for_range.
  rewrite FNLEN_eq, for_range_from_S.
  apply bind_Raise, table_set_no_row, H.
Qed.

(** ** Fuel: [Filer.match] terminates *)

Lemma bind_cong {A B} (c1 c2 : M A) (k1 k2 : A -> M B) s :
  c1 s = c2 s -> (forall a s', k1 a s' = k2 a s') -> bind c1 k1 s = bind c2 k2 s.
Proof. intros Hc H. unfold bind. rewrite Hc. destruct (c2 s) as [[a|e|] s']; auto. Qed.

Ltac same_head :=
  repeat first
    [ reflexivity
    | apply bind_cong; [|intros]
    | match goal with
      | |- (if ?b then _ else _) _ = (if ?b then _ else _) _ => destruct b
      end ].

Lemma match_fuel_enough n : forall m fn p fp pp tp s,
  (length fn - fp < n -> length fn - fp < m ->
   match_fuel n fn p fp pp tp s = match_fuel m fn p fp pp tp s) /\
  (forall sp, length fn - (fp + 1) < n -> length fn - (fp + 1) < m ->
   star_loop_fuel n fn p fp sp pp tp s = star_loop_fuel m fn p fp sp pp tp s).
Proof.
  induction n as [|n IH]; intros m fn p fp pp tp s; split;
    try (intros; lia); try (intros sp; intros; lia).
  - intros Hn Hm. destruct m as [|m]; [lia|].
    cbn [match_fuel]. cbv zeta.
    apply bind_ext; intros dots s1.
    destruct (startswith fn "." && negb dots); [done|].
    repeat case_bool_decide; cbn [andb orb]; try done.
    apply bind_ext; intros c s2. apply bind_ext; intros q s3.
    same_head; try (apply IH; lia).
  - intros sp Hn Hm. destruct m as [|m]; [lia|].
    cbn [star_loop_fuel]. cbv zeta.
    case_bool_decide; [done|].
    same_head; apply IH; lia.
Qed.

Lemma match_fuel_Filer_match n fn p fp pp tp s :
  length fn - fp < n -> match_fuel n fn p fp pp tp s = Filer_match fn p fp pp tp s.
Proof. intros H. unfold Filer_match. apply match_fuel_enough; lia. Qed.

Lemma star_loop_fuel_star_loop n fn p fp sp pp tp s :
  length fn - (fp + 1) < n ->
  star_loop_fuel n fn p fp sp pp tp s = star_loop fn p fp sp pp tp s.
Proof. intros H. unfold star_loop. apply match_fuel_enough; lia. Qed.

Lemma Filer_match_unfold fn p fp pp tp s :
  Filer_match fn p fp pp tp s = match_body fn p fp pp tp s.
Proof.
  unfold Filer_match at 1, match_body. cbn [match_fuel]. cbv zeta.
  apply bind_ext; intros dots s1.
  destruct (startswith fn "." && negb dots); [done|].
  repeat case_bool_decide; cbn [andb orb]; try done.
  apply bind_ext; intros c s2. apply bind_ext; intros q s3.
  same_head;
    try (apply match_fuel_Filer_match; lia);
    try (apply star_loop_fuel_star_loop; lia).
Qed.

Lemma star_loop_unfold fn p fp sp pp tp s :
  star_loop fn p fp sp pp tp s = star_loop_body fn p fp sp pp tp s.
Proof.
  unfold star_loop at 1, star_loop_body. cbn [star_loop_fuel]. cbv zeta.
  repeat case_bool_decide; try done.
  same_head;
    try (apply match_fuel_Filer_match; lia);
    try (apply star_loop_fuel_star_loop; lia).
Qed.

(** ** Outcomes and frames *)

Section Sat.
Context (I : relation Filer) `{!PreOrder I}.

Lemma sat_bind_gen {A B} (ok1 ok2 : res unit -> Prop) (c : M A) (k : A -> M B) s :
  sat I ok1 c s ->
  (forall e, ok1 (Raise e) -> ok2 (Raise e)) ->
  (ok1 NoFuel -> ok2 NoFuel) ->
  (forall a s1, c s = (Val a, s1) -> I s s1 -> sat I ok2 (k a) s1) ->
  sat I ok2 (bind c k) s.
Proof.
  unfold sat, bind. intros [HI Hok] He Hn Hk.
  destruct (c s) as [[a|e|] s1] eqn:Hc; cbn in *.
  - destruct (Hk a s1) as [HI2 Hok2]; [done..|].
    split; [by etrans|done].
  - auto.
  - auto.
Qed.

Lemma sat_bind {A B} (ok : res unit -> Prop) (c : M A) (k : A -> M B) s :
  sat I ok c s ->
  (forall a s1, c s = (Val a, s1) -> I s s1 -> sat I ok (k a) s1) ->
  sat I ok (bind c k) s.
Proof. intros. eapply sat_bind_gen; eauto. Qed.

Lemma sat_ret {A} (ok : res unit -> Prop) (a : A) s : ok (Val tt) -> sat I ok (ret a) s.
Proof. by split. Qed.

Lemma sat_gets {A B} (ok : res unit -> Prop) (f : Filer -> A) (k : A -> M B) s :
  sat I ok (k (f s)) s -> sat I ok (x <- gets f ;; k x) s.
Proof. done. Qed.

Lemma sat_getitem {A B} (ok : res unit -> Prop) (l : list A) i (k : A -> M B) s :
  ok (Raise IndexError) ->
  (forall x, l !! i = Some x -> sat I ok (k x) s) ->
  sat I ok (x <- getitem l i ;; k x) s.
Proof.
  intros Hie Hk. unfold getitem. destruct (l !! i) as [x|] eqn:Hx.
  - by apply Hk.
  - by split.
Qed.

Lemma sat_modify {B} (ok : res unit -> Prop) (f : Filer -> Filer) (k : M B) s :
  I s (f s) -> sat I ok k (f s) -> sat I ok (modify f ;; k) s.
Proof. intros HI [HI2 Hok]. split; [by etrans|done]. Qed.

End Sat.

#[local] Instance rb_frame_preorder : PreOrder rb_frame.
Proof.
  split.
  - intros s. unfold rb_frame. repeat split; done.
  - intros s1 s2 s3. unfold rb_frame. intros H1 H2.
    destruct_and!. repeat split; try congruence; try lia.
    by etrans.
Qed.

(** ** What the matcher does to the table *)

Lemma captures_trans tp s1 s2 s3 :
  captures tp s1 s2 -> captures tp s2 s3 -> captures tp s1 s3.
Proof.
  induction 1; intros; eauto using captures.
Qed.

Lemma captures_mono tp tp' s s' :
  tp <= tp' -> captures tp' s s' -> captures tp s s'.
Proof.
  intros Htp. induction 1.
  - constructor.
  - apply captures_begin with line m c; [lia|done..].
  - apply captures_grow with line row k c; [lia|done..].
Qed.

Lemma length_capture_row m c : length (capture_row m c) = FNLEN.
Proof. unfold capture_row. by rewrite !length_insert, length_replicate. Qed.

Lemma captures_wf tp s s' : captures tp s s' -> wf s -> wf s'.
Proof.
  induction 1 as [|s s' line m c ? ? ? ? IH|s s' line row k c ? Hrow ? ? ? IH];
    intros [Ht Hn]; [done|..]; apply IH; (split; [|done]); cbn [table set_table].
  - apply wf_table_insert; [done|]. apply length_capture_row.
  - apply wf_table_insert; [done|]. rewrite length_insert.
    destruct Ht as [_ Hr]. eauto.
Qed.

Lemma captures_frame tp s s' : captures tp s s' -> match_frame s s'.
Proof.
  unfold match_frame. induction 1 as [s| |]; [by rewrite set_table_id|..]; done.
Qed.

(** Rows below the cursor are never written. *)
Lemma captures_below tp s s' i :
  captures tp s s' -> i < tp -> table s' !! i = table s !! i.
Proof.
  induction 1 as [|? ? ? ? ? ? ? ? ? IH|? ? ? ? ? ? ? ? ? ? ? IH]; intros Hi; [done|..];
    rewrite IH by done; cbn [table set_table];
    apply list_lookup_insert_ne; lia.
Qed.

#[local] Instance match_inv_preorder tp : PreOrder (match_inv tp).
Proof.
  split.
  - intros s Hwf. split; [done|constructor].
  - intros s1 s2 s3 H1 H2 Hwf. destruct (H1 Hwf) as [Hwf2 Hc1].
    destruct (H2 Hwf2) as [Hwf3 Hc2]. split; [done|]. by eapply captures_trans.
Qed.

Lemma match_inv_mono tp tp' s s' :
  tp <= tp' -> match_inv tp' s s' -> match_inv tp s s'.
Proof.
  intros Htp H Hwf. destruct (H Hwf). split; [done|]. by eapply captures_mono.
Qed.

(** The three statements that record a wildcard. *)
Lemma begin_capture_in {B} tp m c (k : M B) s :
  wf s -> tp < 10 ->
  (clear_table_line tp ;; table_set tp 0 m ;; table_set tp 1 [c] ;; k) s
  = k (set_table (<[tp := capture_row m c]> (table s)) s).
Proof.
  intros Hwf Htp.
  pose proof FNLEN_eq as HF.
  erewrite bind_Val; [|by apply clear_table_line_in].
  destruct Hwf as [[Hl Hr] _].
  erewrite bind_Val; cycle 1.
  { apply table_set_in with (row := replicate FNLEN E); cbn [table set_table].
    - apply list_lookup_insert_eq. lia.
    - rewrite length_replicate. lia. }
  erewrite bind_Val; cycle 1.
  { eapply table_set_in; cbn [table set_table].
    - apply list_lookup_insert_eq. rewrite length_insert. lia.
    - rewrite length_insert, length_replicate. lia. }
  cbn [table set_table]. by rewrite !list_insert_insert_eq.
Qed.

Lemma begin_capture_out {B} tp m c (k : M B) s :
  length (table s) <= tp ->
  (clear_table_line tp ;; table_set tp 0 m ;; table_set tp 1 [c] ;; k) s
  = (Raise IndexError, s).
Proof. intros H. by apply bind_Raise, clear_table_line_out. Qed.

Lemma sat_mono {A} (I1 I2 : relation Filer) ok (c : M A) s :
  (forall s', I1 s s' -> I2 s s') -> sat I1 ok c s -> sat I2 ok c s.
Proof. intros H [? ?]. split; auto. Qed.

Lemma wf_begin s tp m c :
  wf s -> wf (set_table (<[tp := capture_row m c]> (table s)) s).
Proof.
  intros [Ht Hn]. split; [|done]. cbn [table set_table].
  apply wf_table_insert; [done|apply length_capture_row].
Qed.

Lemma sat_begin {B} (ok : res unit -> Prop) tp m c (k : M B) s :
  wf s -> ok (Raise IndexError) -> m = lit "?" \/ m = lit "*" ->
  (tp < 10 -> sat (match_inv tp) ok k (set_table (<[tp := capture_row m c]> (table s)) s)) ->
  sat (match_inv tp) ok
      (clear_table_line tp ;; table_set tp 0 m ;; table_set tp 1 [c] ;; k) s.
Proof.
  intros Hwf Hie Hm Hk. unfold sat. destruct (decide (tp < 10)) as [Htp|Htp].
  - rewrite begin_capture_in by done. destruct (Hk Htp) as [HI Hok].
    split; [|done]. etrans; [|exact HI].
    intros _. split; [by apply wf_begin|].
    apply captures_begin with tp m c; [lia|done|done|constructor].
  - rewrite begin_capture_out by (destruct Hwf as [[-> _] _]; lia).
    split; [reflexivity|done].
Qed.

Lemma sat_grow {B} (ok : res unit -> Prop) tp sp c (k : M B) s :
  wf s -> 1 <= sp -> ok (Raise IndexError) ->
  (forall row, table s !! tp = Some row -> sp + 1 < FNLEN ->
     sat (match_inv tp) ok k (set_table (<[tp := <[sp + 1 := [c]]> row]> (table s)) s)) ->
  sat (match_inv tp) ok (table_set tp (sp + 1) [c] ;; k) s.
Proof.
  intros Hwf Hsp Hie Hk. unfold sat.
  destruct (table s !! tp) as [row|] eqn:Hrow.
  - assert (length row = FNLEN) as Hlen by (destruct Hwf as [[_ Hr] _]; eauto).
    destruct (decide (sp + 1 < FNLEN)) as [Hlt|Hge].
    + erewrite bind_Val; [|apply table_set_in; [done|lia]].
      destruct (Hk row) as [HI Hok]; [done..|].
      split; [|done]. etrans; [|exact HI].
      intros _. split.
      * destruct Hwf as [Ht Hn]. split; [|done]. cbn [table set_table].
        apply wf_table_insert; [done|]. by rewrite length_insert.
      * apply captures_grow with tp row (sp + 1) c; [lia|done|lia|lia|constructor].
    + erewrite bind_Raise; [|apply table_set_no_cell with row; [done|lia]].
      split; [reflexivity|done].
  - erewrite bind_Raise; [|apply table_set_no_row; by apply lookup_ge_None_1].
    split; [reflexivity|done].
Qed.

Lemma match_fuel_sat n : forall fn p fp pp tp s,
  wf s ->
  (length fn - fp < n ->
   sat (match_inv tp) no_exit (match_fuel n fn p fp pp tp) s) /\
  (forall sp, 1 <= sp -> length fn - (fp + 1) < n ->
   sat (match_inv tp) no_exit (star_loop_fuel n fn p fp sp pp tp) s).
Proof.
  induction n as [|n IH]; intros fn p fp pp tp s Hwf; split;
    try (intros; lia); try (intros sp; intros; lia).
  - intros Hn. cbn [match_fuel]. cbv zeta.
    apply sat_gets.
    destruct (startswith fn "." && negb _); [by apply sat_ret; try apply _|].
    repeat case_bool_decide; cbn [andb orb]; try (by apply sat_ret; try apply _).
    apply sat_getitem; [apply _|done|]. intros c Hc.
    apply sat_getitem; [apply _|done|]. intros q Hq.
    destruct (ascii_eqb c q); [apply IH; [done|lia]|].
    destruct (ascii_eqb q "?").
    { apply sat_begin; [done|done|by left|]. intros Htp.
      eapply sat_mono; [|apply IH; [by apply wf_begin|lia]].
      intros s'. apply match_inv_mono. lia. }
    destruct (ascii_eqb q "*"); [|by apply sat_ret; try apply _].
    apply sat_begin; [done|done|by right|]. intros Htp.
    apply sat_bind; [apply _| |].
    { eapply sat_mono; [|apply IH; [by apply wf_begin|lia]].
      intros s'. apply match_inv_mono. lia. }
    intros b s2 Hb HI. destruct b; [by apply sat_ret; try apply _|].
    apply IH; [|done|lia]. apply HI. by apply wf_begin.
  - intros sp Hsp Hn. cbn [star_loop_fuel]. cbv zeta.
    case_bool_decide.
    { case_bool_decide; by apply sat_ret; try apply _. }
    apply sat_getitem; [apply _|done|]. intros c Hc.
    apply sat_grow; [done|done|done|]. intros row Hrow Hlt.
    assert (wf (set_table (<[tp:=<[sp + 1:=[c]]> row]> (table s)) s)) as Hwf2.
    { destruct Hwf as [Ht Hnn]. split; [|done]. cbn [table set_table].
      apply wf_table_insert; [done|]. rewrite length_insert.
      destruct Ht as [_ Hr]. eauto. }
    apply sat_bind; [apply _| |].
    { eapply sat_mono; [|apply IH; [done|lia]].
      intros s'. apply match_inv_mono. lia. }
    intros b s2 Hb HI. destruct b; [by apply sat_ret; try apply _|].
    apply IH; [|lia|lia]. by apply HI.
Qed.

Lemma Filer_match_sat fn p fp pp tp s :
  wf s -> sat (match_inv tp) no_exit (Filer_match fn p fp pp tp) s.
Proof. intros Hwf. unfold Filer_match. apply match_fuel_sat; [done|lia]. Qed.

(** The matcher returns or raises [IndexError]; it changes the table only,
    and only in rows at or above its cursor. *)
Lemma Filer_match_outcome fn p fp pp tp s o s' :
  wf s -> Filer_match fn p fp pp tp s = (o, s') ->
  wf s' /\ captures tp s s' /\
  ((exists b, o = Val b) \/ o = Raise IndexError).
Proof.
  intros Hwf H. destruct (Filer_match_sat fn p fp pp tp s Hwf) as [HI Hok].
  rewrite H in HI, Hok. cbn in HI, Hok. destruct (HI Hwf) as [Hwf' Hc].
  split; [done|]. split; [done|].
  destruct o as [b|[|n]|]; cbn in Hok; try done; eauto.
Qed.

(** ** Claims about the matcher *)

Lemma ascii_eqb_true a b : ascii_eqb a b = true <-> a = b.
Proof. apply Ascii.eqb_eq. Qed.

Lemma ascii_eqb_false a b : ascii_eqb a b = false <-> a <> b.
Proof. apply Ascii.eqb_neq. Qed.

Lemma getitem_Some {A} (l : list A) i x s :
  l !! i = Some x -> getitem l i s = (Val x, s).
Proof. intros H. unfold getitem. by rewrite H. Qed.

Lemma Filer_match_dot fn p fp pp tp s :
  dot_excluded fn s = true -> Filer_match fn p fp pp tp s = (Val false, s).
Proof.
  intros H. rewrite Filer_match_unfold. unfold match_body. msimpl.
  unfold dot_excluded in H. by rewrite H.
Qed.

Lemma Filer_match_both_done fn p fp pp tp s :
  dot_excluded fn s = false -> length fn <= fp -> length p <= pp ->
  Filer_match fn p fp pp tp s = (Val true, s).
Proof.
  intros H Hf Hp. rewrite Filer_match_unfold. unfold match_body. msimpl.
  unfold dot_excluded in H. rewrite H.
  by rewrite !bool_decide_eq_true_2.
Qed.

Lemma Filer_match_one_done fn p fp pp tp s :
  dot_excluded fn s = false ->
  (length fn <= fp /\ pp < length p) \/ (fp < length fn /\ length p <= pp) ->
  Filer_match fn p fp pp tp s = (Val false, s).
Proof.
  intros H Hcase. rewrite Filer_match_unfold. unfold match_body. msimpl.
  unfold dot_excluded in H. rewrite H.
  destruct Hcase as [[Hf Hp]|[Hf Hp]].
  - rewrite (bool_decide_eq_true_2 (length fn <= fp)) by done.
    by rewrite (bool_decide_eq_false_2 (length p <= pp)) by lia.
  - rewrite (bool_decide_eq_false_2 (length fn <= fp)) by lia.
    by rewrite (bool_decide_eq_true_2 (length p <= pp)) by done.
Qed.

(** Both positions inside: the body from the character comparison on. *)
Lemma Filer_match_inside fn p fp pp tp s c q :
  dot_excluded fn s = false -> fn !! fp = Some c -> p !! pp = Some q ->
  Filer_match fn p fp pp tp s
  = (if ascii_eqb c q then Filer_match fn p (fp + 1) (pp + 1) tp
     else if ascii_eqb q "?" then
       clear_table_line tp ;;
       table_set tp 0 (lit "?") ;;
       table_set tp 1 [c] ;;
       Filer_match fn p (fp + 1) (pp + 1) (tp + 1)
     else if ascii_eqb q "*" then
       clear_table_line tp ;;
       table_set tp 0 (lit "*") ;;
       table_set tp 1 [c] ;;
       b <- Filer_match fn p (fp + 1) (pp + 1) (tp + 1) ;;
       if b then ret true
       else star_loop fn p fp 1 pp tp
     else ret false) s.
Proof.
  intros H Hc Hq. rewrite Filer_match_unfold. unfold match_body.
  apply lookup_lt_Some in Hc as Hf. apply lookup_lt_Some in Hq as Hp.
  unfold dot_excluded in H.
  rewrite (bind_Val _ _ s (include_dots s) s) by done. rewrite H.
  rewrite (bool_decide_eq_false_2 (length fn <= fp)) by lia.
  rewrite (bool_decide_eq_false_2 (length p <= pp)) by lia.
  cbn [andb orb].
  rewrite (bind_Val _ _ s c s) by by apply getitem_Some.
  by rewrite (bind_Val _ _ s q s) by by apply getitem_Some.
Qed.

Lemma literal_match_from n : forall fn p fp pp tp s,
  length fn - fp < n -> dot_excluded fn s = false ->
  Forall literal (drop pp p) ->
  Filer_match fn p fp pp tp s = (Val (bool_decide (drop fp fn = drop pp p)), s).
Proof.
  induction n as [|n IH]; intros fn p fp pp tp s Hn Hdot Hlit; [lia|].
  destruct (fn !! fp) as [c|] eqn:Hc; destruct (p !! pp) as [q|] eqn:Hq.
  - rewrite (Filer_match_inside _ _ _ _ _ _ c q) by done.
    rewrite (drop_S _ _ _ Hc), (drop_S _ _ _ Hq) in *.
    apply Forall_cons in Hlit as [[Hstar Hqm] Hlit].
    destruct (ascii_eqb c q) eqn:Hcq.
    + apply ascii_eqb_true in Hcq as ->.
      apply lookup_lt_Some in Hc as Hf.
      rewrite (IH fn p (fp + 1) (pp + 1) tp s); [|lia|done|by replace (pp + 1) with (S pp) by lia].
      replace (pp + 1) with (S pp) by lia. replace (fp + 1) with (S fp) by lia.
      f_equal. f_equal. apply bool_decide_ext.
      split; [by intros ->|by intros [= ->]].
    + apply ascii_eqb_false in Hcq.
      apply ascii_eqb_false in Hqm as ->. apply ascii_eqb_false in Hstar as ->.
      rewrite bool_decide_eq_false_2; [done|congruence].
  - apply lookup_lt_Some in Hc as Hf. apply lookup_ge_None_1 in Hq as Hp.
    rewrite Filer_match_one_done by (done || lia).
    rewrite (drop_S _ _ _ Hc), (drop_ge p) by done.
    by rewrite bool_decide_eq_false_2.
  - apply lookup_ge_None_1 in Hc as Hf. apply lookup_lt_Some in Hq as Hp.
    rewrite Filer_match_one_done by (done || lia).
    rewrite (drop_S _ _ _ Hq), (drop_ge fn) by done.
    by rewrite bool_decide_eq_false_2.
  - apply lookup_ge_None_1 in Hc as Hf. apply lookup_ge_None_1 in Hq as Hp.
    rewrite Filer_match_both_done by done.
    rewrite !drop_ge by done. by rewrite bool_decide_eq_true_2.
Qed.

(** C8. Against a pattern that holds no [*] and no [?], [match] succeeds
    exactly when the filename equals the pattern character for character,
    except that a filename starting with a dot fails while dotfile
    inclusion is off.  The object is left as it was. *)
Theorem literal_pattern_matches_equal_name (f pat : str) (s : Filer) :
  Forall literal pat ->
  Filer_match f pat 0 0 0 s
  = (Val (if dot_excluded f s then false else bool_decide (f = pat)), s).
Proof.
  intros Hlit. destruct (dot_excluded f s) eqn:Hdot.
  - by apply Filer_match_dot.
  - by rewrite (literal_match_from (S (length f))) by (done || lia).
Qed.

Lemma literal_pattern_matches_equal_name_witness :
  Filer_match (lit "notes.txt") (lit "notes.txt") 0 0 0 (new_filer false)
  = (Val true, new_filer false) /\
  Filer_match (lit "notes.txt") (lit "notes.tx") 0 0 0 (new_filer false)
  = (Val false, new_filer false) /\
  Filer_match (lit ".rc") (lit ".rc") 0 0 0 (new_filer false)
  = (Val false, new_filer false) /\
  Filer_match (lit ".rc") (lit ".rc") 0 0 0 (new_filer true)
  = (Val true, new_filer true).
Proof.
  split; [|split; [|split]].
  - apply (literal_pattern_matches_equal_name (lit "notes.txt") (lit "notes.txt")
             (new_filer false)).
    repeat constructor; done.
  - apply (literal_pattern_matches_equal_name (lit "notes.txt") (lit "notes.tx")
             (new_filer false)).
    repeat constructor; done.
  - apply (literal_pattern_matches_equal_name (lit ".rc") (lit ".rc") (new_filer false)).
    repeat constructor; done.
  - apply (literal_pattern_matches_equal_name (lit ".rc") (lit ".rc") (new_filer true)).
    repeat constructor; done.
Defined.

Lemma wf_new_filer dots : wf (new_filer dots).
Proof. apply (wf_init clock0). Qed.

Lemma wf_configured dots pat tmpl : wf (configured dots pat tmpl).
Proof. apply (wf_init clock0). Qed.

Lemma wf_matched dots pat tmpl f : wf (matched dots pat tmpl f).
Proof.
  unfold matched.
  destruct (Filer_match_sat f pat 0 0 0 _ (wf_configured dots pat tmpl)) as [HI _].
  by apply HI, wf_configured.
Qed.

Lemma star_loop_exhausted fn p fp sp pp tp s :
  length fn <= fp + 1 ->
  star_loop fn p fp sp pp tp s = (Val (bool_decide (length p <= pp + 1)), s).
Proof.
  intros H. rewrite star_loop_unfold. unfold star_loop_body.
  by rewrite bool_decide_eq_true_2.
Qed.

(** At a [*] that faces a different filename character, with a free row. *)
Lemma Filer_match_star fn p fp pp tp s c :
  wf s -> tp < 10 -> dot_excluded fn s = false ->
  fn !! fp = Some c -> p !! pp = Some "*"%char -> c <> "*"%char ->
  Filer_match fn p fp pp tp s
  = (b <- Filer_match fn p (fp + 1) (pp + 1) (tp + 1) ;;
     if b then ret true else star_loop fn p fp 1 pp tp)
      (set_table (<[tp := capture_row (lit "*") c]> (table s)) s).
Proof.
  intros Hwf Htp Hdot Hc Hq Hne.
  rewrite (Filer_match_inside _ _ _ _ _ _ c "*") by done.
  apply ascii_eqb_false in Hne as ->.
  change (ascii_eqb "*" "?") with false. change (ascii_eqb "*" "*") with true.
  cbv iota. by apply begin_capture_in.
Qed.

(** C5. When the star-expansion loop steps onto the end of the filename,
    it returns true exactly when no pattern token follows the [*], without
    writing to the table or calling [match] again; and so does the call of
    [match] that meets a [*] at the last character of the filename. *)
Theorem star_at_end_of_filename (fn p : str) (fp pp tp : nat) :
  length fn <= fp + 1 ->
  (forall sp s,
     star_loop fn p fp sp pp tp s = (Val (bool_decide (length p <= pp + 1)), s)) /\
  (forall s c,
     wf s -> tp < 10 -> dot_excluded fn s = false ->
     fn !! fp = Some c -> p !! pp = Some "*"%char -> c <> "*"%char ->
     (Filer_match fn p fp pp tp s).1 = Val (bool_decide (length p <= pp + 1))).
Proof.
  intros Hend. split; [intros; by apply star_loop_exhausted|].
  intros s c Hwf Htp Hdot Hc Hq Hne.
  rewrite (Filer_match_star _ _ _ _ _ _ c) by done.
  set (s1 := set_table _ s).
  assert (dot_excluded fn s1 = false) as Hdot1 by done.
  apply lookup_lt_Some in Hc as Hf.
  case_bool_decide as Hp.
  - erewrite bind_Val; [|apply Filer_match_both_done; [done|lia|lia]]. done.
  - erewrite bind_Val; [|apply Filer_match_one_done; [done|left; lia]].
    cbv beta iota. rewrite star_loop_exhausted by done.
    by rewrite bool_decide_eq_false_2.
Qed.

Lemma star_at_end_of_filename_witness :
  star_loop (lit "ab") (lit "*b*") 1 2 0 0 (new_filer false) = (Val false, new_filer false) /\
  (Filer_match (lit "ab") (lit "a*") 1 1 0 (new_filer false)).1 = Val true /\
  (Filer_match (lit "ab") (lit "a*c") 1 1 0 (new_filer false)).1 = Val false.
Proof.
  split; [|split].
  - apply (proj1 (star_at_end_of_filename (lit "ab") (lit "*b*") 1 0 0 ltac:(cbn; lia))).
  - apply (proj2 (star_at_end_of_filename (lit "ab") (lit "a*") 1 1 0 ltac:(cbn; lia))
             (new_filer false) "b"%char);
      [apply wf_new_filer|lia|done|done|done|done].
  - apply (proj2 (star_at_end_of_filename (lit "ab") (lit "a*c") 1 1 0 ltac:(cbn; lia))
             (new_filer false) "b"%char);
      [apply wf_new_filer|lia|done|done|done|done].
Defined.

(** ** The tenth row and the 300th cell *)

Lemma Filer_match_no_row fn p fp pp tp s c q :
  length (table s) <= tp -> dot_excluded fn s = false ->
  fn !! fp = Some c -> p !! pp = Some q -> c <> q ->
  q = "?"%char \/ q = "*"%char ->
  Filer_match fn p fp pp tp s = (Raise IndexError, s).
Proof.
  intros Htp Hdot Hc Hq Hne Hwild.
  rewrite (Filer_match_inside _ _ _ _ _ _ c q) by done.
  apply ascii_eqb_false in Hne as ->.
  destruct Hwild as [-> | ->].
  - change (ascii_eqb "?" "?") with true. cbv iota. by apply begin_capture_out.
  - change (ascii_eqb "*" "?") with false. change (ascii_eqb "*" "*") with true.
    cbv iota. by apply begin_capture_out.
Qed.

(** C7, as the code has it.  A wildcard met with the cursor past the last
    row (ten wildcards already recorded on this path) makes [match] raise
    [IndexError] before anything is written; whatever the outcome of a
    call, the rows below its cursor are as they were and the table is
    still ten rows of [FNLEN] cells.  A wildcard whose filename character
    is the same character is consumed as a literal and takes no row. *)
Theorem wildcard_past_last_row (fn p : str) (fp pp tp : nat) (s : Filer) :
  wf s ->
  (forall c q,
     10 <= tp -> dot_excluded fn s = false ->
     fn !! fp = Some c -> p !! pp = Some q -> c <> q ->
     q = "?"%char \/ q = "*"%char ->
     Filer_match fn p fp pp tp s = (Raise IndexError, s)) /\
  (forall i, i < tp -> table (Filer_match fn p fp pp tp s).2 !! i = table s !! i) /\
  wf (Filer_match fn p fp pp tp s).2.
Proof.
  intros Hwf. split; [|split].
  - intros c q Htp Hdot Hc Hq Hne Hwild.
    apply (Filer_match_no_row _ _ _ _ _ _ c q); try done.
    destruct Hwf as [[-> _] _]. lia.
  - intros i Hi. destruct (Filer_match fn p fp pp tp s) as [o s'] eqn:H.
    apply Filer_match_outcome in H as (_ & Hc & _); [|done].
    by apply (captures_below tp).
  - destruct (Filer_match fn p fp pp tp s) as [o s'] eqn:H.
    by apply Filer_match_outcome in H as (Hwf' & _ & _).
Qed.

Lemma wildcard_past_last_row_witness :
  Filer_match (lit "aaaaaaaaaaab") (lit "???????????b") 10 10 10 (new_filer false)
  = (Raise IndexError, new_filer false) /\
  table (Filer_match (lit "abcd") (lit "a?c?") 2 2 1 (matched false (lit "a?c?") (lit "") (lit "abxx"))).2 !! 0
  = table (matched false (lit "a?c?") (lit "") (lit "abxx")) !! 0 /\
  wf (Filer_match (lit "abcd") (lit "a?c?") 2 2 1 (matched false (lit "a?c?") (lit "") (lit "abxx"))).2.
Proof.
  split; [|split].
  - apply (proj1 (wildcard_past_last_row (lit "aaaaaaaaaaab") (lit "???????????b")
                    10 10 10 (new_filer false) (wf_new_filer false))
             "a"%char "?"%char);
      [lia|done|done|done|done|by left].
  - apply (proj1 (proj2 (wildcard_past_last_row (lit "abcd") (lit "a?c?") 2 2 1 _
                           (wf_matched false (lit "a?c?") (lit "") (lit "abxx"))))).
    lia.
  - apply (proj2 (proj2 (wildcard_past_last_row (lit "abcd") (lit "a?c?") 2 2 1 _
                           (wf_matched false (lit "a?c?") (lit "") (lit "abxx"))))).
Defined.

(** C7, as stated, fails: the pattern below has eleven wildcards, the
    eleventh is reached and recorded, and the match succeeds. *)
Lemma eleven_wildcards_can_match :
  count_wildcards (lit "???????????") = 11 /\
  (Filer_match (lit "?aaaaaaaaaa") (lit "???????????") 0 0 0 (new_filer false)).1
  = Val true /\
  captures_of 10
    (Filer_match (lit "?aaaaaaaaaa") (lit "???????????") 0 0 0 (new_filer false)).2
  = replicate 10 (lit "?", lit "a").
Proof. vm_compute. done. Qed.

Lemma star_loop_row_full fn p fp sp pp tp s :
  wf s -> FNLEN <= sp + 1 -> fp + 1 < length fn ->
  star_loop fn p fp sp pp tp s = (Raise IndexError, s).
Proof.
  intros Hwf Hsp Hfp. rewrite star_loop_unfold. unfold star_loop_body.
  rewrite bool_decide_eq_false_2 by lia.
  destruct (lookup_lt_is_Some_2 fn (fp + 1)) as [c Hc]; [done|].
  erewrite bind_Val; [|by apply getitem_Some].
  apply bind_Raise.
  destruct (table s !! tp) as [row|] eqn:Hrow.
  - apply table_set_no_cell with row; [done|].
    destruct Hwf as [[_ Hr] _]. rewrite (Hr _ _ Hrow). lia.
  - apply table_set_no_row. by apply lookup_ge_None_1.
Qed.

Lemma star_loop_long d : forall k s fn,
  k + d = 298 -> wf s -> dot_excluded fn s = false -> FNLEN <= length fn ->
  (star_loop fn (lit "*") k (k + 1) 0 0 s).1 = Raise IndexError.
Proof.
  pose proof FNLEN_eq as HF.
  induction d as [|d IH]; intros k s fn Hk Hwf Hdot Hlen.
  - rewrite star_loop_row_full; [done|done|lia|lia].
  - rewrite star_loop_unfold. unfold star_loop_body.
    rewrite bool_decide_eq_false_2 by lia.
    destruct (lookup_lt_is_Some_2 fn (k + 1)) as [c Hc]; [lia|].
    erewrite bind_Val; [|by apply getitem_Some].
    destruct (lookup_lt_is_Some_2 (table s) 0) as [row Hrow].
    { destruct Hwf as [[-> _] _]. lia. }
    assert (length row = FNLEN) as Hrl by (destruct Hwf as [[_ Hr] _]; eauto).
    erewrite bind_Val; [|apply table_set_in; [done|lia]].
    set (s1 := set_table _ s).
    assert (wf s1) as Hwf1.
    { destruct Hwf as [Ht Hn]. split; [|done]. subst s1. cbn [table set_table].
      apply wf_table_insert; [done|]. by rewrite length_insert. }
    erewrite bind_Val;
      [|apply Filer_match_one_done; [done|right; cbn [length lit list_ascii_of_string]; lia]].
    cbv beta iota. apply IH; [lia|done|done|done].
Qed.

(** C10, as the code has it.  A filename of [FNLEN] characters or more
    that passes the dotfile test and does not itself start with [*] makes
    the match against the pattern ["*"] raise [IndexError]; in general the
    star-expansion loop raises it, leaving the object as it is, as soon as
    it has another filename character to store and the star's text
    already fills cells 1 to [FNLEN - 1] of its row. *)
Theorem long_star_text_raises (s : Filer) :
  wf s ->
  (forall fn c,
     FNLEN <= length fn -> dot_excluded fn s = false ->
     fn !! 0 = Some c -> c <> "*"%char ->
     (Filer_match fn (lit "*") 0 0 0 s).1 = Raise IndexError) /\
  (forall fn p fp sp pp tp,
     FNLEN <= sp + 1 -> fp + 1 < length fn ->
     star_loop fn p fp sp pp tp s = (Raise IndexError, s)).
Proof.
  intros Hwf. split; [|intros; by apply star_loop_row_full].
  intros fn c Hlen Hdot Hc Hne.
  pose proof FNLEN_eq as HF.
  rewrite (Filer_match_star _ _ _ _ _ _ c) by (done || lia).
  set (s1 := set_table _ s).
  assert (wf s1) as Hwf1 by by apply wf_begin.
  erewrite bind_Val;
    [|apply Filer_match_one_done; [done|right; cbn [length lit list_ascii_of_string]; lia]].
  cbv beta iota. apply (star_loop_long 298 0); [done|done|done|done].
Qed.

Lemma long_star_text_raises_witness :
  (Filer_match (replicate 300 "a"%char) (lit "*") 0 0 0 (new_filer false)).1
  = Raise IndexError /\
  star_loop (replicate 400 "a"%char) (lit "x*y") 350 299 1 0 (new_filer false)
  = (Raise IndexError, new_filer false).
Proof.
  split.
  - apply (proj1 (long_star_text_raises (new_filer false) (wf_new_filer false))
             (replicate 300 "a"%char) "a"%char);
      [by rewrite length_replicate|done|done|done].
  - apply (proj2 (long_star_text_raises (new_filer false) (wf_new_filer false))
             (replicate 400 "a"%char) (lit "x*y") 350 299 1 0).
    + rewrite FNLEN_eq. lia.
    + rewrite length_replicate. lia.
Defined.

(** C10, as stated, fails: a name of 300 characters that starts with [*]
    is compared literally with the pattern's [*], and the match returns
    false. *)
Lemma long_name_starting_with_star :
  length ("*"%char :: replicate 299 "a"%char) = 300 /\
  (Filer_match ("*"%char :: replicate 299 "a"%char) (lit "*") 0 0 0 (new_filer false)).1
  = Val false.
Proof. vm_compute. done. Qed.

(** ** A star takes at least one character *)

Lemma captures_star_rows tp s s' :
  captures tp s s' -> star_rows_nonempty s -> star_rows_nonempty s'.
Proof.
  pose proof FNLEN_eq as HF.
  induction 1 as [|s s' line m c ? ? ? ? IH|s s' line row k c ? Hrow ? ? ? IH];
    intros Hinv; [done|..]; apply IH; intros i row' Hi Hm; cbn [table set_table] in Hi.
  - destruct (decide (i = line)) as [->|Hne].
    + destruct (decide (line < length (table s))).
      * rewrite list_lookup_insert_eq in Hi by done. injection Hi as <-.
        exists c. unfold capture_row. apply list_lookup_insert_eq.
        rewrite length_insert, length_replicate. lia.
      * rewrite list_insert_ge in Hi by lia. eauto.
    + rewrite list_lookup_insert_ne in Hi by done. eauto.
  - destruct (decide (i = line)) as [->|Hne].
    + rewrite list_lookup_insert_eq in Hi by by eapply lookup_lt_Some.
      injection Hi as <-.
      rewrite list_lookup_insert_ne in Hm by lia.
      rewrite list_lookup_insert_ne by lia. eauto.
    + rewrite list_lookup_insert_ne in Hi by done. eauto.
Qed.

Lemma star_rows_nonempty_new dots : star_rows_nonempty (new_filer dots).
Proof.
  intros i row Hi Hm. apply lookup_replicate in Hi as [-> _].
  apply lookup_replicate in Hm as [Hm _]. discriminate.
Qed.

Lemma star_loop_step fn p fp sp pp tp s c row :
  fn !! (fp + 1) = Some c -> table s !! tp = Some row -> sp + 1 < length row ->
  star_loop fn p fp sp pp tp s
  = (b <- Filer_match fn p (fp + 1 + 1) (pp + 1) (tp + 1) ;;
     if b then ret true else star_loop fn p (fp + 1) (sp + 1) pp tp)
      (set_table (<[tp := <[sp + 1 := [c]]> row]> (table s)) s).
Proof.
  intros Hc Hrow Hsp. rewrite star_loop_unfold. unfold star_loop_body.
  apply lookup_lt_Some in Hc as Hf.
  rewrite bool_decide_eq_false_2 by lia.
  erewrite bind_Val; [|by apply getitem_Some].
  erewrite bind_Val; [|by apply table_set_in]. done.
Qed.

(** C1, as the code has it.  A [*] stands for a run of one or more
    characters.  When [match] reaches a [*] (facing a filename character
    other than [*], with a free row) it records the current filename
    character as the star's text and first recurses with the filename
    position, the pattern position and the cursor each advanced by one;
    only then does the loop grow the text, one character per round, each
    time retrying one filename character further on.  No call of [match]
    leaves a row marked [*] with an empty text. *)
Theorem star_takes_one_character_first (fn p : str) (fp pp tp : nat) (s : Filer) :
  wf s ->
  (forall c,
     tp < 10 -> dot_excluded fn s = false ->
     fn !! fp = Some c -> p !! pp = Some "*"%char -> c <> "*"%char ->
     Filer_match fn p fp pp tp s
     = (b <- Filer_match fn p (fp + 1) (pp + 1) (tp + 1) ;;
        if b then ret true else star_loop fn p fp 1 pp tp)
         (set_table (<[tp := capture_row (lit "*") c]> (table s)) s)) /\
  (forall sp c row,
     fn !! (fp + 1) = Some c -> table s !! tp = Some row -> sp + 1 < FNLEN ->
     star_loop fn p fp sp pp tp s
     = (b <- Filer_match fn p (fp + 1 + 1) (pp + 1) (tp + 1) ;;
        if b then ret true else star_loop fn p (fp + 1) (sp + 1) pp tp)
         (set_table (<[tp := <[sp + 1 := [c]]> row]> (table s)) s)) /\
  (star_rows_nonempty s -> star_rows_nonempty (Filer_match fn p fp pp tp s).2).
Proof.
  intros Hwf. split; [|split].
  - intros c Htp Hdot Hc Hq Hne. by apply Filer_match_star.
  - intros sp c row Hc Hrow Hsp. apply star_loop_step; [done|done|].
    destruct Hwf as [[_ Hr] _]. by rewrite (Hr _ _ Hrow).
  - intros Hinv. destruct (Filer_match fn p fp pp tp s) as [o s'] eqn:H.
    apply Filer_match_outcome in H as (_ & Hc & _); [|done].
    by apply (captures_star_rows tp s).
Qed.

Lemma star_takes_one_character_first_witness :
  Filer_match (lit "abc") (lit "a*c") 1 1 0 (new_filer false)
  = (b <- Filer_match (lit "abc") (lit "a*c") 2 2 1 ;;
     if b then ret true else star_loop (lit "abc") (lit "a*c") 1 1 1 0)
      (set_table (<[0 := capture_row (lit "*") "b"]> (table (new_filer false)))
         (new_filer false)) /\
  star_loop (lit "abcd") (lit "*d") 0 1 0 0 (new_filer false)
  = (b <- Filer_match (lit "abcd") (lit "*d") 2 1 1 ;;
     if b then ret true else star_loop (lit "abcd") (lit "*d") 1 2 0 0)
      (set_table (<[0 := <[2 := [("b"%char : ascii)]]> (replicate FNLEN E)]>
                    (table (new_filer false)))
         (new_filer false)) /\
  star_rows_nonempty (Filer_match (lit "abc") (lit "a*c") 0 0 0 (new_filer false)).2.
Proof.
  split; [|split].
  - apply (proj1 (star_takes_one_character_first (lit "abc") (lit "a*c") 1 1 0
                    (new_filer false) (wf_new_filer false)) "b"%char);
      [lia|done|done|done|done].
  - apply (proj1 (proj2 (star_takes_one_character_first (lit "abcd") (lit "*d") 0 0 0
                    (new_filer false) (wf_new_filer false)))
             1 "b"%char (replicate FNLEN E)); [done|done|].
    rewrite FNLEN_eq. lia.
  - apply (proj2 (proj2 (star_takes_one_character_first (lit "abc") (lit "a*c") 0 0 0
                    (new_filer false) (wf_new_filer false)))).
    apply star_rows_nonempty_new.
Defined.

(** C1, as stated, fails: [match("ac", "a*c")] returns false, and so does
    [match("a", "a*")], while [match("abc", "a*c")] succeeds with the star
    holding ["b"]. *)
Lemma star_does_not_match_empty :
  Filer_match (lit "ac") (lit "a*c") 0 0 0 (new_filer false)
  = (Val false,
     set_table (<[0 := capture_row (lit "*") "c"]> (table (new_filer false)))
       (new_filer false)) /\
  (Filer_match (lit "a") (lit "a*") 0 0 0 (new_filer false)).1 = Val false /\
  (Filer_match (lit "abc") (lit "a*c") 0 0 0 (new_filer false)).1 = Val true /\
  captures_of 1 (Filer_match (lit "abc") (lit "a*c") 0 0 0 (new_filer false)).2
  = [(lit "*", lit "b")].
Proof. vm_compute. done. Qed.

(** ** The rebuild engine: frames and outcomes *)

Lemma sat_gets_end {A} (I : relation Filer) `{!PreOrder I} (ok : res unit -> Prop)
    (f : Filer -> A) s :
  ok (Val tt) -> sat I ok (gets f) s.
Proof. by split. Qed.

Lemma sat_modify_end (I : relation Filer) (ok : res unit -> Prop) (f : Filer -> Filer) s :
  I s (f s) -> ok (Val tt) -> sat I ok (modify f) s.
Proof. by split. Qed.

Ltac rb_frame_solve :=
  unfold rb_frame;
  cbn [include_dots quotenames table r p cmd seq_number clock stdout nn nnp stk qmk ticks
       set_table set_stk set_qmk set_nnp set_nn set_stdout set_ticks set_seq_number];
  repeat split; try done; try lia;
  try (by apply prefix_app_r); try (by rewrite length_insert).

Lemma rb_frame_print msg s : rb_frame s (set_stdout (stdout s ++ [msg]) s).
Proof. rb_frame_solve. Qed.

Lemma sat_print_end ok msg s : ok (Val tt) -> sat rb_frame ok (print msg) s.
Proof. intros H. apply sat_modify_end; [apply rb_frame_print|done]. Qed.

Lemma sat_nn_set {B} (ok : res unit -> Prop) x v (k : M B) s :
  ok (Raise IndexError) ->
  (x < length (nn s) -> sat rb_frame ok k (set_nn (<[x := v]> (nn s)) s)) ->
  sat rb_frame ok (nn_set x v ;; k) s.
Proof.
  intros Hie Hk. unfold sat, nn_set.
  cbv beta iota zeta delta [bind gets].
  destruct (decide (x < length (nn s))) as [Hlt|Hge];
    cbv beta iota zeta delta [modify raise].
  - destruct (Hk Hlt) as [HI Hok]. split; [|done].
    etrans; [|exact HI]. rb_frame_solve.
  - by split.
Qed.

(** [self.nn[self.nnp] = v; self.nnp += 1] *)
Lemma sat_push {B} (ok : res unit -> Prop) v (k : M B) s :
  ok (Raise IndexError) ->
  (nnp s < length (nn s) ->
   sat rb_frame ok k (set_nnp (nnp s + 1) (set_nn (<[nnp s := v]> (nn s)) s))) ->
  sat rb_frame ok (x <- gets nnp ;; nn_set x v ;; modify (set_nnp (x + 1)) ;; k) s.
Proof.
  intros Hie Hk. apply sat_gets. apply sat_nn_set; [done|]. intros Hlt.
  apply sat_modify; [apply _| |by apply Hk].
  rb_frame_solve. intros _. rewrite length_insert. lia.
Qed.

Lemma get_digit_sat l s : sat rb_frame no_exit (get_digit l) s.
Proof.
  unfold get_digit. apply sat_gets.
  case_bool_decide; [by apply sat_ret; try apply _|].
  apply sat_getitem; [apply _|done|]. intros c Hc.
  destruct (negb _); [by apply sat_ret; try apply _|].
  case_bool_decide; [by apply sat_ret; try apply _|].
  apply sat_getitem; [apply _|done|]. intros c2 Hc2.
  destruct (int_of_char c2); [|by apply sat_ret; try apply _].
  destruct (_ && _); by apply sat_ret; try apply _.
Qed.

Lemma table_get_sat {B} (ok : res unit -> Prop) line k (K : str -> M B) s :
  ok (Raise IndexError) ->
  (forall x, sat rb_frame ok (K x) s) ->
  sat rb_frame ok (x <- table_get line k ;; K x) s.
Proof.
  intros Hie HK. unfold table_get, sat.
  cbv beta iota zeta delta [bind gets getitem].
  destruct (table s !! line) as [row|];
    cbv beta iota zeta delta [ret raise]; [|by split].
  destruct (row !! k) as [x|]; [apply HK|by split].
Qed.

Lemma where_loop_sat n : forall marker dg w s,
  (10 - w) + (if decide (dg = 0) then 0 else 1) < n ->
  sat rb_frame no_exit (where_loop n marker dg w) s.
Proof.
  induction n as [|n IH]; intros marker dg w s Hn; [lia|].
  cbn [where_loop]. cbv zeta.
  destruct (negb _ && _) eqn:Hcond; [|by apply sat_ret; try apply _].
  apply andb_true_iff in Hcond as [Hdg Hw].
  apply negb_true_iff, bool_decide_eq_false in Hdg.
  apply bool_decide_eq_true in Hw.
  destruct (decide (dg = 0)); [done|].
  apply table_get_sat; [done|]. intros m.
  apply IH. repeat case_bool_decide; destruct (str_eqb m marker);
    repeat case_decide; lia.
Qed.

Lemma rb_copy_loop_sat n : forall w tk s,
  FNLEN - tk < n -> sat rb_frame no_exit (rb_copy_loop n w tk) s.
Proof.
  induction n as [|n IH]; intros w tk s Hn; [lia|].
  cbn [rb_copy_loop].
  case_bool_decide; [|by apply sat_ret; try apply _].
  apply table_get_sat; [done|]. intros cell.
  destruct (str_eqb cell E); [by apply sat_ret; try apply _|].
  apply sat_push; [done|]. intros _. apply IH. lia.
Qed.

Lemma rb_copy_sat w s : sat rb_frame no_exit (rb_copy w) s.
Proof. apply rb_copy_loop_sat. pose proof FNLEN_eq. lia. Qed.

Lemma copy_found_sat w s : sat rb_frame no_exit (copy_found w) s.
Proof.
  unfold copy_found. case_bool_decide; [by apply sat_print_end|].
  apply table_get_sat; [done|]. intros m.
  destruct (str_eqb m E); [by apply sat_print_end|apply rb_copy_sat].
Qed.

Lemma rb_star_sat l s : sat rb_frame no_exit (rb_star l) s.
Proof.
  unfold rb_star. cbv zeta.
  apply sat_bind; [apply _|apply get_digit_sat|]. intros dg s1 _ _.
  case_bool_decide; [by apply sat_print_end|].
  apply sat_bind; [apply _| |].
  { case_bool_decide.
    - apply sat_gets. apply sat_modify; [apply _|rb_frame_solve|].
      by apply sat_gets_end; try apply _.
    - apply sat_modify; [apply _|rb_frame_solve|]. by apply sat_ret; try apply _. }
  intros dg' s2 _ _.
  apply sat_bind; [apply _|apply where_loop_sat; case_decide; lia|].
  intros w s3 _ _. apply copy_found_sat.
Qed.

Lemma rb_qmark_sat l s : sat rb_frame no_exit (rb_qmark l) s.
Proof.
  unfold rb_qmark. cbv zeta.
  apply sat_bind; [apply _|apply get_digit_sat|]. intros dg s1 _ _.
  case_bool_decide; [by apply sat_print_end|].
  apply sat_bind; [apply _| |].
  { case_bool_decide.
    - apply sat_gets. apply sat_modify; [apply _|rb_frame_solve|].
      by apply sat_gets_end; try apply _.
    - apply sat_modify; [apply _|rb_frame_solve|]. by apply sat_ret; try apply _. }
  intros dg' s2 _ _.
  apply sat_bind; [apply _|apply where_loop_sat; case_decide; lia|].
  intros w s3 _ _. apply copy_found_sat.
Qed.

Lemma insert_string_sat x : forall s, sat rb_frame no_exit (insert_string x) s.
Proof.
  induction x as [|char x IH]; intros s; cbn [insert_string];
    [by apply sat_ret; try apply _|].
  apply sat_gets. apply sat_bind; [apply _| |intros; apply IH].
  case_bool_decide; [|by apply sat_ret; try apply _].
  apply sat_nn_set; [done|]. intros Hlt.
  apply sat_modify_end; [|done].
  rb_frame_solve. intros _. rewrite length_insert. lia.
Qed.

Lemma drop_nil_inv {A} (l : list A) n : drop n l = [] -> length l <= n.
Proof. intros H. apply (f_equal length) in H. rewrite length_drop in H. cbn in H. lia. Qed.

Lemma drop_cons_inv {A} (l : list A) n x t :
  drop n l = x :: t -> l !! n = Some x /\ drop (n + 1) l = t /\ n < length l.
Proof.
  intros H. assert (l !! n = Some x) as Hx.
  { rewrite <- (Nat.add_0_r n), <- lookup_drop, H. done. }
  split; [done|]. split; [|by eapply lookup_lt_Some].
  rewrite Nat.add_1_r. rewrite (drop_S _ _ _ Hx) in H. congruence.
Qed.

Lemma then_ret_outcome {A} (c : M unit) (a : A) s :
  sat rb_frame no_exit c s ->
  rb_frame s ((c ;; ret a) s).2 /\
  (((c ;; ret a) s).1 = Val a \/ ((c ;; ret a) s).1 = Raise IndexError).
Proof.
  unfold sat, bind, ret. intros [HI Hok].
  destruct (c s) as [[[]|[|n]|] s1]; cbn in *; try done; auto.
Qed.

Lemma exit_outcome {A} msg s :
  rb_frame s ((print msg ;; @sys_exit A 2) s).2 /\
  ((print msg ;; @sys_exit A 2) s).1 = Raise (SystemExit 2).
Proof. split; [apply rb_frame_print|done]. Qed.

Lemma rb_date_spec l s :
  rb_frame s (rb_date l s).2 /\
  match drop (l + 1) (r s) with
  | [] => (rb_date l s).1 = Raise (SystemExit 2)
  | x :: _ =>
      if is_date_code x
      then (rb_date l s).1 = Val (l + 1 + 1) \/ (rb_date l s).1 = Raise IndexError
      else (rb_date l s).1 = Raise (SystemExit 2)
  end.
Proof.
  unfold rb_date. cbv zeta.
  rewrite (bind_Val _ _ s (r s) s) by done.
  destruct (drop (l + 1) (r s)) as [|x t] eqn:Hd.
  - apply drop_nil_inv in Hd. rewrite bool_decide_eq_true_2 by done.
    apply exit_outcome.
  - apply drop_cons_inv in Hd as (Hx & _ & Hl).
    rewrite bool_decide_eq_false_2 by lia.
    unfold datetime_now at 1 2 3 4.
    rewrite (bind_Val _ _ s (clock s (ticks s)) (set_ticks (S (ticks s)) s)) by done.
    set (s1 := set_ticks _ s). set (now := clock s (ticks s)).
    assert (rb_frame s s1) as H1 by rb_frame_solve.
    erewrite bind_Val; [|by apply getitem_Some].
    assert (forall str,
      rb_frame s ((insert_string str ;; ret (l + 1 + 1)) s1).2 /\
      (((insert_string str ;; ret (l + 1 + 1)) s1).1 = Val (l + 1 + 1) \/
       ((insert_string str ;; ret (l + 1 + 1)) s1).1 = Raise IndexError)) as Hins.
    { intros str.
      destruct (then_ret_outcome (insert_string str) (l + 1 + 1) s1) as [HI Ho];
        [apply insert_string_sat|].
      split; [by etrans|done]. }
    unfold is_date_code.
    repeat match goal with
           | |- context [ascii_eqb x ?c] =>
               destruct (ascii_eqb x c); [cbn [orb]; apply Hins|]
           end.
    cbn [orb]. split; [|done]. etrans; [done|]. apply (rb_frame_print _ s1).
Qed.

Lemma rb_seq_spec l s :
  rb_frame s (rb_seq l s).2 /\
  match drop (l + 1) (r s) with
  | [] => (rb_seq l s).1 = Raise (SystemExit 2)
  | x :: _ =>
      if is_seq_digit x
      then (rb_seq l s).1 = Val (l + 1 + 1) \/ (rb_seq l s).1 = Raise IndexError
      else (rb_seq l s).1 = Raise (SystemExit 2)
  end.
Proof.
  unfold rb_seq. cbv zeta.
  rewrite (bind_Val _ _ s (r s) s) by done.
  destruct (drop (l + 1) (r s)) as [|x t] eqn:Hd.
  - apply drop_nil_inv in Hd. rewrite bool_decide_eq_true_2 by done.
    apply exit_outcome.
  - apply drop_cons_inv in Hd as (Hx & _ & Hl).
    rewrite bool_decide_eq_false_2 by lia.
    erewrite bind_Val; [|by apply getitem_Some].
    unfold is_seq_digit. destruct (int_of_char x) as [d|]; [|apply exit_outcome].
    repeat case_bool_decide; cbn [andb orb]; try apply exit_outcome; try lia.
    rewrite (bind_Val _ _ s (seq_number s) s) by done.
    apply then_ret_outcome, insert_string_sat.
Qed.

Lemma rb_quote_spec l s :
  rb_frame s (rb_quote l s).2 /\
  match drop (l + 1) (r s) with
  | [] => (rb_quote l s).1 = Val (l + 1)
  | k :: t2 =>
      if ascii_eqb k "d" then
        match t2 with
        | [] => (rb_quote l s).1 = Raise (SystemExit 2)
        | x :: _ =>
            if is_date_code x
            then (rb_quote l s).1 = Val (l + 1 + 1 + 1) \/ (rb_quote l s).1 = Raise IndexError
            else (rb_quote l s).1 = Raise (SystemExit 2)
        end
      else if ascii_eqb k "s" then
        match t2 with
        | [] => (rb_quote l s).1 = Raise (SystemExit 2)
        | x :: _ =>
            if is_seq_digit x
            then (rb_quote l s).1 = Val (l + 1 + 1 + 1) \/ (rb_quote l s).1 = Raise IndexError
            else (rb_quote l s).1 = Raise (SystemExit 2)
        end
      else (rb_quote l s).1 = Raise (SystemExit 2)
  end.
Proof.
  unfold rb_quote. cbv zeta.
  rewrite (bind_Val _ _ s (r s) s) by done.
  destruct (drop (l + 1) (r s)) as [|k t2] eqn:Hd.
  - apply drop_nil_inv in Hd. by rewrite bool_decide_eq_false_2 by lia.
  - apply drop_cons_inv in Hd as (Hk & Ht2 & Hl).
    rewrite bool_decide_eq_true_2 by lia.
    erewrite bind_Val; [|by apply getitem_Some].
    destruct (ascii_eqb k "d").
    { pose proof (rb_date_spec (l + 1) s) as H. by rewrite Ht2 in H. }
    destruct (ascii_eqb k "s").
    { pose proof (rb_seq_spec (l + 1) s) as H. by rewrite Ht2 in H. }
    apply exit_outcome.
Qed.

Lemma no_exit_loop_outcome t e : no_exit (Raise e) -> loop_outcome t (Raise e).
Proof.
  destruct e as [|n]; [|done]. intros _. unfold loop_outcome.
  destruct (fatal_escape t); by right.
Qed.

Lemma loop_outcome_ext t t' :
  fatal_escape t = fatal_escape t' -> loop_outcome t = loop_outcome t'.
Proof. unfold loop_outcome. by intros ->. Qed.

Lemma rebuild_loop_sat n : forall l s,
  length (r s) - l < n ->
  sat rb_frame (loop_outcome (drop l (r s))) (rebuild_loop n l) s.
Proof.
  induction n as [|n IH]; intros l s Hn; [lia|].
  cbn [rebuild_loop]. apply sat_gets.
  destruct (drop l (r s)) as [|c t1] eqn:Hd.
  { apply drop_nil_inv in Hd. rewrite bool_decide_eq_false_2 by lia.
    apply sat_ret; [apply _|by left]. }
  apply drop_cons_inv in Hd as (Hc & Ht1 & Hl).
  rewrite bool_decide_eq_true_2 by done.
  apply sat_getitem; [apply _|apply no_exit_loop_outcome; done|].
  intros c' Hc'. assert (c' = c) as -> by congruence.
  assert (forall s1, rb_frame s s1 ->
            sat rb_frame (loop_outcome t1) (rebuild_loop n (l + 1)) s1) as Hnext.
  { intros s1 HI. assert (r s1 = r s) as Hr by apply HI.
    rewrite <- Ht1, <- Hr. apply IH. rewrite Hr. lia. }
  destruct (ascii_eqb c "*") eqn:Hstar.
  { apply ascii_eqb_true in Hstar as ->.
    rewrite (loop_outcome_ext _ t1) by done.
    apply sat_bind_gen with (ok1 := no_exit);
      [apply _|apply rb_star_sat|apply no_exit_loop_outcome|done|].
    intros [] s1 _ HI. by apply Hnext. }
  destruct (ascii_eqb c "?") eqn:Hqm.
  { apply ascii_eqb_true in Hqm as ->.
    rewrite (loop_outcome_ext _ t1) by done.
    apply sat_bind_gen with (ok1 := no_exit);
      [apply _|apply rb_qmark_sat|apply no_exit_loop_outcome|done|].
    intros [] s1 _ HI. by apply Hnext. }
  destruct (ascii_eqb c "'") eqn:Hquote.
  - destruct (rb_quote_spec l s) as [HI Hq]. rewrite Ht1 in Hq.
    assert (forall t3, drop (l + 1 + 1 + 1) (r s) = t3 ->
              (rb_quote l s).1 = Val (l + 1 + 1 + 1) \/ (rb_quote l s).1 = Raise IndexError ->
              sat rb_frame (loop_outcome t3)
                  (l' <- rb_quote l ;; rebuild_loop n l') s) as Hgo.
    { intros t3 Ht3 Ho. unfold sat, bind.
      destruct (rb_quote l s) as [o s1]. cbn [fst snd] in *.
      assert (r s1 = r s) as Hr by apply HI.
      destruct Ho as [-> | ->].
      - destruct (IH (l + 1 + 1 + 1) s1) as [HI2 Ho2]; [rewrite Hr; lia|].
        rewrite Hr, Ht3 in Ho2. split; [by etrans|done].
      - split; [done|]. by apply no_exit_loop_outcome. }
    assert ((rb_quote l s).1 = Raise (SystemExit 2) ->
            rb_frame s ((l' <- rb_quote l ;; rebuild_loop n l') s).2 /\
            cls ((l' <- rb_quote l ;; rebuild_loop n l') s).1 = Raise (SystemExit 2))
      as Hexit.
    { intros Ho. unfold bind. destruct (rb_quote l s) as [o s1].
      cbn [fst snd] in *. by subst o. }
    assert (forall t, fatal_escape t = true ->
              (rb_quote l s).1 = Raise (SystemExit 2) ->
              sat rb_frame (loop_outcome t) (l' <- rb_quote l ;; rebuild_loop n l') s)
      as Hstop.
    { intros t Ht Ho. destruct (Hexit Ho) as [? Hcls]. split; [done|].
      rewrite Hcls. unfold loop_outcome. rewrite Ht. by left. }
    destruct t1 as [|k t2].
    { rewrite (loop_outcome_ext _ []) by (cbn [fatal_escape]; by rewrite Hquote).
      unfold sat, bind. destruct (rb_quote l s) as [o s1]. cbn [fst snd] in *.
      subst o. assert (r s1 = r s) as Hr by apply HI.
      destruct (IH (l + 1) s1) as [HI2 Ho2]; [rewrite Hr; lia|].
      rewrite Hr, Ht1 in Ho2. split; [by etrans|done]. }
    apply drop_cons_inv in Ht1 as (_ & Ht2 & _).
    destruct (ascii_eqb k "d") eqn:Hkd.
    { destruct t2 as [|x t3].
      - apply Hstop; [|done]. cbn [fatal_escape]. by rewrite Hquote, Hkd.
      - apply drop_cons_inv in Ht2 as (_ & Ht3 & _).
        destruct (is_date_code x) eqn:Hx.
        + rewrite (loop_outcome_ext _ t3)
            by (cbn [fatal_escape]; by rewrite Hquote, Hkd, Hx).
          by apply Hgo.
        + apply Hstop; [|done]. cbn [fatal_escape]. by rewrite Hquote, Hkd, Hx. }
    destruct (ascii_eqb k "s") eqn:Hks.
    { destruct t2 as [|x t3].
      - apply Hstop; [|done]. cbn [fatal_escape]. by rewrite Hquote, Hkd, Hks.
      - apply drop_cons_inv in Ht2 as (_ & Ht3 & _).
        destruct (is_seq_digit x) eqn:Hx.
        + rewrite (loop_outcome_ext _ t3)
            by (cbn [fatal_escape]; by rewrite Hquote, Hkd, Hks, Hx).
          by apply Hgo.
        + apply Hstop; [|done]. cbn [fatal_escape]. by rewrite Hquote, Hkd, Hks, Hx. }
    apply Hstop; [|done]. cbn [fatal_escape]. by rewrite Hquote, Hkd, Hks.
  - rewrite (loop_outcome_ext _ t1) by (cbn [fatal_escape]; by rewrite Hquote).
    apply sat_push; [apply no_exit_loop_outcome; done|].
    intros Hlt. apply Hnext. rb_frame_solve.
    intros _. rewrite length_insert. lia.
Qed.

Lemma clear_buffer_sat n : forall k s,
  sat rb_frame no_exit (for_range_from k n (fun k => nn_set k E)) s.
Proof.
  induction n as [|n IH]; intros k s; cbn [for_range_from];
    [by apply sat_ret; try apply _|].
  apply sat_nn_set; [done|]. intros _. apply IH.
Qed.

(** [rebuild] after its three assignments. *)
Lemma rebuild_unfold s :
  rebuild s
  = (for_range FNLEN (fun k => nn_set k E) ;;
     tmpl <- gets r ;;
     rebuild_loop (S (length tmpl)) 0) (set_nnp 0 (set_qmk 0 (set_stk 0 s))).
Proof. done. Qed.

Lemma rebuild_tail_sat s :
  sat rb_frame (loop_outcome (r s))
      (for_range FNLEN (fun k => nn_set k E) ;;
       tmpl <- gets r ;;
       rebuild_loop (S (length tmpl)) 0) s.
Proof.
  apply sat_bind_gen with (ok1 := no_exit);
    [apply _|apply clear_buffer_sat|apply no_exit_loop_outcome|done|].
  intros [] s1 _ HI. apply sat_gets.
  assert (r s1 = r s) as Hr by apply HI.
  rewrite <- Hr. apply (rebuild_loop_sat _ 0 s1). lia.
Qed.

Lemma rebuild_sat s : sat rb_frame (loop_outcome (r s)) rebuild s.
Proof.
  unfold sat. rewrite rebuild_unfold.
  destruct (rebuild_tail_sat (set_nnp 0 (set_qmk 0 (set_stk 0 s)))) as [HI Ho].
  split; [|done]. etrans; [|exact HI]. rb_frame_solve.
Qed.

(** After [rebuild] the cursor is inside the buffer, whatever it was before. *)
Lemma rebuild_nnp s : nnp (rebuild s).2 <= length (nn (rebuild s).2).
Proof.
  rewrite rebuild_unfold.
  destruct (rebuild_tail_sat (set_nnp 0 (set_qmk 0 (set_stk 0 s)))) as [HI _].
  apply HI. cbn. lia.
Qed.

Lemma cls_unit (o : res unit) : cls o = o.
Proof. by destruct o as [[]| |]. Qed.

Lemma rebuild_outcome s :
  rb_frame s (rebuild s).2 /\ loop_outcome (r s) (rebuild s).1.
Proof. destruct (rebuild_sat s) as [HI Ho]. by rewrite cls_unit in Ho. Qed.

(** ** The driver: frames and outcomes *)

#[local] Instance run_frame_preorder : PreOrder run_frame.
Proof.
  split.
  - intros s Hwf. split; [done|]. repeat split; try done.
  - intros s1 s2 s3 H1 H2 Hwf. specialize (H1 Hwf). destruct H1 as [Hwf2 H1].
    specialize (H2 Hwf2). destruct H2 as [Hwf3 H2]. split; [done|]. destruct_and!.
    repeat split; try congruence; try lia. by etrans.
Qed.

Lemma rb_frame_run s s' : rb_frame s s' -> run_frame s s'.
Proof.
  unfold rb_frame, run_frame, wf. intros H [Ht Hn]. destruct_and!.
  split; [split; [congruence|lia]|].
  repeat split; try congruence; try lia; try done.
Qed.

Lemma match_inv_run tp s s' : match_inv tp s s' -> run_frame s s'.
Proof.
  intros H Hwf. destruct (H Hwf) as [Hwf' Hc].
  apply captures_frame in Hc. red in Hc. split; [done|]. rewrite Hc. cbn.
  repeat split; done.
Qed.

Lemma no_exit_exit_only t o : no_exit o -> exit_only_if_fatal t o.
Proof. by destruct o as [[]|[|n]|]. Qed.

Lemma loop_outcome_exit_only t o : loop_outcome t o -> exit_only_if_fatal t o.
Proof.
  unfold loop_outcome. destruct (fatal_escape t) eqn:Ht; intros [-> | ->]; cbn; auto.
Qed.

Lemma clear_table_line_sat line s :
  wf s -> sat run_frame no_exit (clear_table_line line) s.
Proof.
  intros Hwf. unfold sat. destruct (decide (line < 10)) as [Hlt|Hge].
  - rewrite clear_table_line_in by done. split; [|done].
    intros _. split.
    { split; [|apply Hwf]. cbn [table set_table snd].
      apply wf_table_insert; [apply Hwf|by rewrite length_replicate]. }
    cbn. repeat split; done.
  - rewrite clear_table_line_out by (destruct Hwf as [[-> _] _]; lia).
    split; [reflexivity|done].
Qed.

Lemma clear_all_sat n : forall k s,
  wf s -> sat run_frame no_exit (for_range_from k n clear_table_line) s.
Proof.
  induction n as [|n IH]; intros k s Hwf; cbn [for_range_from];
    [by apply sat_ret; try apply _|].
  apply sat_bind; [apply _|by apply clear_table_line_sat|].
  intros [] s1 _ HI. apply IH. by apply HI.
Qed.

Lemma get_rebuilt_name_from_spec n : forall i acc s,
  (get_rebuilt_name_from i n acc s).2 = s /\
  (i + n <= length (nn s) -> exists v, (get_rebuilt_name_from i n acc s).1 = Val v) /\
  no_exit (cls (get_rebuilt_name_from i n acc s).1).
Proof.
  induction n as [|n IH]; intros i acc s; cbn [get_rebuilt_name_from].
  - split; [done|]. split; [by eexists|done].
  - rewrite (bind_Val _ _ s (nn s) s) by done.
    destruct (nn s !! i) as [cell|] eqn:Hcell.
    + erewrite bind_Val; [|by apply getitem_Some].
      destruct (IH (S i) (if str_eqb cell E then acc else acc ++ cell) s)
        as (Hs & Hv & Ho).
      split; [done|]. split; [|done]. intros Hlen. apply Hv. lia.
    + apply lookup_ge_None_1 in Hcell.
      erewrite bind_Raise; [|unfold getitem; by rewrite (lookup_ge_None_2 _ _ Hcell)].
      split; [done|]. split; [|done]. intros Hlen. lia.
Qed.

Lemma get_rebuilt_name_spec s :
  (get_rebuilt_name s).2 = s /\
  (nnp s <= length (nn s) -> exists v, (get_rebuilt_name s).1 = Val v) /\
  no_exit (cls (get_rebuilt_name s).1).
Proof.
  unfold get_rebuilt_name. rewrite (bind_Val _ _ s (nnp s) s) by done.
  apply get_rebuilt_name_from_spec.
Qed.

Lemma run_frame_print msg s : run_frame s (set_stdout (stdout s ++ [msg]) s).
Proof. apply rb_frame_run, rb_frame_print. Qed.

Lemma process_file_sat dirspec f s :
  wf s -> sat run_frame (exit_only_if_fatal (r s)) (process_file dirspec f) s.
Proof.
  intros Hwf. unfold process_file.
  apply sat_bind_gen with (ok1 := no_exit);
    [apply _|by apply clear_all_sat|intros; by apply no_exit_exit_only|done|].
  intros [] s1 _ H1. apply sat_gets.
  assert (wf s1) as Hwf1 by by apply H1.
  apply sat_bind_gen with (ok1 := no_exit); [apply _| |intros; by apply no_exit_exit_only|done|].
  { eapply sat_mono; [|by apply (Filer_match_sat _ _ _ _ 0)].
    intros s'. apply match_inv_run. }
  intros ok s2 _ H2. destruct ok; [|by apply sat_ret; try apply _].
  assert (wf s2) as Hwf2 by by apply H2.
  assert (r s2 = r s) as Hr.
  { transitivity (r s1); [by apply H2|by apply H1]. }
  apply sat_bind_gen with (ok1 := loop_outcome (r s2)); [apply _| | | |].
  { eapply sat_mono; [|apply rebuild_sat]. intros s'. apply rb_frame_run. }
  { intros e He. rewrite <- Hr. by apply loop_outcome_exit_only. }
  { intros He. rewrite <- Hr. by apply loop_outcome_exit_only in He. }
  intros [] s3 _ H3.
  destruct (get_rebuilt_name_spec s3) as (Hs & _ & Ho).
  apply sat_bind_gen with (ok1 := no_exit);
    [apply _| |intros; by apply no_exit_exit_only|done|].
  { split; [by rewrite Hs|done]. }
  intros name s4 _ H4. apply sat_gets. apply sat_gets.
  assert (forall msg,
            sat run_frame (exit_only_if_fatal (r s))
                (print msg ;; n <- gets seq_number ;; modify (set_seq_number (n + 1))) s4)
    as Hend.
  { intros msg. apply sat_modify; [apply _|apply run_frame_print|].
    apply sat_gets. apply sat_modify_end; [|done].
    intros Hw. cbn. repeat split; try done; try apply Hw. lia. }
  destruct (quotenames s4); apply Hend.
Qed.

Lemma for_each_sat dirspec files : forall s,
  wf s -> sat run_frame (exit_only_if_fatal (r s)) (for_each files (process_file dirspec)) s.
Proof.
  induction files as [|f files IH]; intros s Hwf; cbn [for_each];
    [by apply sat_ret; try apply _|].
  apply sat_bind; [apply _|by apply process_file_sat|].
  intros [] s1 _ H1. assert (r s1 = r s) as <- by by apply H1.
  apply IH. by apply H1.
Qed.

Lemma for_each_stops files1 : forall f files2 (body : str -> M unit) s s1 e s2,
  for_each files1 body s = (Val tt, s1) -> body f s1 = (Raise e, s2) ->
  for_each (files1 ++ f :: files2) body s = (Raise e, s2).
Proof.
  induction files1 as [|g files1 IH]; intros f files2 body s s1 e s2 H1 H2; cbn in *.
  - injection H1 as <-. by apply bind_Raise.
  - unfold bind in *. destruct (body g s) as [[[]|e'|] s'] eqn:Hg; try done.
    by eapply IH.
Qed.

(** ** Exits *)

(** C4, as stated, fails: a run whose template is empty exits with status
    1 (an uncaught [IndexError], here from the eleventh wildcard); and a
    template that ends after ['d], which is none of the listed defects,
    exits with status 2. *)
Lemma other_nonzero_exits :
  fatal_escape (lit "") = false /\
  (run_main false (lit "???????????") (lit "") [lit "aaaaaaaaaaa"]).1 = Raise IndexError /\
  exit_status (run_main false (lit "???????????") (lit "") [lit "aaaaaaaaaaa"]).1 = 1 /\
  (run_main false (lit "a") (lit "'d") [lit "a"]).1 = Raise (SystemExit 2).
Proof. vm_compute. done. Qed.

(** ** Explicit indices *)

(** Called by [rb_star] and [rb_qmark] on the position after the
    reference, [get_digit] looks for the quote one character further on:
    in [*'n] it finds the digit there and answers 0, "no index". *)
Lemma get_digit_misses_index l s c :
  r s !! (l + 1 + 1) = Some c -> c <> "'"%char -> get_digit (l + 1) s = (Val 0, s).
Proof.
  intros Hc Hne. unfold get_digit. rewrite (bind_Val _ _ s (r s) s) by done.
  apply lookup_lt_Some in Hc as Hl.
  rewrite bool_decide_eq_false_2 by lia.
  erewrite bind_Val; [|by apply getitem_Some].
  apply ascii_eqb_false in Hne as ->. done.
Qed.

(** C2 on the code.  After [match("abc", "*b*")] left the captures ["a"]
    and ["c"], the templates [*'2*'1] and [*'1*'2] do not rebuild ["ca"]
    and ["ac"]: the first [*] is taken as unindexed and copies ["a"], then
    the quote is read as a quote-escape with the unknown letter [2] (or
    [1]) and the run exits with status 2. *)
Theorem explicit_index_aborts :
  captures_of 2 (matched false (lit "*b*") (lit "*'2*'1") (lit "abc"))
  = [(lit "*", lit "a"); (lit "*", lit "c")] /\
  (rebuild (matched false (lit "*b*") (lit "*'2*'1") (lit "abc"))).1
  = Raise (SystemExit 2) /\
  buffer_text (rebuild (matched false (lit "*b*") (lit "*'2*'1") (lit "abc"))).2
  = lit "a" /\
  (rebuild (matched false (lit "*b*") (lit "*'1*'2") (lit "abc"))).1
  = Raise (SystemExit 2) /\
  buffer_text (rebuild (matched false (lit "*b*") (lit "*'1*'2") (lit "abc"))).2
  = lit "a" /\
  (run_main false (lit "*b*") (lit "*'2*'1") [lit "abc"]).1 = Raise (SystemExit 2) /\
  stdout (run_main false (lit "*b*") (lit "*'2*'1") [lit "abc"]).2
  = [lit "Filer: Invalid '_ quote spec!"].
Proof. vm_compute. done. Qed.

Lemma str_eqb_eq a : forall b, str_eqb a b = true <-> a = b.
Proof.
  induction a as [|x a IH]; intros [|y b]; cbn; try done.
  rewrite andb_true_iff, IH. unfold ascii_eqb. rewrite Ascii.eqb_eq.
  split; [by intros [-> ->]|by intros [= -> ->]].
Qed.

Lemma table_get_wf line k s :
  wf s -> line < 10 -> k < FNLEN ->
  exists row cell, table s !! line = Some row /\ row !! k = Some cell /\
    table_get line k s = (Val cell, s).
Proof.
  intros [[Hl Hr] _] Hline Hk.
  destruct (lookup_lt_is_Some_2 (table s) line) as [row Hrow]; [lia|].
  destruct (lookup_lt_is_Some_2 row k) as [cell Hcell]; [by rewrite (Hr _ _ Hrow)|].
  exists row, cell. split; [done|]. split; [done|].
  unfold table_get. rewrite (bind_Val _ _ s (table s) s) by done.
  erewrite bind_Val; [|by apply getitem_Some]. by apply getitem_Some.
Qed.

(** With fewer marked rows left than the index asks for, the search runs
    off the table. *)
Lemma where_loop_past n marker : forall w dg s,
  wf s -> w <= 10 -> 10 - w + 1 < n ->
  count_marked marker (drop w (table s)) < dg ->
  where_loop n marker dg w s = (Val 10, s).
Proof.
  pose proof FNLEN_eq as HF.
  induction n as [|n IH]; intros w dg s Hwf Hw Hn Hcount; [lia|].
  cbn [where_loop]. cbv zeta.
  rewrite (bool_decide_eq_false_2 (dg = 0)) by lia. cbn [negb andb].
  case_bool_decide as Hlt; [|by replace w with 10 by lia].
  destruct (table_get_wf w 0 s) as (row & m & Hrow & Hm & Hget); [done|lia|lia|].
  erewrite bind_Val by exact Hget.
  unfold count_marked in Hcount.
  rewrite (drop_S _ _ _ Hrow), filter_cons, Hm in Hcount.
  destruct (str_eqb m marker) eqn:Heq.
  - apply str_eqb_eq in Heq as ->.
    rewrite decide_True in Hcount by done. cbn [length] in Hcount.
    rewrite bool_decide_eq_true_2 by lia.
    apply IH; [done|lia|lia|]. unfold count_marked. rewrite Nat.add_1_r. lia.
  - assert (m <> marker) as Hne.
    { intros ->. by rewrite (proj2 (str_eqb_eq marker marker)) in Heq. }
    rewrite decide_False in Hcount by congruence.
    rewrite bool_decide_eq_true_2 by lia.
    apply IH; [done|lia|lia|]. unfold count_marked. by rewrite Nat.add_1_r.
Qed.

(** A reference whose index, explicit or automatic, is past the captures
    of its kind prints the diagnostic, copies nothing and returns: this
    part of the engine is as recoverable as it is meant to be. *)
Lemma rb_star_not_found l s dg0 :
  wf s -> get_digit (l + 1) s = (Val dg0, s) -> dg0 <> 99 ->
  count_marked (lit "*") (table s) < (if decide (dg0 = 0) then stk s + 1 else dg0) ->
  rb_star l s
  = (Val tt,
     set_stdout (stdout s ++ [lit "Can't find indexed pattern item."])
       (set_stk (if decide (dg0 = 0) then stk s + 1 else dg0) s)).
Proof.
  intros Hwf Hdg Hne Hcount. unfold rb_star. cbv zeta.
  rewrite (bind_Val _ _ s dg0 s Hdg).
  rewrite bool_decide_eq_false_2 by done.
  set (n := if decide (dg0 = 0) then stk s + 1 else dg0) in *.
  erewrite (bind_Val _ _ s n (set_stk n s)).
  2: { subst n. case_bool_decide; case_decide; try lia; done. }
  erewrite bind_Val; [|apply where_loop_past; [done|lia|lia|done]].
  done.
Qed.

Lemma rb_qmark_not_found l s dg0 :
  wf s -> get_digit (l + 1) s = (Val dg0, s) -> dg0 <> 99 ->
  count_marked (lit "?") (table s) < (if decide (dg0 = 0) then qmk s + 1 else dg0) ->
  rb_qmark l s
  = (Val tt,
     set_stdout (stdout s ++ [lit "Can't find indexed pattern item."])
       (set_qmk (if decide (dg0 = 0) then qmk s + 1 else dg0) s)).
Proof.
  intros Hwf Hdg Hne Hcount. unfold rb_qmark. cbv zeta.
  rewrite (bind_Val _ _ s dg0 s Hdg).
  rewrite bool_decide_eq_false_2 by done.
  set (n := if decide (dg0 = 0) then qmk s + 1 else dg0) in *.
  erewrite (bind_Val _ _ s n (set_qmk n s)).
  2: { subst n. case_bool_decide; case_decide; try lia; done. }
  erewrite bind_Val; [|apply where_loop_past; [done|lia|lia|done]].
  done.
Qed.

(** C6 on the code.  With the two captures of [match("abc", "*b*")], the
    reference [*'5] (an index past the captures) and the reference [*'0]
    (a malformed index) are both fatal: ["a"] is copied, no diagnostic
    about the index is printed, and the run exits with status 2 at the
    quote.  An unindexed reference past the captures, the third [*] of
    [***], does print the diagnostic and lets the run go on. *)
Theorem indexed_reference_is_fatal :
  (run_main false (lit "*b*") (lit "*'5") [lit "abc"; lit "xbz"]).1 = Raise (SystemExit 2) /\
  stdout (run_main false (lit "*b*") (lit "*'5") [lit "abc"; lit "xbz"]).2
  = [lit "Filer: Invalid '_ quote spec!"] /\
  buffer_text (run_main false (lit "*b*") (lit "*'5") [lit "abc"; lit "xbz"]).2 = lit "a" /\
  (run_main false (lit "*b*") (lit "*'0") [lit "abc"; lit "xbz"]).1 = Raise (SystemExit 2) /\
  stdout (run_main false (lit "*b*") (lit "*'0") [lit "abc"; lit "xbz"]).2
  = [lit "Filer: Invalid '_ quote spec!"] /\
  buffer_text (run_main false (lit "*b*") (lit "*'0") [lit "abc"; lit "xbz"]).2 = lit "a" /\
  (run_main false (lit "*b*") (lit "***") [lit "abc"; lit "xbz"]).1 = Val tt /\
  stdout (run_main false (lit "*b*") (lit "***") [lit "abc"; lit "xbz"]).2
  = [lit "Can't find indexed pattern item."; lit "mv ./abc ac";
     lit "Can't find indexed pattern item."; lit "mv ./xbz xz"].
Proof. vm_compute. done. Qed.

(** ** The full buffer *)

(** [insert_string] drops what does not fit. *)
Lemma insert_string_full x : forall s,
  FNLEN <= nnp s -> insert_string x s = (Val tt, s).
Proof.
  induction x as [|c x IH]; intros s Hfull; cbn [insert_string]; [done|].
  rewrite (bind_Val _ _ s (nnp s) s) by done.
  rewrite bool_decide_eq_false_2 by lia.
  erewrite bind_Val; [|done]. by apply IH.
Qed.

(** C3 on the code.  A literal character and a capture's text are written
    without the test [insert_string] makes: with the buffer full, the
    301st literal of a template raises [IndexError], and so does the
    second character of a capture copied at position 299; the run dies
    with status 1 and prints no command.  Sequence numbers and date fields
    past the end are dropped silently. *)
Theorem full_buffer_raises :
  (run_main false (lit "a") (replicate 301 "x"%char) [lit "a"]).1 = Raise IndexError /\
  exit_status (run_main false (lit "a") (replicate 301 "x"%char) [lit "a"]).1 = 1 /\
  stdout (run_main false (lit "a") (replicate 301 "x"%char) [lit "a"]).2 = [] /\
  (run_main false (lit "*") (replicate 299 "x"%char ++ lit "*") [lit "ab"]).1
  = Raise IndexError /\
  stdout (run_main false (lit "*") (replicate 299 "x"%char ++ lit "*") [lit "ab"]).2 = [] /\
  (run_main false (lit "a") (replicate 300 "x"%char ++ lit "'s3'dY") [lit "a"]).1 = Val tt /\
  stdout (run_main false (lit "a") (replicate 300 "x"%char ++ lit "'s3'dY") [lit "a"]).2
  = [lit "mv ./a " ++ replicate 300 "x"%char].
Proof. vm_compute. done. Qed.

(** ** The sequence counter *)

#[local] Instance table_only_preorder : PreOrder table_only.
Proof.
  split.
  - intros s Hwf. split; [done|]. by rewrite set_table_id.
  - intros s1 s2 s3 H1 H2 Hwf. destruct (H1 Hwf) as [Hwf2 E2].
    destruct (H2 Hwf2) as [Hwf3 E3]. split; [done|].
    rewrite E3 at 1. by rewrite E2.
Qed.

Lemma match_inv_table_only tp s s' : match_inv tp s s' -> table_only s s'.
Proof.
  intros H Hwf. destruct (H Hwf) as [Hwf' Hc]. split; [done|].
  by apply captures_frame in Hc.
Qed.

Lemma clear_table_line_table_only line s :
  wf s -> sat table_only no_exit (clear_table_line line) s.
Proof.
  intros Hwf. unfold sat. destruct (decide (line < 10)) as [Hlt|Hge].
  - rewrite clear_table_line_in by done. split; [|done].
    intros _. split; [|done]. split; [|apply Hwf]. cbn [table set_table snd].
    apply wf_table_insert; [apply Hwf|by rewrite length_replicate].
  - rewrite clear_table_line_out by (destruct Hwf as [[-> _] _]; lia).
    split; [reflexivity|done].
Qed.

Lemma clear_all_table_only n : forall k s,
  wf s -> sat table_only no_exit (for_range_from k n clear_table_line) s.
Proof.
  induction n as [|n IH]; intros k s Hwf; cbn [for_range_from];
    [by apply sat_ret; try apply _|].
  apply sat_bind; [apply _|by apply clear_table_line_table_only|].
  intros [] s1 _ HI. apply IH. by apply HI.
Qed.

Lemma clear_and_match_sat f s :
  wf s -> sat table_only no_exit (clear_and_match f) s.
Proof.
  intros Hwf. unfold clear_and_match.
  apply sat_bind; [apply _|by apply clear_all_table_only|].
  intros [] s1 _ H1. apply sat_gets.
  eapply sat_mono; [|apply (Filer_match_sat _ _ _ _ 0); by apply H1].
  intros s'. apply match_inv_table_only.
Qed.

Lemma process_file_unfold dirspec f s :
  process_file dirspec f s
  = (ok <- clear_and_match f ;;
     if ok then
       rebuild ;;
       rebuilt_name <- get_rebuilt_name ;;
       q <- gets quotenames ;;
       c <- gets cmd ;;
       (if q
        then print (c ++ lit " " ++ [dquote] ++ path_join dirspec f ++ [dquote]
                      ++ lit " " ++ [dquote] ++ rebuilt_name ++ [dquote])
        else print (c ++ lit " " ++ path_join dirspec f ++ lit " " ++ rebuilt_name)) ;;
       n <- gets seq_number ;;
       modify (set_seq_number (n + 1))
     else ret tt) s.
Proof.
  unfold process_file, clear_and_match, bind, gets.
  by destruct (for_range 10 clear_table_line s) as [[[]|e|] s1].
Qed.

(** One file: what [process_files] does with it, by the outcome of the
    match and of the rebuild. *)
Lemma process_file_cases dirspec f s :
  wf s ->
  match (clear_and_match f s).1 with
  | Val false => process_file dirspec f s = (Val tt, (clear_and_match f s).2)
  | Val true =>
      match (rebuild (clear_and_match f s).2).1 with
      | Val _ =>
          exists line,
            process_file dirspec f s
            = (Val tt,
               set_seq_number (seq_number s + 1)
                 (set_stdout (stdout (rebuild (clear_and_match f s).2).2 ++ [line])
                    (rebuild (clear_and_match f s).2).2))
      | Raise e =>
          process_file dirspec f s = (Raise e, (rebuild (clear_and_match f s).2).2)
      | NoFuel => False
      end
  | Raise e => process_file dirspec f s = (Raise e, (clear_and_match f s).2)
  | NoFuel => False
  end.
Proof.
  intros Hwf. destruct (clear_and_match_sat f s Hwf) as [HI Ho].
  destruct (clear_and_match f s) as [[[|]|e|] s1] eqn:Hm; cbn [fst snd] in *;
    try done; rewrite ?process_file_unfold.
  2: { by erewrite bind_Val by exact Hm. }
  2: { by erewrite bind_Raise by exact Hm. }
  destruct (HI Hwf) as [Hwf1 E1].
  assert (seq_number s1 = seq_number s) as Hseq by by rewrite E1.
  destruct (rebuild_outcome s1) as [HR Hro].
  pose proof (rebuild_nnp s1) as Hnnp.
  destruct (rebuild s1) as [[[]|e|] s2] eqn:Hrb; cbn [fst snd] in *.
  - destruct (get_rebuilt_name_spec s2) as (Hs & Hv & _).
    destruct (Hv Hnnp) as [name Hname].
    assert (get_rebuilt_name s2 = (Val name, s2)) as Hg.
    { destruct (get_rebuilt_name s2) as [o s2']. cbn [fst snd] in *. by subst. }
    assert (seq_number s2 = seq_number s) as Hseq2.
    { rewrite <- Hseq. apply HR. }
    exists (if quotenames s2
            then cmd s2 ++ lit " " ++ [dquote] ++ path_join dirspec f ++ [dquote]
                 ++ lit " " ++ [dquote] ++ name ++ [dquote]
            else cmd s2 ++ lit " " ++ path_join dirspec f ++ lit " " ++ name).
    erewrite bind_Val by exact Hm. cbv iota.
    erewrite bind_Val by exact Hrb.
    erewrite bind_Val by exact Hg.
    cbv beta iota zeta delta [bind gets].
    destruct (quotenames s2); cbv beta iota zeta delta [print modify];
      cbn [seq_number set_stdout]; by rewrite Hseq2.
  - erewrite bind_Val by exact Hm. cbv iota.
    by erewrite bind_Raise by exact Hrb.
  - unfold loop_outcome in Hro.
    destruct (fatal_escape (r s1)); destruct Hro as [?|?]; discriminate.
Qed.

(** *** The outcome of a match does not depend on what the table holds *)

Lemma bind_indep {A B} (c : M A) (K : A -> M B) s1 s2 :
  (c s1).1 = (c s2).1 ->
  (forall a, (c s1).1 = Val a -> same_setting (c s1).2 (c s2).2) ->
  (forall a t1 t2, same_setting t1 t2 -> (K a t1).1 = (K a t2).1) ->
  (bind c K s1).1 = (bind c K s2).1.
Proof.
  unfold bind. destruct (c s1) as [o1 t1], (c s2) as [o2 t2]. cbn [fst snd].
  intros <- HR HK. destruct o1 as [a|e|]; eauto.
Qed.

Lemma match_fuel_post n fn p fp pp tp s :
  wf s -> length fn - fp < n ->
  wf (match_fuel n fn p fp pp tp s).2 /\
  include_dots (match_fuel n fn p fp pp tp s).2 = include_dots s.
Proof.
  intros Hwf Hn.
  destruct (proj1 (match_fuel_sat n fn p fp pp tp s Hwf) Hn) as [HI _].
  destruct (HI Hwf) as [Hwf' Hc]. split; [done|].
  apply captures_frame in Hc. red in Hc. by rewrite Hc.
Qed.

Lemma table_set_wf line k v s :
  wf s ->
  (line < 10 /\ k < FNLEN /\
   exists row, table s !! line = Some row /\
     table_set line k v s = (Val tt, set_table (<[line := <[k := v]> row]> (table s)) s)) \/
  ((10 <= line \/ FNLEN <= k) /\ table_set line k v s = (Raise IndexError, s)).
Proof.
  intros [[Hl Hr] _]. destruct (table s !! line) as [row|] eqn:Hrow.
  - apply lookup_lt_Some in Hrow as Hlt. pose proof (Hr _ _ Hrow) as Hlen.
    destruct (decide (k < FNLEN)).
    + left. split; [lia|]. split; [done|]. exists row. split; [done|].
      apply table_set_in; [done|lia].
    + right. split; [lia|]. apply table_set_no_cell with row; [done|lia].
  - apply lookup_ge_None_1 in Hrow. right. split; [lia|].
    by apply table_set_no_row.
Qed.

Lemma match_fuel_indep n : forall fn p fp pp tp s1 s2,
  same_setting s1 s2 ->
  (length fn - fp < n ->
   (match_fuel n fn p fp pp tp s1).1 = (match_fuel n fn p fp pp tp s2).1) /\
  (forall sp, length fn - (fp + 1) < n ->
   (star_loop_fuel n fn p fp sp pp tp s1).1 = (star_loop_fuel n fn p fp sp pp tp s2).1).
Proof.
  induction n as [|n IH]; intros fn p fp pp tp s1 s2 (Hwf1 & Hwf2 & Hdots); split;
    try (intros; lia); try (intros sp; intros; lia).
  - intros Hn. cbn [match_fuel]. cbv zeta.
    rewrite (bind_Val _ _ s1 (include_dots s1) s1) by done.
    rewrite (bind_Val _ _ s2 (include_dots s2) s2) by done.
    rewrite Hdots. destruct (startswith fn "." && negb _); [done|].
    repeat case_bool_decide; cbn [andb orb]; try done.
    destruct (lookup_lt_is_Some_2 fn fp) as [c Hc]; [lia|].
    destruct (lookup_lt_is_Some_2 p pp) as [q Hq]; [lia|].
    rewrite (bind_Val _ _ s1 c s1), (bind_Val _ _ s2 c s2) by by apply getitem_Some.
    rewrite (bind_Val _ _ s1 q s1), (bind_Val _ _ s2 q s2) by by apply getitem_Some.
    destruct (ascii_eqb c q); [apply IH; [done|lia]|].
    assert (forall m, same_setting
              (set_table (<[tp := capture_row m c]> (table s1)) s1)
              (set_table (<[tp := capture_row m c]> (table s2)) s2)) as Hbegin.
    { intros m. split; [by apply wf_begin|]. split; [by apply wf_begin|done]. }
    destruct (ascii_eqb q "?").
    { destruct (decide (tp < 10)).
      - rewrite !begin_capture_in by done. apply IH; [apply Hbegin|lia].
      - destruct Hwf1 as [[Hl1 _] _], Hwf2 as [[Hl2 _] _].
        by rewrite !begin_capture_out by lia. }
    destruct (ascii_eqb q "*"); [|done].
    destruct (decide (tp < 10)).
    + rewrite !begin_capture_in by done.
      apply bind_indep.
      * apply IH; [apply Hbegin|lia].
      * intros b _. destruct (Hbegin (lit "*")) as (Hb1 & Hb2 & Hbd).
        destruct (match_fuel_post n fn p (fp + 1) (pp + 1) (tp + 1) _ Hb1) as [? E1]; [lia|].
        destruct (match_fuel_post n fn p (fp + 1) (pp + 1) (tp + 1) _ Hb2) as [? E2]; [lia|].
        split; [done|]. split; [done|]. by rewrite E1, E2.
      * intros b t1 t2 Ht. destruct b; [done|]. apply IH; [done|lia].
    + destruct Hwf1 as [[Hl1 _] _], Hwf2 as [[Hl2 _] _].
      by rewrite !begin_capture_out by lia.
  - intros sp Hn. cbn [star_loop_fuel]. cbv zeta.
    case_bool_decide; [by case_bool_decide|].
    destruct (lookup_lt_is_Some_2 fn (fp + 1)) as [c Hc]; [lia|].
    rewrite (bind_Val _ _ s1 c s1), (bind_Val _ _ s2 c s2) by by apply getitem_Some.
    destruct (table_set_wf tp (sp + 1) [c] s1 Hwf1) as [(? & ? & row1 & Hrow1 & E1)|[Hout1 E1]];
      destruct (table_set_wf tp (sp + 1) [c] s2 Hwf2) as [(? & ? & row2 & Hrow2 & E2)|[Hout2 E2]];
      try lia.
    + rewrite (bind_Val _ _ s1 tt _ E1), (bind_Val _ _ s2 tt _ E2).
      assert (same_setting (set_table (<[tp:=<[sp + 1:=[c]]> row1]> (table s1)) s1)
                (set_table (<[tp:=<[sp + 1:=[c]]> row2]> (table s2)) s2)) as Hgrow.
      { split; [|split; [|done]].
        - destruct Hwf1 as [Ht Hnn]. split; [|done]. cbn [table set_table].
          apply wf_table_insert; [done|]. rewrite length_insert.
          destruct Ht as [_ Hr]. eauto.
        - destruct Hwf2 as [Ht Hnn]. split; [|done]. cbn [table set_table].
          apply wf_table_insert; [done|]. rewrite length_insert.
          destruct Ht as [_ Hr]. eauto. }
      apply bind_indep.
      * apply IH; [done|lia].
      * intros b _. destruct Hgrow as (Hb1 & Hb2 & Hbd).
        destruct (match_fuel_post n fn p (fp + 1 + 1) (pp + 1) (tp + 1) _ Hb1) as [? F1]; [lia|].
        destruct (match_fuel_post n fn p (fp + 1 + 1) (pp + 1) (tp + 1) _ Hb2) as [? F2]; [lia|].
        split; [done|]. split; [done|].
        transitivity (include_dots s1); [exact F1|].
        symmetry. transitivity (include_dots s2); [exact F2|done].
      * intros b t1 t2 Ht. destruct b; [done|]. apply IH; [done|lia].
    + by rewrite (bind_Raise _ _ s1 _ _ E1), (bind_Raise _ _ s2 _ _ E2).
Qed.

Lemma Filer_match_indep fn p fp pp tp s1 s2 :
  same_setting s1 s2 ->
  (Filer_match fn p fp pp tp s1).1 = (Filer_match fn p fp pp tp s2).1.
Proof. intros H. unfold Filer_match. apply match_fuel_indep; [done|lia]. Qed.

Lemma clear_and_match_value f s b :
  wf s -> (clear_and_match f s).1 = Val b ->
  does_match (include_dots s) (p s) f = b.
Proof.
  intros Hwf. unfold clear_and_match.
  destruct (clear_all_table_only 10 0 s Hwf) as [HI _].
  unfold bind at 1. fold (for_range 10 clear_table_line) in HI.
  destruct (for_range 10 clear_table_line s) as [[[]|e|] s0]; cbn [fst snd] in *;
    try done.
  destruct (HI Hwf) as [Hwf0 E0].
  rewrite (bind_Val _ _ s0 (p s0) s0) by done.
  assert (p s0 = p s) as -> by by rewrite E0.
  unfold does_match.
  rewrite <- (Filer_match_indep f (p s) 0 0 0 s0 (new_filer (include_dots s))).
  - intros ->. by destruct b.
  - split; [done|]. split; [apply wf_new_filer|]. by rewrite E0.
Qed.

Lemma process_file_counts dirspec f s s' :
  wf s -> process_file dirspec f s = (Val tt, s') ->
  seq_number s' = seq_number s + (if does_match (include_dots s) (p s) f then 1 else 0).
Proof.
  intros Hwf Hpf. pose proof (process_file_cases dirspec f s Hwf) as Hc.
  pose proof (clear_and_match_value f s) as Hv.
  destruct (clear_and_match_sat f s Hwf) as [HI _].
  destruct (clear_and_match f s) as [[[|]|e|] s1]; cbn [fst snd] in *; try done.
  - rewrite (Hv true) by done.
    destruct (rebuild s1) as [[[]|e|] s2]; cbn [fst snd] in *; try done.
    + destruct Hc as [line Hc]. rewrite Hc in Hpf. by injection Hpf as <-.
    + congruence.
  - rewrite (Hv false) by done. rewrite Hc in Hpf. injection Hpf as <-.
    destruct (HI Hwf) as [_ ->]. cbn. lia.
  - congruence.
Qed.

Lemma for_each_counts dirspec files : forall s s',
  wf s -> for_each files (process_file dirspec) s = (Val tt, s') ->
  seq_number s' =
  seq_number s + length (filter (fun f => does_match (include_dots s) (p s) f = true) files).
Proof.
  induction files as [|f files IH]; intros s s' Hwf H; cbn [for_each] in H.
  - injection H as <-. cbn. lia.
  - unfold bind in H.
    destruct (process_file_sat dirspec f s Hwf) as [HI _].
    destruct (process_file dirspec f s) as [[[]|e|] s1] eqn:Hpf; try done.
    cbn [fst snd] in HI. destruct (HI Hwf) as (Hwf1 & Hd & _ & _ & Hp & _).
    rewrite (IH s1 s' Hwf1 H), (process_file_counts dirspec f s s1 Hwf Hpf).
    rewrite Hd, Hp, filter_cons.
    destruct (does_match (include_dots s) (p s) f); case_decide; try done;
      cbn [length]; lia.
Qed.

(** *** What ['sn] inserts *)

Lemma zfill_unsigned x w :
  (forall c rest, x = c :: rest -> c <> "+"%char /\ c <> "-"%char) ->
  zfill x w = replicate (w - length x) "0"%char ++ x.
Proof.
  intros Hx. unfold zfill. case_decide as Hw.
  - by replace (w - length x) with 0 by lia.
  - destruct x as [|c rest].
    + cbn [length]. by rewrite Nat.sub_0_r, app_nil_r.
    + destruct (Hx c rest eq_refl) as [Hp Hm].
      apply ascii_eqb_false in Hp as ->. by apply ascii_eqb_false in Hm as ->.
Qed.

Lemma str_of_nat_unsigned n c rest :
  str_of_nat n = c :: rest -> c <> "+"%char /\ c <> "-"%char.
Proof.
  unfold str_of_nat, lit.
  destruct (Nat.to_uint n); cbn; intros [= <- _]; by split.
Qed.

Lemma zfill_str_of_nat n w :
  zfill (str_of_nat n) w = replicate (w - length (str_of_nat n)) "0"%char ++ str_of_nat n.
Proof. apply zfill_unsigned. intros c rest. apply str_of_nat_unsigned. Qed.

Lemma take_insert_S {A} (l : list A) i x :
  i < length l -> take (S i) (<[i := x]> l) = take i l ++ [x].
Proof.
  intros Hi. rewrite (take_S_r _ _ x) by by apply list_lookup_insert_eq.
  by rewrite take_insert_ge by done.
Qed.

(** With room left in the buffer, [insert_string] appends the whole string. *)
Lemma insert_string_fits x : forall s,
  length (nn s) = FNLEN -> nnp s + length x <= FNLEN ->
  (insert_string x s).1 = Val tt /\
  length (nn (insert_string x s).2) = FNLEN /\
  nnp (insert_string x s).2 = nnp s + length x /\
  buffer_text (insert_string x s).2 = buffer_text s ++ x.
Proof.
  induction x as [|c x IH]; intros s Hlen Hroom; cbn [insert_string length] in *.
  - cbn. rewrite app_nil_r. repeat split; done || lia.
  - rewrite (bind_Val _ _ s (nnp s) s) by done.
    rewrite bool_decide_eq_true_2 by lia.
    unfold nn_set. cbv beta iota zeta delta [bind gets].
    destruct (decide (nnp s < length (nn s))); [|lia].
    cbv beta iota zeta delta [modify].
    set (s1 := set_nnp _ _).
    destruct (IH s1) as (Hv & Hl & Hn & Hb).
    { subst s1. cbn. by rewrite length_insert. }
    { subst s1. cbn. lia. }
    repeat split; try done.
    + rewrite Hn. subst s1. cbn. lia.
    + rewrite Hb. subst s1. unfold buffer_text. cbn [nn nnp set_nnp set_nn].
      rewrite Nat.add_1_r, take_insert_S by done.
      rewrite concat_app. cbn [concat]. by rewrite app_nil_r, <- app_assoc.
Qed.

Lemma rb_seq_appends l s c d :
  length (nn s) = FNLEN ->
  r s !! (l + 1) = Some c -> int_of_char c = Some d -> 1 <= d <= 9 ->
  nnp s + (d - length (str_of_nat (seq_number s))) + length (str_of_nat (seq_number s))
    <= FNLEN ->
  (rb_seq l s).1 = Val (l + 1 + 1) /\
  buffer_text (rb_seq l s).2
  = buffer_text s
      ++ replicate (d - length (str_of_nat (seq_number s))) "0"%char
      ++ str_of_nat (seq_number s).
Proof.
  intros Hlen Hc Hd Hrange Hroom. unfold rb_seq. cbv zeta.
  rewrite (bind_Val _ _ s (r s) s) by done.
  apply lookup_lt_Some in Hc as Hl.
  rewrite bool_decide_eq_false_2 by lia.
  erewrite bind_Val; [|by apply getitem_Some].
  rewrite Hd.
  rewrite (bool_decide_eq_false_2 (d < 1)), (bool_decide_eq_false_2 (9 < d)) by lia.
  cbn [orb]. rewrite (bind_Val _ _ s (seq_number s) s) by done.
  rewrite zfill_str_of_nat.
  destruct (insert_string_fits
              (replicate (d - length (str_of_nat (seq_number s))) "0"%char
               ++ str_of_nat (seq_number s)) s) as (Hv & _ & _ & Hb); [done|..].
  { rewrite length_app, length_replicate. lia. }
  unfold bind.
  destruct (insert_string _ s) as [o s1]. cbn [fst snd] in *. by subst o.
Qed.

(** C9.  The counter is 1 in a new object.  From a well-shaped object
    and whatever the template: a file whose match fails leaves the counter
    and the output as they are; a file whose match succeeds and whose
    rebuild returns adds exactly one to the counter; so a run that returns
    leaves the counter at its start value plus the number of files that
    match.  A token ['sd] with [d] a digit 1-9 appends, when the buffer
    has room, the decimal representation of the counter preceded by as
    many zeros as it is shorter than [d] characters, none when it is as
    long or longer, and leaves the counter alone. *)
Theorem sequence_counter (dirspec : str) (s : Filer) :
  wf s ->
  (forall clk, seq_number (Filer_init clk) = 1) /\
  (forall f,
     match (clear_and_match f s).1 with
     | Val false =>
         process_file dirspec f s = (Val tt, (clear_and_match f s).2) /\
         seq_number (clear_and_match f s).2 = seq_number s /\
         stdout (clear_and_match f s).2 = stdout s
     | Val true =>
         (rebuild (clear_and_match f s).2).1 = Val tt ->
         exists s', process_file dirspec f s = (Val tt, s') /\
                    seq_number s' = seq_number s + 1
     | _ => True
     end) /\
  (forall files s',
     for_each files (process_file dirspec) s = (Val tt, s') ->
     seq_number s' =
     seq_number s
     + length (filter (fun f => does_match (include_dots s) (p s) f = true) files)) /\
  (forall l c d,
     r s !! (l + 1) = Some c -> int_of_char c = Some d -> 1 <= d <= 9 ->
     nnp s + (d - length (str_of_nat (seq_number s))) + length (str_of_nat (seq_number s))
       <= FNLEN ->
     (rb_seq l s).1 = Val (l + 1 + 1) /\
     buffer_text (rb_seq l s).2
     = buffer_text s
         ++ replicate (d - length (str_of_nat (seq_number s))) "0"%char
         ++ str_of_nat (seq_number s) /\
     seq_number (rb_seq l s).2 = seq_number s).
Proof.
  intros Hwf. split; [done|]. split; [|split].
  - intros f. pose proof (process_file_cases dirspec f s Hwf) as Hc.
    destruct (clear_and_match_sat f s Hwf) as [HI _].
    destruct (clear_and_match f s) as [[[|]|e|] s1]; cbn [fst snd] in *; try done.
    + intros Hrb. rewrite Hrb in Hc. destruct Hc as [line Hc].
      eexists. split; [exact Hc|done].
    + split; [done|]. destruct (HI Hwf) as [_ ->]. done.
  - intros files s'. by apply for_each_counts.
  - intros l c d Hc Hd Hrange Hroom.
    destruct (rb_seq_appends l s c d) as [Hv Hb]; try done; [apply Hwf|].
    split; [done|]. split; [done|].
    destruct (rb_seq_spec l s) as [HI _]. apply HI.
Qed.

Lemma sequence_counter_witness :
  seq_number (Filer_init clock0) = 1 /\
  (process_file (lit ".") (lit "nob") (configured false (lit "*b*") (lit "file's3"))
   = (Val tt, (clear_and_match (lit "nob") (configured false (lit "*b*") (lit "file's3"))).2) /\
   seq_number (clear_and_match (lit "nob") (configured false (lit "*b*") (lit "file's3"))).2
   = seq_number (configured false (lit "*b*") (lit "file's3")) /\
   stdout (clear_and_match (lit "nob") (configured false (lit "*b*") (lit "file's3"))).2
   = stdout (configured false (lit "*b*") (lit "file's3"))) /\
  (exists s',
     process_file (lit ".") (lit "abc") (configured false (lit "*b*") (lit "plain"))
     = (Val tt, s') /\
     seq_number s' = seq_number (configured false (lit "*b*") (lit "plain")) + 1) /\
  seq_number (run_main false (lit "*b*") (lit "file's3")
                [lit "abc"; lit "xbz"; lit "nob"; lit "qbq"]).2 = 1 + 3 /\
  ((rb_seq 5 (matched false (lit "*b*") (lit "file's3") (lit "abc"))).1 = Val 7 /\
   buffer_text (rb_seq 5 (matched false (lit "*b*") (lit "file's3") (lit "abc"))).2
   = lit "001" /\
   seq_number (rb_seq 5 (matched false (lit "*b*") (lit "file's3") (lit "abc"))).2 = 1) /\
  stdout (run_main false (lit "*b*") (lit "file's3")
            [lit "abc"; lit "xbz"; lit "nob"; lit "qbq"]).2
  = [lit "mv ./abc file001"; lit "mv ./xbz file002"; lit "mv ./qbq file003"] /\
  stdout (run_main false (lit "b*") (lit "n's1") (replicate 10 (lit "bb"))).2 !! 9
  = Some (lit "mv ./bb n10").
Proof.
  pose (s3 := configured false (lit "*b*") (lit "file's3")).
  pose (sp := configured false (lit "*b*") (lit "plain")).
  split; [|split; [|split; [|split; [|split; [|split]]]]].
  - apply (proj1 (sequence_counter (lit ".") s3 (wf_configured _ _ _)) clock0).
  - pose proof (proj1 (proj2 (sequence_counter (lit ".") s3 (wf_configured _ _ _)))
                  (lit "nob")) as H.
    assert ((clear_and_match (lit "nob") s3).1 = Val false) as E
      by (vm_compute; reflexivity).
    rewrite E in H. exact H.
  - pose proof (proj1 (proj2 (sequence_counter (lit ".") sp (wf_configured _ _ _)))
                  (lit "abc")) as H.
    assert ((clear_and_match (lit "abc") sp).1 = Val true) as E
      by (vm_compute; reflexivity).
    rewrite E in H. apply H. vm_compute. reflexivity.
  - apply (proj1 (proj2 (proj2 (sequence_counter (lit ".") s3 (wf_configured _ _ _))))
             [lit "abc"; lit "xbz"; lit "nob"; lit "qbq"]).
    vm_compute. reflexivity.
  - apply (proj2 (proj2 (proj2
             (sequence_counter (lit ".") (matched false (lit "*b*") (lit "file's3") (lit "abc"))
                (wf_matched _ _ _ _))))
             5 "3"%char 3); [done|done|lia|].
    rewrite FNLEN_eq. vm_compute. lia.
  - vm_compute. reflexivity.
  - vm_compute. reflexivity.
Defined.

(** * Further properties *)

(** ** What the matcher decides *)

Lemma Matches_cons_inv c f q pat :
  Matches (c :: f) (q :: pat) <->
  (c = q /\ Matches f pat) \/
  (c <> q /\ q = "?"%char /\ Matches f pat) \/
  (c <> q /\ q = "*"%char /\ exists k, k <= length f /\ Matches (drop k f) pat).
Proof.
  split.
  - inversion 1 as [|c' f' p' Hm|c' f' p' Hne Hm|c' u f' p' Hne Hm]; subst.
    + by left.
    + right. left. done.
    + right. right. split; [done|]. split; [done|].
      exists (length u). split; [rewrite length_app; lia|by rewrite drop_app_length].
  - intros [[-> Hm]|[(Hne & -> & Hm)|(Hne & -> & k & Hk & Hm)]].
    + by constructor.
    + by constructor.
    + rewrite <- (take_drop k f). by constructor.
Qed.

Lemma Matches_nil_l pat : Matches [] pat <-> pat = [].
Proof. split; [by inversion 1|intros ->; constructor]. Qed.

Lemma Matches_nil_r f : Matches f [] <-> f = [].
Proof. split; [by inversion 1|intros ->; constructor]. Qed.

Lemma bind_Val_inv {A B} (c : M A) (k : A -> M B) s b s' :
  bind c k s = (Val b, s') -> exists a s1, c s = (Val a, s1) /\ k a s1 = (Val b, s').
Proof.
  unfold bind. destruct (c s) as [[a|e|] s1]; [|done..]. intros H. by exists a, s1.
Qed.

Lemma Filer_match_Val fn p fp pp tp s b s' :
  wf s -> Filer_match fn p fp pp tp s = (Val b, s') ->
  wf s' /\ forall f, dot_excluded f s' = dot_excluded f s.
Proof.
  intros Hwf H. apply Filer_match_outcome in H as (Hwf' & Hc & _); [|done].
  split; [done|]. intros f. apply captures_frame in Hc. red in Hc. by rewrite Hc.
Qed.

Lemma table_set_Val line k v s s' :
  wf s -> table_set line k v s = (Val tt, s') ->
  wf s' /\ line < 10 /\ k < FNLEN /\ (forall f, dot_excluded f s' = dot_excluded f s) /\
  exists row, table s !! line = Some row /\
    s' = set_table (<[line := <[k := v]> row]> (table s)) s.
Proof.
  intros Hwf H.
  destruct (table_set_wf line k v s Hwf) as [(Hl & Hk & row & Hrow & E)|[_ E]];
    rewrite E in H; [|done].
  injection H as <-. split.
  { destruct Hwf as [Ht Hn]. split; [|done]. cbn [table set_table].
    apply wf_table_insert; [done|]. rewrite length_insert.
    destruct Ht as [_ Hr]. eauto. }
  split; [done|]. split; [done|]. split; [done|]. by exists row.
Qed.

Lemma match_sem n : forall fn p fp pp tp s b s',
  wf s -> dot_excluded fn s = false ->
  (length fn - fp < n ->
   Filer_match fn p fp pp tp s = (Val b, s') ->
   (b = true <-> Matches (drop fp fn) (drop pp p))) /\
  (forall sp, length fn - (fp + 1) < n -> fp < length fn ->
   star_loop fn p fp sp pp tp s = (Val b, s') ->
   ~ Matches (drop (fp + 1) fn) (drop (pp + 1) p) ->
   (b = true <->
    exists k, k <= length (drop (fp + 1) fn) /\
              Matches (drop k (drop (fp + 1) fn)) (drop (pp + 1) p))).
Proof.
  induction n as [|n IH]; intros fn p fp pp tp s b s' Hwf Hdot;
    [split; [|intros sp]; lia|]. split.
  - intros Hn H.
    destruct (fn !! fp) as [c|] eqn:Hc; destruct (p !! pp) as [q|] eqn:Hq.
    + rewrite (drop_S _ _ _ Hc), (drop_S _ _ _ Hq), Matches_cons_inv.
      apply lookup_lt_Some in Hc as Hf.
      replace (S fp) with (fp + 1) by lia. replace (S pp) with (pp + 1) by lia.
      destruct (decide (c = q)) as [->|Hne].
      { rewrite (Filer_match_inside _ _ _ _ _ _ q q) in H by done.
        unfold ascii_eqb in H. rewrite Ascii.eqb_refl in H.
        apply IH in H; [|done|done|lia]. rewrite H.
        split; [by left|]. intros [[_ ?]|[(? & _)|(? & _)]]; done. }
      destruct (decide (q = "?"%char)) as [->|Hq1].
      { destruct (decide (tp < 10)) as [Htp|Htp].
        - rewrite (Filer_match_inside _ _ _ _ _ _ c "?") in H by done.
          apply ascii_eqb_false in Hne as Hne'. rewrite Hne' in H.
          change (ascii_eqb "?" "?") with true in H. cbv iota in H.
          rewrite begin_capture_in in H by done.
          apply IH in H; [|by apply wf_begin|done|lia]. rewrite H.
          split; [by right; left|].
          intros [[? _]|[(_ & _ & ?)|(_ & ? & _)]]; done.
        - assert (length (table s) <= tp) by (destruct Hwf as [[-> _] _]; lia).
          by rewrite (Filer_match_no_row _ _ _ _ _ _ c "?") in H by (done || by left). }
      destruct (decide (q = "*"%char)) as [->|Hq2].
      { destruct (decide (tp < 10)) as [Htp|Htp].
        - rewrite (Filer_match_star _ _ _ _ _ _ c) in H by done.
          apply bind_Val_inv in H as (b1 & s1 & H1 & H2).
          pose proof (wf_begin s tp (lit "*") c Hwf) as Hwf0.
          destruct (Filer_match_Val _ _ _ _ _ _ _ _ Hwf0 H1) as [Hwf1 Hd1].
          apply IH in H1; [|done|done|lia].
          destruct b1.
          + injection H2 as <- <-. split; [|done]. intros _. right. right.
            split; [done|]. split; [done|]. exists 0. split; [lia|by apply H1].
          + apply (proj2 (IH fn p fp pp tp s1 b s' Hwf1 ltac:(by rewrite Hd1)))
              in H2; [|lia|done|].
            * rewrite H2. split.
              { intros (k & Hk & Hm). right. right. split; [done|]. split; [done|].
                by exists k. }
              intros [[? _]|[(_ & ? & _)|(_ & _ & k & Hk & Hm)]]; try done.
              by exists k.
            * intros Hm. by apply H1 in Hm.
        - assert (length (table s) <= tp) by (destruct Hwf as [[-> _] _]; lia).
          by rewrite (Filer_match_no_row _ _ _ _ _ _ c "*") in H by (done || by right). }
      rewrite (Filer_match_inside _ _ _ _ _ _ c q) in H by done.
      apply ascii_eqb_false in Hne as Hne'. rewrite Hne' in H.
      apply ascii_eqb_false in Hq1 as Hq1'. apply ascii_eqb_false in Hq2 as Hq2'.
      rewrite Hq1', Hq2' in H.
      injection H as <- <-. split; [done|].
      intros [[? _]|[(_ & ? & _)|(_ & ? & _)]]; done.
    + apply lookup_lt_Some in Hc as Hf. apply lookup_ge_None_1 in Hq as Hp.
      rewrite Filer_match_one_done in H by (done || lia). injection H as <- <-.
      rewrite (drop_ge p) by done. rewrite Matches_nil_r.
      rewrite (drop_S _ _ _ Hc). done.
    + apply lookup_ge_None_1 in Hc as Hf. apply lookup_lt_Some in Hq as Hp.
      rewrite Filer_match_one_done in H by (done || lia). injection H as <- <-.
      rewrite (drop_ge fn) by done. rewrite Matches_nil_l.
      rewrite (drop_S _ _ _ Hq). done.
    + apply lookup_ge_None_1 in Hc as Hf. apply lookup_ge_None_1 in Hq as Hp.
      rewrite Filer_match_both_done in H by done. injection H as <- <-.
      rewrite !drop_ge by done. split; [constructor|done].
  - intros sp Hn Hfp H Hnot. rewrite star_loop_unfold in H. unfold star_loop_body in H.
    case_bool_decide as Hend.
    + injection H as <- <-. rewrite (drop_ge fn) in * by done.
      rewrite Matches_nil_l in Hnot.
      rewrite bool_decide_eq_false_2.
      2: { intros Hp. apply Hnot. by apply drop_ge. }
      split; [done|]. intros (k & _ & Hm). rewrite drop_nil in Hm.
      by apply Matches_nil_l in Hm.
    + destruct (lookup_lt_is_Some_2 fn (fp + 1)) as [c Hc]; [lia|].
      erewrite bind_Val in H; [|by apply getitem_Some].
      apply bind_Val_inv in H as ([] & s1 & H1 & H).
      apply table_set_Val in H1 as (Hwf1 & _ & _ & Hd1 & _); [|done].
      apply bind_Val_inv in H as (b2 & s2 & H2 & H).
      destruct (Filer_match_Val _ _ _ _ _ _ _ _ Hwf1 H2) as [Hwf2 Hd2].
      apply IH in H2; [|done|by rewrite Hd1|lia].
      rewrite (drop_S _ _ _ Hc), length_cons in *.
      replace (S (fp + 1)) with (fp + 1 + 1) in * by lia.
      destruct b2.
      * injection H as <- <-. split; [|done]. intros _. exists 1.
        split; [lia|]. cbn [drop]. rewrite drop_0. by apply H2.
      * apply (proj2 (IH fn p (fp + 1) pp tp s2 b s' Hwf2
                        ltac:(by rewrite Hd2, Hd1))) in H; [|lia|lia|].
        2: { intros Hm. by apply H2 in Hm. }
        rewrite H. split.
        -- intros (k & Hk & Hm). exists (S k). split; [lia|done].
        -- intros (k & Hk & Hm). destruct k as [|k]; [done|].
           exists k. split; [lia|done].
Qed.

Lemma Matches_length f pat : Matches f pat -> length pat <= length f.
Proof.
  induction 1; cbn [length]; try lia. rewrite length_app. lia.
Qed.

Lemma count_wildcards_cons q t :
  count_wildcards (q :: t)
  = (if decide (q = "*"%char \/ q = "?"%char) then 1 else 0) + count_wildcards t.
Proof.
  unfold count_wildcards, str.
  rewrite (filter_cons (fun c : ascii => c = "*"%char \/ c = "?"%char)).
  by case_decide.
Qed.

Lemma match_returns n : forall fn p fp pp tp s,
  wf s -> length fn < FNLEN ->
  (length fn - fp < n -> tp + count_wildcards (drop pp p) <= 10 ->
   exists b s', Filer_match fn p fp pp tp s = (Val b, s')) /\
  (forall sp, length fn - (fp + 1) < n -> fp < length fn -> sp <= fp + 1 ->
   tp + 1 + count_wildcards (drop (pp + 1) p) <= 10 ->
   exists b s', star_loop fn p fp sp pp tp s = (Val b, s')).
Proof.
  induction n as [|n IH]; intros fn p fp pp tp s Hwf Hlen;
    [split; [|intros sp]; lia|]. split.
  - intros Hn Hwc. destruct (dot_excluded fn s) eqn:Hdot.
    { rewrite Filer_match_dot by done. by eexists _, _. }
    destruct (fn !! fp) as [c|] eqn:Hc; destruct (p !! pp) as [q|] eqn:Hq.
    + apply lookup_lt_Some in Hc as Hf.
      rewrite (drop_S _ _ _ Hq), count_wildcards_cons in Hwc.
      replace (S pp) with (pp + 1) in Hwc by lia.
      rewrite (Filer_match_inside _ _ _ _ _ _ c q) by done.
      destruct (ascii_eqb c q); [apply IH; [done|done|lia|lia]|].
      destruct (ascii_eqb q "?") eqn:Hq1.
      { apply ascii_eqb_true in Hq1 as ->.
        rewrite decide_True in Hwc by by right.
        rewrite begin_capture_in by (done || lia).
        apply IH; [by apply wf_begin|done|lia|lia]. }
      destruct (ascii_eqb q "*") eqn:Hq2; [|by eexists _, _].
      apply ascii_eqb_true in Hq2 as ->.
      rewrite decide_True in Hwc by by left.
      rewrite begin_capture_in by (done || lia).
      pose proof (wf_begin s tp (lit "*") c Hwf) as Hwf0.
      destruct (proj1 (IH fn p (fp + 1) (pp + 1) (tp + 1) _ Hwf0 Hlen)) as (b1 & s1 & H1);
        [lia|lia|].
      rewrite (bind_Val _ _ _ _ _ H1).
      destruct b1; [by eexists _, _|].
      destruct (Filer_match_Val _ _ _ _ _ _ _ _ Hwf0 H1) as [Hwf1 _].
      apply IH; [done|done|lia|lia|lia|lia].
    + apply lookup_lt_Some in Hc as Hf. apply lookup_ge_None_1 in Hq as Hp.
      rewrite Filer_match_one_done by (done || lia). by eexists _, _.
    + apply lookup_ge_None_1 in Hc as Hf. apply lookup_lt_Some in Hq as Hp.
      rewrite Filer_match_one_done by (done || lia). by eexists _, _.
    + apply lookup_ge_None_1 in Hc as Hf. apply lookup_ge_None_1 in Hq as Hp.
      rewrite Filer_match_both_done by done. by eexists _, _.
  - intros sp Hn Hfp Hsp Hwc. rewrite star_loop_unfold. unfold star_loop_body.
    case_bool_decide as Hend; [by eexists _, _|].
    destruct (lookup_lt_is_Some_2 fn (fp + 1)) as [c Hc]; [lia|].
    erewrite bind_Val; [|by apply getitem_Some].
    destruct (table_set_wf tp (sp + 1) [c] s Hwf) as [(_ & _ & row & Hrow & E)|[Hout _]];
      [|lia].
    rewrite (bind_Val _ _ _ _ _ E).
    destruct (table_set_Val _ _ _ _ _ Hwf E) as (Hwf1 & _).
    destruct (proj1 (IH fn p (fp + 1 + 1) (pp + 1) (tp + 1) _ Hwf1 Hlen)) as (b2 & s2 & H2);
      [lia|lia|].
    rewrite (bind_Val _ _ _ _ _ H2).
    destruct b2; [by eexists _, _|].
    destruct (Filer_match_Val _ _ _ _ _ _ _ _ Hwf1 H2) as [Hwf2 _].
    apply IH; [done|done|lia|lia|lia|lia].
Qed.

Lemma match_decides_Matches_aux fn pat s s' :
  wf s -> dot_excluded fn s = false ->
  Filer_match fn pat 0 0 0 s = (Val true, s') -> Matches fn pat.
Proof.
  intros Hwf Hdot H.
  apply (proj1 (match_sem (S (length fn)) fn pat 0 0 0 s true s' Hwf Hdot)) in H; [|lia].
  by apply H.
Qed.

(** X1.  Whenever [match] returns on a filename that passes the dotfile
    test, it returns true exactly when the filename can be read along the
    pattern: each pattern character for itself, each [?] for one
    character, each [*] for one or more characters, a wildcard standing
    for itself in front of the same character. *)
Theorem match_decides_Matches (fn pat : str) (s : Filer) (b : bool) (s' : Filer) :
  wf s -> dot_excluded fn s = false ->
  Filer_match fn pat 0 0 0 s = (Val b, s') ->
  (b = true <-> Matches fn pat).
Proof.
  intros Hwf Hdot H.
  apply (proj1 (match_sem (S (length fn)) fn pat 0 0 0 s b s' Hwf Hdot)) in H; [|lia].
  exact H.
Qed.

Lemma match_decides_Matches_witness :
  Matches (lit "report-2020.txt") (lit "*-????.*") /\
  ~ Matches (lit "ac") (lit "a*c").
Proof.
  split.
  - apply (proj1 (match_decides_Matches (lit "report-2020.txt") (lit "*-????.*")
                    (new_filer false) true _ (wf_new_filer false) eq_refl
                    ltac:(vm_compute; reflexivity))).
    reflexivity.
  - intros Hm.
    apply (proj2 (match_decides_Matches (lit "ac") (lit "a*c")
                    (new_filer false) false _ (wf_new_filer false) eq_refl
                    ltac:(vm_compute; reflexivity))) in Hm.
    discriminate.
Defined.

(** X2.  On a well-shaped object, a filename shorter than [FNLEN] and a
    pattern with at most ten wildcards, [match] returns a boolean: it
    raises nothing. *)
Theorem match_returns_within_bounds (fn pat : str) (s : Filer) :
  wf s -> length fn < FNLEN -> count_wildcards pat <= 10 ->
  exists b s', Filer_match fn pat 0 0 0 s = (Val b, s').
Proof.
  intros Hwf Hlen Hwc.
  apply (proj1 (match_returns (S (length fn)) fn pat 0 0 0 s Hwf Hlen)); [lia|done].
Qed.

Lemma match_returns_within_bounds_witness :
  exists b s',
    Filer_match (replicate 299 "a"%char) (lit "??????????") 0 0 0 (new_filer false)
    = (Val b, s').
Proof.
  apply (match_returns_within_bounds (replicate 299 "a"%char) (lit "??????????")
           (new_filer false) (wf_new_filer false)).
  - rewrite length_replicate, FNLEN_eq. lia.
  - vm_compute. lia.
Defined.

(** X3.  A match that succeeds has a filename at least as long as the
    pattern, every pattern token taking at least one character: so the
    empty pattern matches the empty name only, and no pattern, not even
    [*], matches the empty name unless it is empty. *)
Theorem match_needs_a_character_per_token (fn pat : str) (s s' : Filer) :
  wf s -> Filer_match fn pat 0 0 0 s = (Val true, s') ->
  length pat <= length fn /\ (pat = [] -> fn = []).
Proof.
  intros Hwf H. destruct (dot_excluded fn s) eqn:Hdot.
  { by rewrite Filer_match_dot in H. }
  apply match_decides_Matches_aux in H; [|done|done].
  split; [by apply Matches_length|]. intros ->. by apply Matches_nil_r.
Qed.

Lemma match_needs_a_character_per_token_witness :
  length (lit "a?c") <= length (lit "abc") /\ (lit "a?c" = [] -> lit "abc" = []).
Proof.
  eapply (match_needs_a_character_per_token (lit "abc") (lit "a?c") (new_filer false)).
  - apply wf_new_filer.
  - vm_compute. reflexivity.
Defined.

(** ** What the rebuild engine builds from a template without quotes *)

Lemma emit_nothing s : emit [] [] (stk s) (qmk s) s = s.
Proof.
  unfold emit. cbn [length app]. rewrite Nat.add_0_r, take_drop, app_nil_r.
  by destruct s.
Qed.

Lemma emit_emit c1 o1 k1 q1 c2 o2 k2 q2 s :
  nnp s + length c1 <= length (nn s) ->
  emit c2 o2 k2 q2 (emit c1 o1 k1 q1 s) = emit (c1 ++ c2) (o1 ++ o2) k2 q2 s.
Proof.
  intros Hroom. unfold emit.
  cbn [include_dots quotenames table nn nnp r p cmd stk qmk seq_number stdout clock ticks].
  assert (length (take (nnp s) (nn s)) = nnp s) as Ht by (rewrite length_take; lia).
  f_equal.
  - rewrite (app_assoc (take (nnp s) (nn s)) c1).
    rewrite take_app_length' by (rewrite length_app; lia).
    rewrite <- (drop_drop _ (length c2) (nnp s + length c1)).
    rewrite (drop_app_length' _ _ (nnp s + length c1)) by (rewrite length_app; lia).
    rewrite drop_drop, length_app, <- !app_assoc.
    by rewrite Nat.add_assoc.
  - rewrite length_app. lia.
  - by rewrite app_assoc.
Qed.

Lemma emit_push v s :
  nnp s < length (nn s) ->
  set_nnp (nnp s + 1) (set_nn (<[nnp s := v]> (nn s)) s) = emit [v] [] (stk s) (qmk s) s.
Proof.
  intros Hlt. unfold emit, set_nnp, set_nn.
  cbn [include_dots quotenames table nn nnp r p cmd stk qmk seq_number stdout clock ticks
       length app].
  rewrite app_nil_r. f_equal.
  rewrite insert_take_drop by done. by rewrite Nat.add_1_r.
Qed.

Lemma push_emit {B} v (k : M B) s :
  nnp s < length (nn s) ->
  (x <- gets nnp ;; nn_set x v ;; modify (set_nnp (x + 1)) ;; k) s
  = k (emit [v] [] (stk s) (qmk s) s).
Proof.
  intros Hlt. rewrite <- emit_push by done.
  rewrite (bind_Val _ _ s (nnp s) s) by done.
  unfold nn_set. cbv beta iota zeta delta [bind gets].
  destruct (decide (nnp s < length (nn s))); [done|lia].
Qed.

Lemma emit_length c o k q s :
  nnp s + length c <= length (nn s) -> length (nn (emit c o k q s)) = length (nn s).
Proof.
  intros H. unfold emit. cbn [nn]. rewrite !length_app, length_take, length_drop. lia.
Qed.

Lemma emit_print m s :
  set_stdout (stdout s ++ [m]) s = emit [] [m] (stk s) (qmk s) s.
Proof.
  unfold emit. cbn [length app]. rewrite Nat.add_0_r, take_drop. by destruct s.
Qed.

Lemma get_digit_no_quote l s :
  Forall (fun c => c <> "'"%char) (r s) -> get_digit l s = (Val 0, s).
Proof.
  intros Hq. unfold get_digit. rewrite (bind_Val _ _ s (r s) s) by done.
  case_bool_decide as Hl; [done|].
  destruct (lookup_lt_is_Some_2 (r s) (l + 1)) as [c Hc]; [lia|].
  rewrite (bind_Val _ _ s c s) by (by apply getitem_Some).
  assert (c <> "'"%char) as Hne by (by eapply (proj1 (Forall_lookup _ _)) in Hq).
  apply ascii_eqb_false in Hne. by rewrite Hne.
Qed.

Lemma filter_lookup_index {A} (P : A -> Prop) `{!forall x, Decision (P x)} (l : list A) :
  forall k x, filter P l !! k = Some x ->
  exists j, l !! j = Some x /\ P x /\ length (filter P (take j l)) = k.
Proof.
  induction l as [|a l IH]; intros k x Hk; [done|].
  rewrite filter_cons in Hk. case_decide as Ha.
  - destruct k as [|k].
    + injection Hk as ->. by exists 0.
    + destruct (IH k x Hk) as (j & Hj & HP & Hlen).
      exists (S j). split_and!; [done..|].
      cbn [take]. rewrite filter_cons. case_decide; [|done]. cbn [length]. by rewrite Hlen.
  - destruct (IH k x Hk) as (j & Hj & HP & Hlen).
    exists (S j). split_and!; [done..|].
    cbn [take]. rewrite filter_cons. by case_decide.
Qed.

Lemma count_marked_cons marker row t :
  count_marked marker (row :: t)
  = (if decide (row !! 0 = Some marker) then 1 else 0) + count_marked marker t.
Proof. unfold count_marked. rewrite filter_cons. by case_decide. Qed.

Lemma table_get_Some line k s row cell :
  table s !! line = Some row -> row !! k = Some cell -> table_get line k s = (Val cell, s).
Proof.
  intros Hrow Hcell. unfold table_get.
  rewrite (bind_Val _ _ s (table s) s) by done.
  rewrite (bind_Val _ _ s row s) by (by apply getitem_Some).
  by apply getitem_Some.
Qed.

Lemma where_loop_found n marker : forall w dg s j row,
  w <= j -> j < 10 -> length (table s) = 10 ->
  (forall i rw, table s !! i = Some rw -> exists m, rw !! 0 = Some m) ->
  table s !! j = Some row -> row !! 0 = Some marker ->
  dg = count_marked marker (take (j - w) (drop w (table s))) + 1 ->
  j - w + 1 < n ->
  where_loop n marker dg w s = (Val j, s).
Proof.
  induction n as [|n IH]; intros w dg s j row Hw Hj Hlen Hhead Hrow Hm Hdg Hn; [lia|].
  cbn [where_loop].
  rewrite (bool_decide_eq_false_2 (dg = 0)) by lia.
  rewrite (bool_decide_eq_true_2 (w < 10)) by lia. cbn [negb andb].
  destruct (lookup_lt_is_Some_2 (table s) w) as [rw Hrw]; [lia|].
  destruct (Hhead _ _ Hrw) as [m Hm0].
  rewrite (bind_Val _ _ s m s) by (by eapply table_get_Some).
  cbv zeta.
  destruct (decide (w = j)) as [->|Hne].
  - assert (rw = row) as -> by congruence. assert (m = marker) as -> by congruence.
    rewrite (proj2 (str_eqb_eq marker marker)) by done.
    rewrite Nat.sub_diag in Hdg. cbn [take] in Hdg. subst dg. cbn.
    destruct n; [lia|]. done.
  - rewrite (drop_S _ _ _ Hrw) in Hdg.
    replace (j - w) with (S (j - S w)) in Hdg by lia. cbn [take] in Hdg.
    rewrite count_marked_cons in Hdg.
    destruct (str_eqb m marker) eqn:Heq.
    + apply str_eqb_eq in Heq as ->.
      rewrite decide_True in Hdg by done.
      rewrite (bool_decide_eq_true_2 (0 < dg - 1)) by lia.
      rewrite Nat.add_1_r. eapply IH; eauto; lia.
    + rewrite decide_False in Hdg.
      2:{ intros Hc. rewrite Hm0 in Hc. injection Hc as ->.
          by rewrite (proj2 (str_eqb_eq marker marker)) in Heq. }
      rewrite (bool_decide_eq_true_2 (0 < dg)) by lia.
      rewrite Nat.add_1_r. eapply IH; eauto; lia.
Qed.

Lemma rb_copy_loop_emit n w : forall tk s row,
  table s !! w = Some row -> length row = FNLEN -> FNLEN - tk < n ->
  nnp s + length (leading_cells (drop tk row)) <= length (nn s) ->
  rb_copy_loop n w tk s
  = (Val tt, emit (leading_cells (drop tk row)) [] (stk s) (qmk s) s).
Proof.
  induction n as [|n IH]; intros tk s row Hrow Hlen Hn Hroom; [lia|].
  cbn [rb_copy_loop]. case_bool_decide as Htk.
  - destruct (lookup_lt_is_Some_2 row tk) as [cell Hcell]; [lia|].
    rewrite (bind_Val _ _ s cell s) by (by eapply table_get_Some).
    rewrite (drop_S _ _ _ Hcell) in Hroom |- *. cbn [leading_cells] in Hroom |- *.
    destruct (str_eqb cell E) eqn:Hc.
    + by rewrite emit_nothing.
    + cbn [length] in Hroom. rewrite push_emit by lia.
      rewrite (IH (tk + 1) _ row); [| done | done | lia |].
      * rewrite Nat.add_1_r. cbn [stk qmk emit].
        rewrite emit_emit by (cbn [length]; lia). done.
      * rewrite emit_length by (cbn [length]; lia).
        rewrite Nat.add_1_r. cbn [nnp emit length]. lia.
  - rewrite drop_ge by lia. by rewrite emit_nothing.
Qed.

Lemma wf_heads s i rw :
  wf s -> table s !! i = Some rw -> exists m, rw !! 0 = Some m.
Proof.
  intros [[_ Hrows] _] Hrw. apply lookup_lt_is_Some_2.
  rewrite (Hrows _ _ Hrw), FNLEN_eq. lia.
Qed.

Lemma lookup_copy marker dg s :
  wf s -> marker <> E -> 0 < dg ->
  nnp s + length (default [] (captures_marked marker (table s) !! (dg - 1))) <= FNLEN ->
  (where_ <- where_loop 12 marker dg 0 ;; copy_found where_) s
  = (Val tt,
     emit (default [] (captures_marked marker (table s) !! (dg - 1)))
          (if captures_marked marker (table s) !! (dg - 1) is Some _
           then [] else [not_found_message])
          (stk s) (qmk s) s).
Proof.
  intros Hwf Hmk Hdg Hroom.
  destruct (captures_marked marker (table s) !! (dg - 1)) as [cells|] eqn:Hc.
  - unfold captures_marked in Hc. rewrite list_lookup_fmap in Hc.
    destruct (filter _ (table s) !! (dg - 1)) as [row|] eqn:Hf; [|done].
    injection Hc as <-.
    apply filter_lookup_index in Hf as (j & Hj & Hm & Hcount).
    assert (j < 10) as Hj10.
    { apply lookup_lt_Some in Hj. by destruct Hwf as [[<- _] _]. }
    rewrite (bind_Val _ _ s j s).
    2:{ apply (where_loop_found 12 marker 0 dg s j row); try done; try lia.
        - by destruct Hwf as [[? _] _].
        - intros i rw Hrw. by eapply wf_heads.
        - rewrite Nat.sub_0_r, drop_0. unfold count_marked. lia. }
    unfold copy_found. rewrite bool_decide_eq_false_2 by lia.
    rewrite (bind_Val _ _ s marker s) by (by eapply table_get_Some).
    destruct (str_eqb marker E) eqn:Heq; [by apply str_eqb_eq in Heq|].
    unfold rb_copy. cbn [default] in Hroom |- *.
    apply rb_copy_loop_emit.
    + done.
    + destruct Hwf as [[_ Hrows] _]. by eapply Hrows.
    + pose proof FNLEN_eq. lia.
    + destruct Hwf as [_ ->]. done.
  - apply lookup_ge_None in Hc. unfold captures_marked in Hc. rewrite length_map in Hc.
    rewrite (bind_Val _ _ s 10 s).
    2:{ apply where_loop_past; try done; try lia. rewrite drop_0. unfold count_marked. lia. }
    unfold copy_found. rewrite bool_decide_eq_true_2 by lia.
    cbn [default]. by rewrite <- emit_print.
Qed.

Lemma rb_star_expand l s :
  wf s -> Forall (fun c => c <> "'"%char) (r s) ->
  nnp s + length (default [] (captures_marked (lit "*") (table s) !! stk s)) <= FNLEN ->
  rb_star l s
  = (Val tt,
     emit (default [] (captures_marked (lit "*") (table s) !! stk s))
          (if captures_marked (lit "*") (table s) !! stk s is Some _
           then [] else [not_found_message])
          (stk s + 1) (qmk s) s).
Proof.
  intros Hwf Hq Hroom. unfold rb_star. cbv zeta.
  rewrite (bind_Val _ _ s 0 s) by (by apply get_digit_no_quote).
  rewrite (bool_decide_eq_false_2 (0 = 99)) by lia.
  rewrite (bool_decide_eq_true_2 (0 = 0)) by lia.
  rewrite (bind_Val _ _ s (stk s + 1) (set_stk (stk s + 1) s)) by done.
  rewrite lookup_copy.
  - cbn [table set_stk]. by rewrite Nat.add_sub.
  - done.
  - done.
  - lia.
  - cbn [table set_stk nnp]. by rewrite Nat.add_sub.
Qed.

Lemma rb_qmark_expand l s :
  wf s -> Forall (fun c => c <> "'"%char) (r s) ->
  nnp s + length (default [] (captures_marked (lit "?") (table s) !! qmk s)) <= FNLEN ->
  rb_qmark l s
  = (Val tt,
     emit (default [] (captures_marked (lit "?") (table s) !! qmk s))
          (if captures_marked (lit "?") (table s) !! qmk s is Some _
           then [] else [not_found_message])
          (stk s) (qmk s + 1) s).
Proof.
  intros Hwf Hq Hroom. unfold rb_qmark. cbv zeta.
  rewrite (bind_Val _ _ s 0 s) by (by apply get_digit_no_quote).
  rewrite (bool_decide_eq_false_2 (0 = 99)) by lia.
  rewrite (bool_decide_eq_true_2 (0 = 0)) by lia.
  rewrite (bind_Val _ _ s (qmk s + 1) (set_qmk (qmk s + 1) s)) by done.
  rewrite lookup_copy.
  - cbn [table set_qmk]. by rewrite Nat.add_sub.
  - done.
  - done.
  - lia.
  - cbn [table set_qmk nnp]. by rewrite Nat.add_sub.
Qed.

Lemma wf_emit c o k q s :
  wf s -> nnp s + length c <= length (nn s) -> wf (emit c o k q s).
Proof.
  intros [Ht Hn] Hroom. split; [done|]. by rewrite emit_length.
Qed.

Lemma count_char_cons c x t :
  count_char c (x :: t) = (if decide (x = c) then 1 else 0) + count_char c t.
Proof.
  unfold count_char, str. rewrite (filter_cons (fun x : ascii => x = c)). by case_decide.
Qed.

Lemma count_char_nil c : count_char c [] = 0.
Proof. done. Qed.

Lemma rebuild_loop_expand stars qms n : forall l s,
  wf s -> Forall (fun c => c <> "'"%char) (r s) ->
  stars = captures_marked (lit "*") (table s) ->
  qms = captures_marked (lit "?") (table s) ->
  length (r s) - l < n ->
  nnp s + length (expand stars qms (stk s) (qmk s) (drop l (r s))) <= FNLEN ->
  rebuild_loop n l s
  = (Val tt,
     emit (expand stars qms (stk s) (qmk s) (drop l (r s)))
          (replicate (misses stars qms (stk s) (qmk s) (drop l (r s))) not_found_message)
          (stk s + count_char "*" (drop l (r s)))
          (qmk s + count_char "?" (drop l (r s))) s).
Proof.
  induction n as [|n IH]; intros l s Hwf Hq Hst Hqm Hn Hroom; [lia|].
  assert (length (nn s) = FNLEN) as Hnn by apply Hwf.
  cbn [rebuild_loop]. rewrite (bind_Val _ _ s (r s) s) by done.
  case_bool_decide as Hl.
  2:{ rewrite drop_ge by lia. cbn [expand misses replicate].
      by rewrite !count_char_nil, !Nat.add_0_r, emit_nothing. }
  destruct (lookup_lt_is_Some_2 (r s) l) as [c Hc]; [done|].
  rewrite (bind_Val _ _ s c s) by (by apply getitem_Some).
  rewrite (drop_S _ _ _ Hc) in Hroom |- *.
  rewrite !count_char_cons, !(Nat.add_1_r l). cbn [expand misses] in Hroom |- *.
  destruct (ascii_eqb c "*") eqn:Hstar; [|destruct (ascii_eqb c "?") eqn:Hqmark].
  - apply ascii_eqb_true in Hstar as ->. rewrite length_app in Hroom.
    rewrite decide_True, decide_False by done.
    erewrite bind_Val; [|apply rb_star_expand; [done..|rewrite <- Hst; lia]].
    rewrite <- Hst.
    rewrite IH; [| apply wf_emit; [done|lia] | done | done | done | cbn [r emit]; lia
                 | cbn [nnp stk qmk r emit]; lia].
    cbn [stk qmk r emit]. rewrite emit_emit by lia.
    do 2 f_equal; [|lia..].
    rewrite replicate_add. f_equal. by destruct (stars !! stk s).
  - apply ascii_eqb_true in Hqmark as ->. rewrite length_app in Hroom.
    rewrite decide_False, decide_True by done.
    erewrite bind_Val; [|apply rb_qmark_expand; [done..|rewrite <- Hqm; lia]].
    rewrite <- Hqm.
    rewrite IH; [| apply wf_emit; [done|lia] | done | done | done | cbn [r emit]; lia
                 | cbn [nnp stk qmk r emit]; lia].
    cbn [stk qmk r emit]. rewrite emit_emit by lia.
    do 2 f_equal; [|lia..].
    rewrite replicate_add. f_equal. by destruct (qms !! qmk s).
  - apply ascii_eqb_false in Hstar, Hqmark.
    assert (c <> "'"%char) as Hne by (by eapply (proj1 (Forall_lookup _ _)) in Hq).
    apply ascii_eqb_false in Hne. rewrite Hne.
    rewrite !decide_False by done. cbn [length] in Hroom.
    rewrite push_emit by lia.
    rewrite IH; [| apply wf_emit; [done|cbn [length]; lia] | done | done | done
                 | cbn [r emit]; lia | cbn [nnp stk qmk r emit length]; lia].
    cbn [stk qmk r emit]. rewrite emit_emit by (cbn [length]; lia).
    done.
Qed.

Lemma set_nn_id s : set_nn (nn s) s = s.
Proof. by destruct s. Qed.

Lemma clear_buffer_eq n : forall k s,
  k + n <= length (nn s) ->
  for_range_from k n (fun k => nn_set k E) s
  = (Val tt, set_nn (take k (nn s) ++ replicate n E ++ drop (k + n) (nn s)) s).
Proof.
  induction n as [|n IH]; intros k s Hk.
  - cbn [for_range_from replicate app]. by rewrite Nat.add_0_r, take_drop, set_nn_id.
  - cbn [for_range_from].
    rewrite (bind_Val _ _ s tt (set_nn (<[k := E]> (nn s)) s)).
    2:{ unfold nn_set. rewrite (bind_Val _ _ s (nn s) s) by done.
        destruct (decide (k < length (nn s))); [done|lia]. }
    rewrite IH by (cbn [nn set_nn]; rewrite length_insert; lia).
    cbn [nn set_nn]. f_equal. unfold set_nn. cbn. f_equal.
    destruct (lookup_lt_is_Some_2 (<[k := E]> (nn s)) k) as [x Hx];
      [rewrite length_insert; lia|].
    rewrite (take_S_r _ _ _ Hx), take_insert_ge by lia.
    rewrite list_lookup_insert_eq in Hx by lia. injection Hx as <-.
    rewrite drop_insert_lt by lia. rewrite <- app_assoc. cbn [app replicate].
    by rewrite Nat.add_succ_r.
Qed.

Lemma rebuild_reset s :
  wf s ->
  rebuild s = (tmpl <- gets r ;; rebuild_loop (S (length tmpl)) 0) (reset s).
Proof.
  intros [_ Hnn]. rewrite rebuild_unfold. unfold for_range.
  rewrite (bind_Val _ _ _ tt (reset s)); [done|].
  rewrite clear_buffer_eq by (cbn; lia). unfold reset. do 2 f_equal.
  cbn [nn set_nnp set_qmk set_stk take app]. rewrite drop_ge by (cbn; lia).
  by rewrite app_nil_r.
Qed.

Lemma get_rebuilt_name_from_eq n : forall i acc s,
  i + n <= length (nn s) ->
  get_rebuilt_name_from i n acc s = (Val (acc ++ concat (take n (drop i (nn s)))), s).
Proof.
  induction n as [|n IH]; intros i acc s Hi.
  - cbn. by rewrite app_nil_r.
  - cbn [get_rebuilt_name_from]. rewrite (bind_Val _ _ s (nn s) s) by done.
    destruct (lookup_lt_is_Some_2 (nn s) i) as [cell Hcell]; [lia|].
    rewrite (bind_Val _ _ s cell s) by (by apply getitem_Some).
    rewrite IH by lia. rewrite (drop_S _ _ _ Hcell). cbn [take concat].
    destruct (str_eqb cell E) eqn:Hc.
    + apply str_eqb_eq in Hc as ->. done.
    + by rewrite <- app_assoc.
Qed.

Lemma get_rebuilt_name_eq s :
  nnp s <= length (nn s) -> get_rebuilt_name s = (Val (buffer_text s), s).
Proof.
  intros H. unfold get_rebuilt_name. rewrite (bind_Val _ _ s (nnp s) s) by done.
  rewrite get_rebuilt_name_from_eq by lia. by rewrite drop_0.
Qed.

Lemma buffer_text_emit c o k q s :
  nnp s + length c <= length (nn s) ->
  buffer_text (emit c o k q s) = buffer_text s ++ concat c.
Proof.
  intros H. unfold buffer_text, emit. cbn [nn nnp].
  rewrite app_assoc, take_app_length' by (rewrite length_app, length_take; lia).
  by rewrite concat_app.
Qed.

Lemma rebuild_expand s :
  wf s -> Forall (fun c => c <> "'"%char) (r s) ->
  length (expand (captures_marked (lit "*") (table s))
                 (captures_marked (lit "?") (table s)) 0 0 (r s)) <= FNLEN ->
  rebuild s
  = (Val tt,
     emit (expand (captures_marked (lit "*") (table s))
                  (captures_marked (lit "?") (table s)) 0 0 (r s))
          (replicate (misses (captures_marked (lit "*") (table s))
                             (captures_marked (lit "?") (table s)) 0 0 (r s))
                     not_found_message)
          (count_char "*" (r s)) (count_char "?" (r s)) (reset s)).
Proof.
  intros Hwf Hq Hroom. rewrite rebuild_reset by done.
  assert (wf (reset s)) as Hwf'.
  { destruct Hwf as [Ht _]. split; [done|]. cbn. by rewrite length_replicate. }
  rewrite (bind_Val _ _ _ (r s) (reset s)) by done.
  rewrite (rebuild_loop_expand (captures_marked (lit "*") (table s))
             (captures_marked (lit "?") (table s))); try done.
  cbn [r reset set_nn set_nnp set_qmk set_stk]. lia.
Qed.

Lemma rebuilt_name_expand s :
  wf s -> Forall (fun c => c <> "'"%char) (r s) ->
  length (expand (captures_marked (lit "*") (table s))
                 (captures_marked (lit "?") (table s)) 0 0 (r s)) <= FNLEN ->
  (rebuild ;; get_rebuilt_name) s
  = (Val (concat (expand (captures_marked (lit "*") (table s))
                         (captures_marked (lit "?") (table s)) 0 0 (r s))),
     emit (expand (captures_marked (lit "*") (table s))
                  (captures_marked (lit "?") (table s)) 0 0 (r s))
          (replicate (misses (captures_marked (lit "*") (table s))
                             (captures_marked (lit "?") (table s)) 0 0 (r s))
                     not_found_message)
          (count_char "*" (r s)) (count_char "?" (r s)) (reset s)).
Proof.
  intros Hwf Hq Hroom.
  erewrite bind_Val; [|by apply rebuild_expand].
  assert (length (nn (reset s)) = FNLEN) as Hnn by (cbn; by rewrite length_replicate).
  rewrite get_rebuilt_name_eq.
  - rewrite buffer_text_emit by (rewrite Hnn; cbn [nnp reset set_nn set_nnp]; lia).
    done.
  - rewrite emit_length by (rewrite Hnn; cbn [nnp reset set_nn set_nnp]; lia).
    rewrite Hnn. cbn [nnp emit reset set_nn set_nnp]. lia.
Qed.

(** X4. For a template without quote characters, on a well-shaped object
    and with room in the buffer, [rebuild] followed by [get_rebuilt_name]
    returns the text built from the template left to right: a plain
    character for itself, the k-th [*] (resp. [?]) of the template for the
    text of the k-th star (resp. question-mark) capture in the table, and
    nothing for a reference without a capture, for each of which one line
    "Can't find indexed pattern item." is printed; the star and
    question-mark cursors end at the number of [*] and [?] of the template. *)
Theorem rebuild_builds_template_expansion s :
  wf s -> Forall (fun c => c <> "'"%char) (r s) ->
  length (expand (captures_marked (lit "*") (table s))
                 (captures_marked (lit "?") (table s)) 0 0 (r s)) <= FNLEN ->
  (rebuild ;; get_rebuilt_name) s
  = (Val (concat (expand (captures_marked (lit "*") (table s))
                         (captures_marked (lit "?") (table s)) 0 0 (r s))),
     emit (expand (captures_marked (lit "*") (table s))
                  (captures_marked (lit "?") (table s)) 0 0 (r s))
          (replicate (misses (captures_marked (lit "*") (table s))
                             (captures_marked (lit "?") (table s)) 0 0 (r s))
                     not_found_message)
          (count_char "*" (r s)) (count_char "?" (r s)) (reset s)).
Proof. apply rebuilt_name_expand. Qed.

Lemma rebuild_builds_template_expansion_witness :
  ((rebuild ;; get_rebuilt_name)
     (matched false (lit "*-?.txt") (lit "?_*.bak*") (lit "ab-c.txt"))).1
  = Val (lit "c_ab.bak").
Proof.
  rewrite rebuild_builds_template_expansion.
  - vm_compute. reflexivity.
  - apply wf_matched.
  - vm_compute. repeat constructor; discriminate.
  - vm_compute. lia.
Defined.

Lemma concat_cells_of x : concat (cells_of x) = x.
Proof.
  unfold cells_of. induction x as [|c x IH]; [done|].
  cbn [map concat app]. by rewrite IH.
Qed.

Lemma expand_literal stars qms t : forall k q,
  Forall literal t ->
  expand stars qms k q t = cells_of t /\ misses stars qms k q t = 0 /\
  count_char "*" t = 0 /\ count_char "?" t = 0.
Proof.
  induction t as [|c t IH]; intros k q Ht; [done|].
  apply Forall_cons in Ht as [[Hs Hq] Ht].
  destruct (IH k q Ht) as (IH1 & IH2 & IH3 & IH4).
  rewrite !count_char_cons, !decide_False by done. cbn [expand misses].
  apply ascii_eqb_false in Hs, Hq. rewrite Hs, Hq.
  rewrite IH1, IH2, IH3, IH4. done.
Qed.

(** X5. A template made of plain characters only (no [*], [?] or quote),
    at most FNLEN long, rebuilds to itself whatever the table holds, and
    prints nothing. *)
Theorem plain_template_rebuilds_to_itself s :
  wf s -> Forall literal (r s) -> Forall (fun c => c <> "'"%char) (r s) ->
  length (r s) <= FNLEN ->
  (rebuild ;; get_rebuilt_name) s
  = (Val (r s), emit (cells_of (r s)) [] 0 0 (reset s)).
Proof.
  intros Hwf Hlit Hq Hlen.
  destruct (expand_literal (captures_marked (lit "*") (table s))
              (captures_marked (lit "?") (table s)) (r s) 0 0 Hlit)
    as (H1 & H2 & H3 & H4).
  rewrite rebuilt_name_expand; [|done|done|].
  - by rewrite H1, H2, H3, H4, concat_cells_of.
  - rewrite H1. unfold cells_of. by rewrite length_map.
Qed.

Lemma plain_template_rebuilds_to_itself_witness :
  ((rebuild ;; get_rebuilt_name)
     (matched false (lit "*.txt") (lit "notes.bak") (lit "a.txt"))).1
  = Val (lit "notes.bak").
Proof.
  rewrite plain_template_rebuilds_to_itself.
  - reflexivity.
  - apply wf_matched.
  - vm_compute. repeat constructor; discriminate.
  - vm_compute. repeat constructor; discriminate.
  - vm_compute. lia.
Defined.

(** ** The captures a successful match leaves in the table *)

Lemma capture_row_row_of m c : capture_row m c = row_of (m, [c]).
Proof. unfold capture_row, row_of, cells_of. rewrite FNLEN_eq. reflexivity. Qed.

Lemma row_of_grow m u c :
  length u + 1 < FNLEN ->
  <[length u + 1 := [c]]> (row_of (m, u)) = row_of (m, u ++ [c]).
Proof.
  intros H. unfold row_of, cells_of. cbn [fst snd].
  rewrite Nat.add_1_r.
  change (m :: <[length u := [c]]>
                 (map (fun c => [c]) u ++ replicate (FNLEN - 1 - length u) E)
          = m :: map (fun c => [c]) (u ++ [c])
                 ++ replicate (FNLEN - 1 - length (u ++ [c])) E).
  f_equal.
  rewrite insert_app_r_alt by (by rewrite length_map).
  rewrite length_map, Nat.sub_diag, length_app. cbn [length].
  replace (FNLEN - 1 - length u) with (S (FNLEN - 1 - (length u + 1))) by lia.
  rewrite map_app, <- app_assoc. done.
Qed.

Lemma captures_take tp' tp s s' :
  captures tp' s s' -> tp <= tp' -> take tp (table s') = take tp (table s).
Proof.
  intros Hc Hle. apply list_eq. intros i.
  destruct (decide (i < tp)) as [Hi|Hi].
  - rewrite !lookup_take_lt by done. eapply captures_below; [done|lia].
  - by rewrite !lookup_take_ge by lia.
Qed.

Lemma match_false_not_Matches fn p fp pp tp s s' :
  wf s -> dot_excluded fn s = false ->
  Filer_match fn p fp pp tp s = (Val false, s') ->
  ~ Matches (drop fp fn) (drop pp p).
Proof.
  intros Hwf Hdot H Hm.
  destruct (match_sem (S (length fn)) fn p fp pp tp s false s' Hwf Hdot) as [Hs _].
  apply Hs in H; [|lia]. by apply H in Hm.
Qed.

Lemma match_captures n : forall fn p fp pp tp s s',
  wf s -> dot_excluded fn s = false ->
  (length fn - fp < n ->
   Filer_match fn p fp pp tp s = (Val true, s') ->
   exists caps rest, Captured (drop fp fn) (drop pp p) caps /\
     table s' = take tp (table s) ++ map row_of caps ++ rest) /\
  (forall sp u, length fn - (fp + 1) < n -> fp < length fn ->
   star_loop fn p fp sp pp tp s = (Val true, s') ->
   ~ Matches (drop (fp + 1) fn) (drop (pp + 1) p) ->
   table s !! tp = Some (row_of (lit "*", u)) -> sp = length u ->
   exists c v f caps rest, drop (fp + 1) fn = c :: v ++ f /\
     (forall k, k < length (c :: v) ->
        ~ Matches (drop k (c :: v ++ f)) (drop (pp + 1) p)) /\
     Captured f (drop (pp + 1) p) caps /\
     table s' = take tp (table s) ++ row_of (lit "*", u ++ c :: v)
                  :: map row_of caps ++ rest).
Proof.
  induction n as [|n IH]; intros fn p fp pp tp s s' Hwf Hdot;
    [split; [|intros sp u]; lia|].
  assert (length (table s) = 10) as Hlen by (by destruct Hwf as [[? _] _]).
  split.
  - intros Hn H.
    destruct (fn !! fp) as [c|] eqn:Hc; destruct (p !! pp) as [q|] eqn:Hq.
    + rewrite (drop_S _ _ _ Hc), (drop_S _ _ _ Hq).
      apply lookup_lt_Some in Hc as Hf.
      replace (S fp) with (fp + 1) by lia. replace (S pp) with (pp + 1) by lia.
      destruct (decide (c = q)) as [->|Hne].
      { rewrite (Filer_match_inside _ _ _ _ _ _ q q) in H by done.
        unfold ascii_eqb in H. rewrite Ascii.eqb_refl in H.
        apply (proj1 (IH fn p (fp + 1) (pp + 1) tp s s' Hwf Hdot)) in H; [|lia].
        destruct H as (caps & rest & Hcap & Ht).
        exists caps, rest. split; [by constructor|done]. }
      destruct (decide (q = "?"%char)) as [->|Hq1].
      { destruct (decide (tp < 10)) as [Htp|Htp].
        - rewrite (Filer_match_inside _ _ _ _ _ _ c "?") in H by done.
          apply ascii_eqb_false in Hne as Hne'. rewrite Hne' in H.
          change (ascii_eqb "?" "?") with true in H. cbv iota in H.
          rewrite begin_capture_in in H by done.
          apply (proj1 (IH fn p (fp + 1) (pp + 1) (tp + 1) _ s'
                          (wf_begin s tp (lit "?") c Hwf) Hdot)) in H; [|lia].
          destruct H as (caps & rest & Hcap & Ht).
          exists ((lit "?", [c]) :: caps), rest. split; [by constructor|].
          rewrite Ht. cbn [table set_table map].
          rewrite Nat.add_1_r, take_insert_S by lia.
          by rewrite capture_row_row_of, <- app_assoc.
        - assert (length (table s) <= tp) by lia.
          by rewrite (Filer_match_no_row _ _ _ _ _ _ c "?") in H by (done || by left). }
      destruct (decide (q = "*"%char)) as [->|Hq2].
      { destruct (decide (tp < 10)) as [Htp|Htp].
        - rewrite (Filer_match_star _ _ _ _ _ _ c) in H by done.
          apply bind_Val_inv in H as (b1 & s1 & H1 & H2).
          pose proof (wf_begin s tp (lit "*") c Hwf) as Hwf0.
          destruct (Filer_match_Val _ _ _ _ _ _ _ _ Hwf0 H1) as [Hwf1 Hd1].
          destruct (Filer_match_outcome _ _ _ _ _ _ _ _ Hwf0 H1) as (_ & Hcp & _).
          destruct b1.
          + injection H2 as <-.
            apply (proj1 (IH fn p (fp + 1) (pp + 1) (tp + 1) _ s1 Hwf0 Hdot)) in H1;
              [|lia].
            destruct H1 as (caps & rest & Hcap & Ht).
            exists ((lit "*", [c]) :: caps), rest.
            split; [apply (Captured_star c []); [done| |done]; cbn; lia|].
            rewrite Ht. cbn [table set_table map].
            rewrite Nat.add_1_r, take_insert_S by lia.
            by rewrite capture_row_row_of, <- app_assoc.
          + apply match_false_not_Matches in H1 as Hnot; [|done|done].
            apply (proj2 (IH fn p fp pp tp s1 s' Hwf1 ltac:(by rewrite Hd1))
                     1 [c]) in H2; [|lia|done|done| |done].
            * destruct H2 as (c' & v & f & caps & rest & Hd & Hmin & Hcap & Ht).
              exists ((lit "*", c :: c' :: v) :: caps), rest.
              rewrite Hd. split; [by apply (Captured_star c (c' :: v))|].
              rewrite Ht.
              rewrite (captures_take (tp + 1) tp _ s1 Hcp) by lia.
              cbn [table set_table map app]. by rewrite take_insert_ge by lia.
            * rewrite (captures_below (tp + 1) _ s1 tp Hcp) by lia.
              cbn [table set_table].
              by rewrite list_lookup_insert_eq, capture_row_row_of by lia.
        - assert (length (table s) <= tp) by lia.
          by rewrite (Filer_match_no_row _ _ _ _ _ _ c "*") in H by (done || by right). }
      rewrite (Filer_match_inside _ _ _ _ _ _ c q) in H by done.
      apply ascii_eqb_false in Hne as Hne'. rewrite Hne' in H.
      apply ascii_eqb_false in Hq1 as Hq1'. apply ascii_eqb_false in Hq2 as Hq2'.
      by rewrite Hq1', Hq2' in H.
    + apply lookup_lt_Some in Hc as Hf. apply lookup_ge_None_1 in Hq as Hp.
      by rewrite Filer_match_one_done in H by (done || lia).
    + apply lookup_ge_None_1 in Hc as Hf. apply lookup_lt_Some in Hq as Hp.
      by rewrite Filer_match_one_done in H by (done || lia).
    + apply lookup_ge_None_1 in Hc as Hf. apply lookup_ge_None_1 in Hq as Hp.
      rewrite Filer_match_both_done in H by done. injection H as <-.
      rewrite !drop_ge by done. exists [], (drop tp (table s)).
      split; [constructor|]. cbn [map app]. by rewrite take_drop.
  - intros sp u Hn Hfp H Hnot Hrow ->.
    apply lookup_lt_Some in Hrow as Htp.
    rewrite star_loop_unfold in H. unfold star_loop_body in H.
    case_bool_decide as Hend.
    + rewrite bool_decide_eq_false_2 in H; [done|].
      intros Hp. apply Hnot. rewrite !drop_ge by done. constructor.
    + destruct (lookup_lt_is_Some_2 fn (fp + 1)) as [c Hc]; [lia|].
      erewrite bind_Val in H; [|by apply getitem_Some].
      apply bind_Val_inv in H as ([] & s1 & H1 & H).
      apply table_set_Val in H1 as (Hwf1 & _ & Hk & Hd1 & row & Hrow' & ->); [|done].
      assert (row = row_of (lit "*", u)) as -> by congruence.
      rewrite row_of_grow in H, Hwf1, Hd1 by done.
      set (s1 := set_table (<[tp := row_of (lit "*", u ++ [c])]> (table s)) s) in *.
      apply bind_Val_inv in H as (b2 & s2 & H2 & H).
      destruct (Filer_match_Val _ _ _ _ _ _ _ _ Hwf1 H2) as [Hwf2 Hd2].
      destruct (Filer_match_outcome _ _ _ _ _ _ _ _ Hwf1 H2) as (_ & Hcp & _).
      assert (drop (fp + 1) fn = c :: drop (fp + 1 + 1) fn) as Hdrop.
      { rewrite (drop_S _ _ _ Hc). do 2 f_equal. lia. }
      rewrite Hdrop in Hnot |- *.
      destruct b2.
      * injection H as <-.
        apply (proj1 (IH fn p (fp + 1 + 1) (pp + 1) (tp + 1) s1 s2 Hwf1
                        ltac:(by rewrite Hd1))) in H2; [|lia].
        destruct H2 as (caps & rest & Hcap & Ht).
        exists c, [], (drop (fp + 1 + 1) fn), caps, rest.
        split; [done|]. split.
        { intros k Hlt. cbn [length] in Hlt. replace k with 0 by lia.
          by rewrite drop_0. }
        split; [done|].
        rewrite Ht. unfold s1. cbn [table set_table].
        rewrite Nat.add_1_r, take_insert_S by lia.
        by rewrite <- app_assoc.
      * apply match_false_not_Matches in H2 as Hnot2; [|done|by rewrite Hd1].
        apply (proj2 (IH fn p (fp + 1) pp tp s2 s' Hwf2
                        ltac:(by rewrite Hd2, Hd1))
                 (length u + 1) (u ++ [c])) in H;
          [|lia|lia|done| |by rewrite length_app].
        -- destruct H as (c' & v & f & caps & rest & Hd & Hmin & Hcap & Ht).
           exists c, (c' :: v), f, caps, rest.
           rewrite Hd. split; [done|]. split.
           { intros [|k] Hlt.
             - rewrite drop_0. cbn [app]. by rewrite <- Hd.
             - cbn [drop app]. apply Hmin. cbn [length] in Hlt |- *. lia. }
           split; [done|].
           rewrite Ht, <- app_assoc.
           rewrite (captures_take (tp + 1) tp _ s2 Hcp) by lia.
           unfold s1. cbn [table set_table app]. by rewrite take_insert_ge by lia.
        -- rewrite (captures_below (tp + 1) _ s2 tp Hcp) by lia.
           unfold s1. cbn [table set_table].
           apply list_lookup_insert_eq. apply lookup_lt_Some in Hrow. lia.
Qed.

Lemma leading_cells_cells_of u k :
  leading_cells (cells_of u ++ replicate k E) = cells_of u.
Proof.
  unfold cells_of. induction u as [|c u IH].
  - by destruct k.
  - cbn [map app leading_cells str_eqb E]. by rewrite IH.
Qed.

Lemma capture_cells_row_of cap : capture_cells (row_of cap) = cells_of cap.2.
Proof. unfold capture_cells, row_of. cbn [drop]. apply leading_cells_cells_of. Qed.

Lemma caps_marked_cons m cap caps :
  caps_marked m (cap :: caps)
  = (if decide (cap.1 = m) then [cells_of cap.2] else []) ++ caps_marked m caps.
Proof. unfold caps_marked. rewrite filter_cons. by case_decide. Qed.

Lemma captures_marked_app m t1 t2 :
  captures_marked m (t1 ++ t2) = captures_marked m t1 ++ captures_marked m t2.
Proof. unfold captures_marked. by rewrite filter_app, map_app. Qed.

Lemma captures_marked_row_of m caps :
  captures_marked m (map row_of caps) = caps_marked m caps.
Proof.
  induction caps as [|cap caps IH]; [done|].
  rewrite caps_marked_cons, <- IH. unfold captures_marked.
  cbn [map]. rewrite filter_cons.
  change (row_of cap !! 0) with (Some cap.1).
  destruct (decide (cap.1 = m)) as [->|Hne].
  - rewrite decide_True by done. cbn [map app]. by rewrite capture_cells_row_of.
  - rewrite decide_False by congruence. done.
Qed.

Lemma expand_Captured f pat caps :
  Captured f pat caps -> Forall literal f ->
  forall S Q R1 R2,
    expand (S ++ caps_marked (lit "*") caps ++ R1)
           (Q ++ caps_marked (lit "?") caps ++ R2) (length S) (length Q) pat
    = cells_of f /\
    misses (S ++ caps_marked (lit "*") caps ++ R1)
           (Q ++ caps_marked (lit "?") caps ++ R2) (length S) (length Q) pat = 0.
Proof.
  induction 1 as [|c f pat caps Hcap IH|c f pat caps Hc Hcap IH
                  |c u f pat caps Hc Hmin Hcap IH]; intros Hlit S Q R1 R2.
  - done.
  - apply Forall_cons in Hlit as [[Hs Hq] Hlit].
    cbn [expand misses]. apply ascii_eqb_false in Hs, Hq. rewrite Hs, Hq.
    destruct (IH Hlit S Q R1 R2) as [-> ->]. done.
  - apply Forall_cons in Hlit as [_ Hlit].
    rewrite !caps_marked_cons. cbn [fst snd].
    rewrite decide_False, decide_True by done. cbn [app expand misses].
    change (ascii_eqb "?" "*") with false. change (ascii_eqb "?" "?") with true.
    cbv iota. rewrite list_lookup_middle by done. cbn [default].
    specialize (IH Hlit S (Q ++ [cells_of [c]]) R1 R2).
    rewrite length_app, <- app_assoc in IH. cbn [length app] in IH.
    destruct IH as [-> ->]. done.
  - apply Forall_cons in Hlit as [_ Hlit]. apply Forall_app in Hlit as [_ Hlit].
    rewrite !caps_marked_cons. cbn [fst snd].
    rewrite decide_True, decide_False by done. cbn [app expand misses].
    change (ascii_eqb "*" "*") with true.
    cbv iota. rewrite list_lookup_middle by done. cbn [default].
    specialize (IH Hlit (S ++ [cells_of (c :: u)]) Q R1 R2).
    rewrite length_app, <- app_assoc in IH. cbn [length app] in IH.
    destruct IH as [-> ->]. split; [|done].
    unfold cells_of. cbn [map]. by rewrite map_app.
Qed.

Lemma match_true_not_excluded fn p fp pp tp s s' :
  Filer_match fn p fp pp tp s = (Val true, s') -> dot_excluded fn s = false.
Proof.
  intros H. destruct (dot_excluded fn s) eqn:Hd; [|done].
  by rewrite Filer_match_dot in H.
Qed.

Lemma match_captures_top fn pat s s' :
  wf s -> Filer_match fn pat 0 0 0 s = (Val true, s') ->
  exists caps rest, Captured fn pat caps /\ table s' = map row_of caps ++ rest.
Proof.
  intros Hwf H. apply match_true_not_excluded in H as Hdot.
  destruct (match_captures (S (length fn)) fn pat 0 0 0 s s' Hwf Hdot) as [Hm _].
  apply Hm in H; [|lia]. by rewrite !drop_0 in H.
Qed.

(** X6. After a successful match from the top, the table starts with one
    row per wildcard the pattern used, in pattern order: the marker in
    cell 0, then the captured text one character per cell, then empty
    cells; a [?] holds the one character it stood for, and a [*] the
    shortest text, of at least one character, after which the rest of the
    pattern matches the rest of the name. *)
Theorem match_records_shortest_captures fn pat s s' :
  wf s -> Filer_match fn pat 0 0 0 s = (Val true, s') ->
  exists caps rest, Captured fn pat caps /\ table s' = map row_of caps ++ rest.
Proof. apply match_captures_top. Qed.

Lemma match_records_shortest_captures_witness :
  exists caps rest,
    Captured (lit "abcb") (lit "*b*") caps /\
    table (Filer_match (lit "abcb") (lit "*b*") 0 0 0 (new_filer false)).2
    = map row_of caps ++ rest.
Proof.
  apply (match_records_shortest_captures _ _ (new_filer false)).
  - apply wf_new_filer.
  - vm_compute. reflexivity.
Defined.

Lemma match_keeps_template fn p fp pp tp s o s' :
  wf s -> Filer_match fn p fp pp tp s = (o, s') -> wf s' /\ s' = set_table (table s') s.
Proof.
  intros Hwf H. apply Filer_match_outcome in H as (Hwf' & Hc & _); [|done].
  split; [done|]. by apply captures_frame in Hc.
Qed.

(** X7. Rebuilding with the match pattern itself as template gives the
    filename back: when a name without [*] or [?] in it, at most FNLEN
    long, has matched a pattern without quotes, [rebuild] with that pattern
    as template followed by [get_rebuilt_name] returns the name, and no
    diagnostic is printed. *)
Theorem pattern_as_template_restores_name fn s s' :
  wf s -> Forall literal fn -> Forall (fun c => c <> "'"%char) (r s) ->
  length fn <= FNLEN ->
  Filer_match fn (r s) 0 0 0 s = (Val true, s') ->
  (rebuild ;; get_rebuilt_name) s'
  = (Val fn,
     emit (cells_of fn) [] (count_char "*" (r s)) (count_char "?" (r s)) (reset s')).
Proof.
  intros Hwf Hlit Hq Hlen H.
  destruct (match_keeps_template _ _ _ _ _ _ _ _ Hwf H) as [Hwf' Hs'].
  assert (r s' = r s) as Hr by (by rewrite Hs').
  destruct (match_captures_top _ _ _ _ Hwf H) as (caps & rest & Hcap & Ht).
  destruct (expand_Captured _ _ _ Hcap Hlit [] []
              (captures_marked (lit "*") rest) (captures_marked (lit "?") rest))
    as [He Hm].
  cbn [app length] in He, Hm.
  rewrite <- !captures_marked_row_of, <- !captures_marked_app, <- Ht, <- Hr in He, Hm.
  rewrite rebuilt_name_expand; [|done|by rewrite Hr|].
  - by rewrite He, Hm, concat_cells_of, Hr.
  - rewrite He. unfold cells_of. by rewrite length_map.
Qed.

Lemma pattern_as_template_restores_name_witness :
  ((rebuild ;; get_rebuilt_name)
     (Filer_match (lit "ab-c.txt") (lit "*-?.txt") 0 0 0
        (configured false (lit "*-?.txt") (lit "*-?.txt"))).2).1
  = Val (lit "ab-c.txt").
Proof.
  erewrite (pattern_as_template_restores_name (lit "ab-c.txt")
              (configured false (lit "*-?.txt") (lit "*-?.txt"))).
  - reflexivity.
  - apply wf_configured.
  - vm_compute. repeat constructor; discriminate.
  - vm_compute. repeat constructor; discriminate.
  - vm_compute. lia.
  - vm_compute. reflexivity.
Defined.

(** ** One file through the driver *)

Lemma Captured_Matches f pat caps : Captured f pat caps -> Matches f pat.
Proof. induction 1; by constructor. Qed.

Lemma Captured_unique f pat caps1 :
  Captured f pat caps1 -> forall caps2, Captured f pat caps2 -> caps1 = caps2.
Proof.
  induction 1 as [|c f pat caps Hcap IH|c f pat caps Hc Hcap IH
                  |c u f pat caps Hc Hmin Hcap IH]; intros caps2 H2.
  - by inversion H2.
  - inversion H2; subst; try done. by apply IH.
  - inversion H2; subst; try done. f_equal. by apply IH.
  - inversion H2; try done.
    match goal with
    | Hmin2 : forall k, k < length ?u2 -> _, Heq : ?u2 ++ ?f2 = u ++ f,
      H3 : Captured ?f2 pat ?caps0 |- _ =>
        assert (length u = length u2) as Hlen;
        [ destruct (Nat.lt_trichotomy (length u) (length u2)) as [Hlt|[?|Hlt]];
          [ exfalso; apply (Hmin2 _ Hlt); rewrite Heq, drop_app_length;
            by eapply Captured_Matches
          | done
          | exfalso; apply (Hmin _ Hlt); rewrite <- Heq, drop_app_length;
            by eapply Captured_Matches ]
        | apply app_inj_1 in Heq as [-> ->]; [|done];
          f_equal; by apply IH ]
    end.
Qed.

Lemma expand_within stars qms R1 R2 t : forall k q,
  k + count_char "*" t <= length stars -> q + count_char "?" t <= length qms ->
  expand (stars ++ R1) (qms ++ R2) k q t = expand stars qms k q t /\
  misses (stars ++ R1) (qms ++ R2) k q t = 0.
Proof.
  induction t as [|c t IH]; intros k q Hk Hq; [done|].
  rewrite !count_char_cons in Hk, Hq. cbn [expand misses].
  destruct (ascii_eqb c "*") eqn:Hs; [|destruct (ascii_eqb c "?") eqn:Hm].
  - apply ascii_eqb_true in Hs as ->.
    rewrite decide_True in Hk by done. rewrite decide_False in Hq by done.
    destruct (IH (k + 1) q) as [-> ->]; [lia..|].
    rewrite lookup_app_l by lia.
    destruct (lookup_lt_is_Some_2 stars k) as [x ->]; [lia|]. done.
  - apply ascii_eqb_true in Hm as ->.
    rewrite decide_False in Hk by done. rewrite decide_True in Hq by done.
    destruct (IH k (q + 1)) as [-> ->]; [lia..|].
    rewrite lookup_app_l by lia.
    destruct (lookup_lt_is_Some_2 qms q) as [x ->]; [lia|]. done.
  - apply ascii_eqb_false in Hs, Hm.
    rewrite decide_False in Hk by done. rewrite decide_False in Hq by done.
    destruct (IH k q) as [-> ->]; [lia..|]. done.
Qed.

Lemma set_table_twice t t' s : set_table t (set_table t' s) = set_table t s.
Proof. done. Qed.

Lemma clear_all_eq n : forall k s,
  wf s -> k + n <= 10 ->
  exists t, for_range_from k n clear_table_line s = (Val tt, set_table t s) /\
            wf (set_table t s).
Proof.
  induction n as [|n IH]; intros k s Hwf Hk.
  - exists (table s). by rewrite set_table_id.
  - cbn [for_range_from].
    rewrite (bind_Val _ _ s tt _ (clear_table_line_in k s Hwf ltac:(lia))).
    destruct (IH (S k) (set_table (<[k := replicate FNLEN E]> (table s)) s))
      as (t & Ht & Hwft); [|lia|].
    + destruct Hwf as [Ht Hn]. split; [|done]. cbn [table set_table].
      apply wf_table_insert; [done|]. by rewrite length_replicate.
    + exists t. by rewrite Ht.
Qed.

Lemma bind_assoc_Val {A B C} (c1 : M A) (c2 : M B) (k : B -> M C) s v s' :
  (c1 ;; c2) s = (Val v, s') -> (c1 ;; x <- c2 ;; k x) s = k v s'.
Proof.
  intros H. apply bind_Val_inv in H as (a & s1 & H1 & H2).
  rewrite (bind_Val _ _ s a s1 H1). by rewrite (bind_Val _ _ s1 v s' H2).
Qed.

Lemma process_file_tail dirspec filename rebuilt_name s :
  (q <- gets quotenames ;;
   c <- gets cmd ;;
   (if q
    then print (c ++ lit " " ++ [dquote] ++ path_join dirspec filename ++ [dquote]
                  ++ lit " " ++ [dquote] ++ rebuilt_name ++ [dquote])
    else print (c ++ lit " " ++ path_join dirspec filename ++ lit " " ++ rebuilt_name)) ;;
   n <- gets seq_number ;;
   modify (set_seq_number (n + 1))) s
  = (Val tt,
     set_seq_number (seq_number s + 1)
       (set_stdout
          (stdout s ++ [rename_line (quotenames s) (cmd s) dirspec filename rebuilt_name])
          s)).
Proof.
  cbv beta iota zeta delta [bind gets rename_line]. by destruct (quotenames s).
Qed.

Lemma process_file_rename dirspec f caps s :
  wf s -> dot_excluded f s = false -> length f < FNLEN ->
  count_wildcards (p s) <= 10 -> Captured f (p s) caps ->
  Forall (fun c => c <> "'"%char) (r s) ->
  count_char "*" (r s) <= length (caps_marked (lit "*") caps) ->
  count_char "?" (r s) <= length (caps_marked (lit "?") caps) ->
  length (expand (caps_marked (lit "*") caps) (caps_marked (lit "?") caps) 0 0 (r s))
    <= FNLEN ->
  exists s',
    process_file dirspec f s = (Val tt, s') /\
    seq_number s' = seq_number s + 1 /\
    stdout s'
    = stdout s
      ++ [rename_line (quotenames s) (cmd s) dirspec f
            (concat (expand (caps_marked (lit "*") caps)
                            (caps_marked (lit "?") caps) 0 0 (r s)))].
Proof.
  intros Hwf Hdot Hlen Hw Hcap Hq Hstars Hqms Hroom. unfold process_file, for_range.
  destruct (clear_all_eq 10 0 s Hwf) as (t & Hclr & Hwf0); [lia|].
  rewrite (bind_Val _ _ s tt _ Hclr).
  rewrite (bind_Val _ _ _ (p s) (set_table t s)) by done.
  destruct (proj1 (match_returns (S (length f)) f (p s) 0 0 0 _ Hwf0 Hlen))
    as (b & s1 & H1); [lia|by rewrite drop_0|].
  assert (b = true) as ->.
  { apply (proj1 (match_sem (S (length f)) f (p s) 0 0 0 _ b s1 Hwf0 Hdot)) in H1 as Hb;
      [|lia].
    apply Hb. rewrite !drop_0. by eapply Captured_Matches. }
  rewrite (bind_Val _ _ _ true s1 H1). cbv iota.
  destruct (match_keeps_template _ _ _ _ _ _ _ _ Hwf0 H1) as [Hwf1 Hs1].
  destruct (match_captures_top _ _ _ _ Hwf0 H1) as (caps' & rest & Hcap' & Ht).
  assert (caps' = caps) as -> by (by eapply Captured_unique).
  assert (r s1 = r s /\ quotenames s1 = quotenames s /\ cmd s1 = cmd s /\
          seq_number s1 = seq_number s /\ stdout s1 = stdout s)
    as (Hr & Hqn & Hcmd & Hseq & Hout) by (by rewrite Hs1).
  destruct (expand_within (caps_marked (lit "*") caps) (caps_marked (lit "?") caps)
              (captures_marked (lit "*") rest) (captures_marked (lit "?") rest)
              (r s) 0 0) as [He Hm]; [done..|].
  pose proof (rebuilt_name_expand s1 Hwf1) as Hrb.
  rewrite Ht, !captures_marked_app, !captures_marked_row_of, Hr, He, Hm in Hrb.
  specialize (Hrb Hq Hroom).
  rewrite (bind_assoc_Val _ _ _ _ _ _ Hrb), process_file_tail.
  eexists. split; [done|].
  cbn [seq_number stdout quotenames cmd set_seq_number set_stdout emit reset
       set_nn set_nnp set_qmk set_stk replicate].
  rewrite Hseq, Hout, Hqn, Hcmd, app_nil_r. done.
Qed.

(** X8. One file that matches, through the body of the driver's loop.  For
    a name shorter than FNLEN that passes the dotfile test and matches the
    pattern (of at most 10 wildcards) with the captures [caps], and a
    template without quotes that refers to no more stars and question
    marks than were captured and whose expansion fits the buffer:
    [process_files] prints for this file exactly one line, the command,
    the joined path and the template expanded with the captures (each
    name in double quotes under [-q]), and adds one to the sequence
    number. *)
Theorem matching_file_prints_its_rename dirspec f caps s :
  wf s -> dot_excluded f s = false -> length f < FNLEN ->
  count_wildcards (p s) <= 10 -> Captured f (p s) caps ->
  Forall (fun c => c <> "'"%char) (r s) ->
  count_char "*" (r s) <= length (caps_marked (lit "*") caps) ->
  count_char "?" (r s) <= length (caps_marked (lit "?") caps) ->
  length (expand (caps_marked (lit "*") caps) (caps_marked (lit "?") caps) 0 0 (r s))
    <= FNLEN ->
  exists s',
    process_file dirspec f s = (Val tt, s') /\
    seq_number s' = seq_number s + 1 /\
    stdout s'
    = stdout s
      ++ [rename_line (quotenames s) (cmd s) dirspec f
            (concat (expand (caps_marked (lit "*") caps)
                            (caps_marked (lit "?") caps) 0 0 (r s)))].
Proof. apply process_file_rename. Qed.

Lemma matching_file_prints_its_rename_witness :
  exists s',
    process_file (lit ".") (lit "ab.txt") (configured false (lit "*.txt") (lit "*.bak"))
    = (Val tt, s') /\
    seq_number s' = 2 /\ stdout s' = [lit "mv ./ab.txt ab.bak"].
Proof.
  destruct (matching_file_prints_its_rename (lit ".") (lit "ab.txt")
              [(lit "*", lit "ab")] (configured false (lit "*.txt") (lit "*.bak")))
    as (s' & H1 & H2 & H3).
  - apply wf_configured.
  - vm_compute. reflexivity.
  - rewrite FNLEN_eq. vm_compute. lia.
  - vm_compute. lia.
  - apply (Captured_star "a" (lit "b") (lit ".txt")).
    + discriminate.
    + intros k Hk Hm. cbn in Hk. replace k with 0 in Hm by lia.
      vm_compute in Hm. inversion Hm; congruence.
    + repeat constructor.
  - vm_compute. repeat constructor; discriminate.
  - vm_compute. lia.
  - vm_compute. lia.
  - vm_compute. lia.
  - exists s'. split; [exact H1|]. split; [exact H2|exact H3].
Defined.

Lemma process_file_no_match dirspec f s :
  wf s -> length f < FNLEN -> count_wildcards (p s) <= 10 ->
  dot_excluded f s = true \/ ~ Matches f (p s) ->
  exists t, process_file dirspec f s = (Val tt, set_table t s).
Proof.
  intros Hwf Hlen Hw Hno. unfold process_file, for_range.
  destruct (clear_all_eq 10 0 s Hwf) as (t & Hclr & Hwf0); [lia|].
  rewrite (bind_Val _ _ s tt _ Hclr).
  rewrite (bind_Val _ _ _ (p s) (set_table t s)) by done.
  destruct (dot_excluded f s) eqn:Hdot.
  { rewrite (bind_Val _ _ _ false (set_table t s)) by (by apply Filer_match_dot).
    by exists t. }
  destruct Hno as [?|Hno]; [done|].
  destruct (proj1 (match_returns (S (length f)) f (p s) 0 0 0 _ Hwf0 Hlen))
    as (b & s1 & H1); [lia|by rewrite drop_0|].
  assert (b = false) as ->.
  { apply (proj1 (match_sem (S (length f)) f (p s) 0 0 0 _ b s1 Hwf0 Hdot)) in H1 as Hb;
      [|lia].
    rewrite !drop_0 in Hb. destruct b; [|done]. exfalso. by apply Hno, Hb. }
  rewrite (bind_Val _ _ _ false s1 H1). cbv iota.
  destruct (match_keeps_template _ _ _ _ _ _ _ _ Hwf0 H1) as [_ Hs1].
  exists (table s1). by rewrite Hs1 at 1.
Qed.

(** X9. One file that does not match, through the body of the driver's
    loop: for a name shorter than FNLEN and a pattern of at most 10
    wildcards, when the name is a dotfile with dotfiles off, or cannot be
    read along the pattern, [process_files] does nothing for it but
    change the table: nothing is printed, the sequence number, the buffer
    and the rest of the object stay as they were, and no exception is
    raised. *)
Theorem non_matching_file_is_skipped dirspec f s :
  wf s -> length f < FNLEN -> count_wildcards (p s) <= 10 ->
  dot_excluded f s = true \/ ~ Matches f (p s) ->
  exists t, process_file dirspec f s = (Val tt, set_table t s).
Proof. apply process_file_no_match. Qed.

Lemma non_matching_file_is_skipped_witness :
  exists t,
    process_file (lit ".") (lit ".profile") (configured false (lit "*") (lit "*.bak"))
    = (Val tt, set_table t (configured false (lit "*") (lit "*.bak"))).
Proof.
  apply non_matching_file_is_skipped.
  - apply wf_configured.
  - rewrite FNLEN_eq. vm_compute. lia.
  - vm_compute. lia.
  - left. vm_compute. reflexivity.
Defined.

(** ** A whole listing *)

Lemma process_file_frame dirspec f s s' o :
  wf s -> process_file dirspec f s = (o, s') ->
  wf s' /\ include_dots s' = include_dots s /\ quotenames s' = quotenames s /\
  r s' = r s /\ p s' = p s /\ cmd s' = cmd s.
Proof.
  intros Hwf H. destruct (process_file_sat dirspec f s Hwf) as [Hf _].
  rewrite H in Hf. destruct (Hf Hwf) as (? & ? & ? & ? & ? & ? & _). done.
Qed.

Lemma for_each_renamed dirspec s files lines :
  Renamed dirspec s files lines ->
  count_wildcards (p s) <= 10 -> Forall (fun c => c <> "'"%char) (r s) ->
  forall s1, wf s1 ->
    include_dots s1 = include_dots s -> quotenames s1 = quotenames s ->
    r s1 = r s -> p s1 = p s -> cmd s1 = cmd s ->
    exists s', for_each files (process_file dirspec) s1 = (Val tt, s') /\
      stdout s' = stdout s1 ++ lines /\
      seq_number s' = seq_number s1 + length lines.
Proof.
  intros HR Hw Hq.
  induction HR as [|f files lines Hlen Hno HR IH
                   |f caps files lines Hlen Hdot Hcap Hst Hqm Hroom HR IH];
    intros s1 Hwf Hd1 Hq1 Hr1 Hp1 Hc1.
  - exists s1. cbn [for_each length]. by rewrite app_nil_r, Nat.add_0_r.
  - destruct (process_file_no_match dirspec f s1) as (t & Hpf); [done|done|by rewrite Hp1| |].
    { unfold dot_excluded in *. by rewrite Hd1, Hp1. }
    destruct (process_file_frame _ _ _ _ _ Hwf Hpf) as (Hwf2 & ? & ? & ? & ? & ?).
    destruct (IH (set_table t s1)) as (s' & Hrun & Hout & Hseq);
      [done|congruence..|].
    exists s'. cbn [for_each]. by rewrite (bind_Val _ _ s1 tt _ Hpf).
  - destruct (process_file_rename dirspec f caps s1) as (s2 & Hpf & Hseq2 & Hout2);
      [done| |done|..].
    { unfold dot_excluded in *. by rewrite Hd1. }
    all: rewrite ?Hp1, ?Hr1; try done.
    destruct (process_file_frame _ _ _ _ _ Hwf Hpf) as (Hwf2 & ? & ? & ? & ? & ?).
    destruct (IH s2) as (s' & Hrun & Hout & Hseq); [done|congruence..|].
    exists s'. cbn [for_each]. rewrite (bind_Val _ _ s1 tt _ Hpf).
    split; [done|]. rewrite Hout, Hout2, Hseq, Hseq2, Hq1, Hc1, Hr1, <- app_assoc.
    cbn [length app]. split; [done|lia].
Qed.

(** X10. A whole listing, when no quote-escape is involved.  From a
    well-shaped object with a pattern of at most 10 wildcards and a
    template without quotes, on a listing of names shorter than FNLEN in
    which each matching file's template expansion refers only to wildcards
    that were captured and fits the buffer, [process_files] returns
    normally, prints exactly one line per matching file, in listing order
    (command, joined path, expanded template), prints nothing for the
    others, and advances the sequence number by the number of lines. *)
Theorem listing_prints_one_rename_per_match dirspec files lines s :
  wf s -> count_wildcards (p s) <= 10 -> Forall (fun c => c <> "'"%char) (r s) ->
  Renamed dirspec s files lines ->
  exists s',
    process_files dirspec (Listing files) s = (Val tt, s') /\
    stdout s' = stdout s ++ lines /\
    seq_number s' = seq_number s + length lines.
Proof.
  intros Hwf Hw Hq HR. cbn [process_files].
  by apply (for_each_renamed dirspec s files lines HR Hw Hq s Hwf).
Qed.

Lemma listing_prints_one_rename_per_match_witness :
  exists s',
    process_files (lit ".") (Listing [lit ".profile"; lit "ab.txt"; lit "c.dat"])
      (configured false (lit "*.txt") (lit "*.bak"))
    = (Val tt, s') /\
    stdout s' = [lit "mv ./ab.txt ab.bak"] /\ seq_number s' = 2.
Proof.
  destruct (listing_prints_one_rename_per_match (lit ".")
              [lit ".profile"; lit "ab.txt"; lit "c.dat"] [lit "mv ./ab.txt ab.bak"]
              (configured false (lit "*.txt") (lit "*.bak")))
    as (s' & H1 & H2 & H3).
  - apply wf_configured.
  - vm_compute. lia.
  - vm_compute. repeat constructor; discriminate.
  - apply Renamed_skip.
    { rewrite FNLEN_eq. vm_compute. lia. }
    { left. vm_compute. reflexivity. }
    apply (Renamed_match (lit ".") (configured false (lit "*.txt") (lit "*.bak"))
             (lit "ab.txt") [(lit "*", lit "ab")] [lit "c.dat"] []).
    { rewrite FNLEN_eq. vm_compute. lia. }
    { vm_compute. reflexivity. }
    { apply (Captured_star "a" (lit "b") (lit ".txt")).
      - discriminate.
      - intros k Hk Hm. cbn in Hk. replace k with 0 in Hm by lia.
        vm_compute in Hm. inversion Hm; congruence.
      - repeat constructor. }
    { vm_compute. lia. }
    { vm_compute. lia. }
    { vm_compute. lia. }
    apply Renamed_skip.
    { rewrite FNLEN_eq. vm_compute. lia. }
    { right.
      apply (match_false_not_Matches (lit "c.dat") (lit "*.txt") 0 0 0 (new_filer false)
               (Filer_match (lit "c.dat") (lit "*.txt") 0 0 0 (new_filer false)).2).
      - apply wf_new_filer.
      - vm_compute. reflexivity.
      - vm_compute. reflexivity. }
    apply Renamed_nil.
  - exists s'. split; [exact H1|]. split; [exact H2|exact H3].
Defined.

(** ** What the matcher and the rebuild engine leave alone *)

(** X11. Any call of [match] on a well-shaped object either returns a
    boolean or raises IndexError (it never exits and always terminates);
    whatever the outcome it has changed nothing but the table (nothing is
    printed, the buffer, cursors and sequence number are as before), the
    table is still 10 rows of FNLEN cells, and the rows below the cursor
    [tp] are as they were. *)
Theorem match_changes_only_the_table fn p fp pp tp s o s' :
  wf s -> Filer_match fn p fp pp tp s = (o, s') ->
  wf s' /\ s' = set_table (table s') s /\
  (forall i, i < tp -> table s' !! i = table s !! i) /\
  ((exists b, o = Val b) \/ o = Raise IndexError).
Proof.
  intros Hwf H. apply Filer_match_outcome in H as (Hwf' & Hc & Ho); [|done].
  split; [done|]. split; [by apply captures_frame in Hc|]. split; [|done].
  intros i Hi. by eapply captures_below.
Qed.

Lemma match_changes_only_the_table_witness :
  wf (Filer_match (lit "abcb") (lit "a*b") 0 0 0 (new_filer false)).2 /\
  (Filer_match (lit "abcb") (lit "a*b") 0 0 0 (new_filer false)).2
  = set_table (table (Filer_match (lit "abcb") (lit "a*b") 0 0 0 (new_filer false)).2)
      (new_filer false) /\
  ((exists b, (Filer_match (lit "abcb") (lit "a*b") 0 0 0 (new_filer false)).1 = Val b) \/
   (Filer_match (lit "abcb") (lit "a*b") 0 0 0 (new_filer false)).1 = Raise IndexError).
Proof.
  destruct (match_changes_only_the_table (lit "abcb") (lit "a*b") 0 0 0 (new_filer false)
              _ _ (wf_new_filer false) (surjective_pairing _)) as (H1 & H2 & _ & H4).
  exact (conj H1 (conj H2 H4)).
Defined.

(** X12. What [match] answers (the boolean, or the error) does not depend
    on what the table, the buffer or any other part of the object holds:
    two well-shaped objects with the same dotfile setting give the same
    outcome on the same arguments. *)
Theorem match_outcome_ignores_table_contents fn p fp pp tp s1 s2 :
  wf s1 -> wf s2 -> include_dots s1 = include_dots s2 ->
  (Filer_match fn p fp pp tp s1).1 = (Filer_match fn p fp pp tp s2).1.
Proof. intros H1 H2 Hd. by apply Filer_match_indep. Qed.

Lemma match_outcome_ignores_table_contents_witness :
  (Filer_match (lit "xyz") (lit "x*") 0 0 0 (new_filer false)).1
  = (Filer_match (lit "xyz") (lit "x*") 0 0 0
       (matched false (lit "*b*") (lit "") (lit "abcb"))).1.
Proof.
  apply match_outcome_ignores_table_contents.
  - apply wf_new_filer.
  - apply wf_matched.
  - reflexivity.
Defined.

(** X13. [rebuild] always terminates, and whatever its outcome it has left
    the table, the sequence number, the patterns, the command and the
    flags as they were, has only added to what was printed, and has left
    the cursor [nnp] inside the buffer, whose length is unchanged.  It
    returns normally or raises IndexError when the template has no
    malformed quote-escape, and exits with status 2 or raises IndexError
    when it has one. *)
Theorem rebuild_leaves_table_and_counter s :
  rb_frame s (rebuild s).2 /\ loop_outcome (r s) (rebuild s).1 /\
  nnp (rebuild s).2 <= length (nn (rebuild s).2).
Proof.
  destruct (rebuild_outcome s) as [Hf Ho]. split; [done|]. split; [done|].
  apply rebuild_nnp.
Qed.

(** ** The buffer *)

Lemma insert_string_emit x : forall s,
  length (nn s) = FNLEN ->
  insert_string x s
  = (Val tt, emit (cells_of (take (FNLEN - nnp s) x)) [] (stk s) (qmk s) s).
Proof.
  induction x as [|c x IH]; intros s Hnn.
  - rewrite take_nil. cbn [insert_string cells_of map]. by rewrite emit_nothing.
  - cbn [insert_string]. rewrite (bind_Val _ _ s (nnp s) s) by done.
    case_bool_decide as Hk.
    + rewrite (bind_Val _ _ s tt (emit [[c]] [] (stk s) (qmk s) s)).
      2:{ rewrite <- emit_push by lia. unfold nn_set.
          rewrite (bind_Val _ _ s tt (set_nn (<[nnp s := [c]]> (nn s)) s)); [done|].
          rewrite (bind_Val _ _ s (nn s) s) by done.
          destruct (decide (nnp s < length (nn s))); [done|lia]. }
      rewrite IH by (rewrite emit_length; cbn [length]; lia).
      cbn [stk qmk nnp emit length]. rewrite emit_emit by (cbn [length]; lia).
      replace (FNLEN - nnp s) with (S (FNLEN - (nnp s + 1))) by lia. done.
    + rewrite (bind_Val _ _ s tt s) by done. rewrite IH by done.
      by replace (FNLEN - nnp s) with 0 by lia.
Qed.

(** X14. [insert_string] (used for dates and sequence numbers) never
    raises: on a buffer of FNLEN cells it appends, one character per cell,
    as much of the text as fits before cell FNLEN and silently drops the
    rest, touching nothing else. *)
Theorem insert_string_keeps_what_fits x s :
  length (nn s) = FNLEN ->
  insert_string x s
  = (Val tt, emit (cells_of (take (FNLEN - nnp s) x)) [] (stk s) (qmk s) s).
Proof. apply insert_string_emit. Qed.

Lemma insert_string_keeps_what_fits_witness :
  insert_string (lit "20200922") (set_nnp 296 (new_filer false))
  = (Val tt,
     emit (cells_of (lit "2020")) [] 0 0 (set_nnp 296 (new_filer false))).
Proof.
  rewrite insert_string_keeps_what_fits.
  - rewrite FNLEN_eq. reflexivity.
  - apply (wf_new_filer false).
Defined.

(** X15. [get_rebuilt_name] changes nothing and, the cursor being inside
    the buffer, returns the concatenation of the cells before the cursor:
    skipping the empty cells loses nothing. *)
Theorem get_rebuilt_name_is_buffer_text s :
  nnp s <= length (nn s) -> get_rebuilt_name s = (Val (buffer_text s), s).
Proof. apply get_rebuilt_name_eq. Qed.

Lemma get_rebuilt_name_is_buffer_text_witness :
  (get_rebuilt_name (rebuild (matched false (lit "*.txt") (lit "*.bak") (lit "ab.txt"))).2).1
  = Val (lit "ab.bak").
Proof.
  rewrite get_rebuilt_name_is_buffer_text.
  - vm_compute. reflexivity.
  - vm_compute. lia.
Defined.

(** ** Malformed quote-escapes end the run with status 2 *)

Lemma oo_Val {A} (c : M A) s a s1 : c s = (Val a, s1) -> only_overflow c s.
Proof. intros H. unfold only_overflow. by rewrite H. Qed.

Lemma oo_bind {A B} (c : M A) (k : A -> M B) s :
  only_overflow c s ->
  (forall a s1, c s = (Val a, s1) -> only_overflow (k a) s1) ->
  only_overflow (bind c k) s.
Proof.
  unfold only_overflow, bind. intros Hc Hk.
  destruct (c s) as [[a|e|] s1] eqn:Hcs; [by eapply Hk| |done].
  cbn in *. intros [= ->]. by apply Hc.
Qed.

Lemma wf_rb_frame s s' : wf s -> rb_frame s s' -> wf s'.
Proof.
  intros [Ht Hn] H. unfold rb_frame in H. destruct_and!.
  split; congruence.
Qed.

Lemma get_digit_Val l s : exists d, get_digit l s = (Val d, s).
Proof.
  unfold get_digit. rewrite (bind_Val _ _ s (r s) s) by done.
  case_bool_decide as H1; [by eexists|].
  destruct (lookup_lt_is_Some_2 (r s) (l + 1)) as [c Hc]; [lia|].
  rewrite (bind_Val _ _ s c s) by (by apply getitem_Some).
  destruct (negb (ascii_eqb c "'")); [by eexists|].
  case_bool_decide as H2; [by eexists|].
  destruct (lookup_lt_is_Some_2 (r s) (l + 2)) as [c2 Hc2]; [lia|].
  rewrite (bind_Val _ _ s c2 s) by (by apply getitem_Some).
  destruct (int_of_char c2) as [d|]; [|by eexists].
  destruct (bool_decide (1 <= d) && bool_decide (d <= 9)); by eexists.
Qed.

Lemma where_loop_Val n : forall marker dg w s,
  wf s -> (10 - w) + (if decide (dg = 0) then 0 else 1) < n ->
  exists w', where_loop n marker dg w s = (Val w', s).
Proof.
  induction n as [|n IH]; intros marker dg w s Hwf Hn; [lia|].
  cbn [where_loop].
  destruct (negb (bool_decide (dg = 0)) && bool_decide (w < 10)) eqn:Hc; [|by eexists].
  apply andb_true_iff in Hc as [Hdg Hw].
  apply negb_true_iff, bool_decide_eq_false in Hdg. apply bool_decide_eq_true in Hw.
  destruct (table_get_wf w 0 s Hwf Hw) as (row & cell & _ & _ & Hget);
    [rewrite FNLEN_eq; lia|].
  rewrite (bind_Val _ _ s cell s Hget). cbv zeta.
  apply IH; [done|].
  rewrite decide_False in Hn by done.
  destruct (str_eqb cell marker); case_bool_decide; case_decide; lia.
Qed.

Lemma rb_copy_loop_oo n : forall w tk s,
  wf s -> w < 10 -> only_overflow (rb_copy_loop n w tk) s.
Proof.
  induction n as [|n IH]; intros w tk s Hwf Hw; [done|].
  cbn [rb_copy_loop]. case_bool_decide as Htk; [|by eapply oo_Val].
  destruct (table_get_wf w tk s Hwf Hw Htk) as (row & cell & _ & _ & Hget).
  unfold only_overflow. rewrite (bind_Val _ _ s cell s Hget).
  destruct (str_eqb cell E); [done|].
  destruct (decide (nnp s < length (nn s))) as [Hroom|Hfull].
  - rewrite push_emit by done. apply IH; [|done].
    apply wf_emit; [done|cbn [length]; lia].
  - rewrite (bind_Val _ _ s (nnp s) s) by done.
    rewrite (bind_Raise _ _ s IndexError s).
    + cbn. lia.
    + unfold nn_set. rewrite (bind_Val _ _ s (nn s) s) by done.
      by rewrite decide_False.
Qed.

Lemma copy_found_oo w s : wf s -> only_overflow (copy_found w) s.
Proof.
  intros Hwf. unfold copy_found. case_bool_decide as Hw; [by eapply oo_Val|].
  destruct (table_get_wf w 0 s Hwf) as (row & cell & _ & _ & Hget);
    [lia|rewrite FNLEN_eq; lia|].
  unfold only_overflow. rewrite (bind_Val _ _ s cell s Hget).
  destruct (str_eqb cell E); [done|].
  apply rb_copy_loop_oo; [done|lia].
Qed.

Lemma lookup_copy_oo marker dg s :
  wf s -> only_overflow (where_ <- where_loop 12 marker dg 0 ;; copy_found where_) s.
Proof.
  intros Hwf.
  destruct (where_loop_Val 12 marker dg 0 s Hwf) as [w Hw]; [case_decide; lia|].
  unfold only_overflow. rewrite (bind_Val _ _ s w s Hw). by apply copy_found_oo.
Qed.

Lemma rb_star_oo l s : wf s -> only_overflow (rb_star l) s.
Proof.
  intros Hwf. unfold rb_star. cbv zeta.
  destruct (get_digit_Val (l + 1) s) as [d Hd].
  unfold only_overflow. rewrite (bind_Val _ _ s d s Hd).
  case_bool_decide; [done|]. case_bool_decide.
  - rewrite (bind_Val _ _ s (stk s + 1) (set_stk (stk s + 1) s)) by done.
    by apply lookup_copy_oo.
  - rewrite (bind_Val _ _ s d (set_stk d s)) by done.
    by apply lookup_copy_oo.
Qed.

Lemma rb_qmark_oo l s : wf s -> only_overflow (rb_qmark l) s.
Proof.
  intros Hwf. unfold rb_qmark. cbv zeta.
  destruct (get_digit_Val (l + 1) s) as [d Hd].
  unfold only_overflow. rewrite (bind_Val _ _ s d s Hd).
  case_bool_decide; [done|]. case_bool_decide.
  - rewrite (bind_Val _ _ s (qmk s + 1) (set_qmk (qmk s + 1) s)) by done.
    by apply lookup_copy_oo.
  - rewrite (bind_Val _ _ s d (set_qmk d s)) by done.
    by apply lookup_copy_oo.
Qed.

Lemma insert_string_then_ret {A} x (a : A) s :
  length (nn s) = FNLEN -> ((insert_string x ;; ret a) s).1 = Val a.
Proof. intros H. by rewrite (bind_Val _ _ _ _ _ (insert_string_emit x s H)). Qed.

Lemma exit_then_ret {A} msg (a : A) s :
  ((print msg ;; @sys_exit unit 2) ;; ret a) s
  = (Raise (SystemExit 2), set_stdout (stdout s ++ [msg]) s).
Proof. done. Qed.

Lemma rb_date_no_IndexError l s :
  length (nn s) = FNLEN -> (rb_date l s).1 <> Raise IndexError.
Proof.
  intros Hnn. unfold rb_date. cbv zeta.
  rewrite (bind_Val _ _ s (r s) s) by done.
  case_bool_decide as Hl; [done|].
  rewrite (bind_Val _ _ s (clock s (ticks s)) (set_ticks (S (ticks s)) s)) by done.
  destruct (lookup_lt_is_Some_2 (r s) (l + 1)) as [x Hx]; [lia|].
  rewrite (bind_Val _ _ _ x (set_ticks (S (ticks s)) s)) by (by apply getitem_Some).
  repeat (destruct (ascii_eqb x _); [by rewrite insert_string_then_ret|]).
  by rewrite exit_then_ret.
Qed.

Lemma rb_seq_no_IndexError l s :
  length (nn s) = FNLEN -> (rb_seq l s).1 <> Raise IndexError.
Proof.
  intros Hnn. unfold rb_seq. cbv zeta.
  rewrite (bind_Val _ _ s (r s) s) by done.
  case_bool_decide as Hl; [done|].
  destruct (lookup_lt_is_Some_2 (r s) (l + 1)) as [x Hx]; [lia|].
  rewrite (bind_Val _ _ _ x s) by (by apply getitem_Some).
  destruct (int_of_char x) as [d|]; [|done].
  destruct (bool_decide (d < 1) || bool_decide (9 < d)); [done|].
  rewrite (bind_Val _ _ s (seq_number s) s) by done.
  by rewrite insert_string_then_ret.
Qed.

Lemma rb_quote_no_IndexError l s :
  length (nn s) = FNLEN -> (rb_quote l s).1 <> Raise IndexError.
Proof.
  intros Hnn. unfold rb_quote. cbv zeta.
  rewrite (bind_Val _ _ s (r s) s) by done.
  case_bool_decide as Hl; [|done].
  destruct (lookup_lt_is_Some_2 (r s) (l + 1)) as [k Hk]; [lia|].
  rewrite (bind_Val _ _ _ k s) by (by apply getitem_Some).
  destruct (ascii_eqb k "d"); [by apply rb_date_no_IndexError|].
  destruct (ascii_eqb k "s"); [by apply rb_seq_no_IndexError|].
  done.
Qed.

Lemma rb_quote_defect l s msg :
  escape_defect (r s) l = Some msg ->
  r s !! l = Some "'"%char /\
  (rb_quote l s).1 = Raise (SystemExit 2) /\
  stdout (rb_quote l s).2 = stdout s ++ [msg].
Proof.
  unfold escape_defect.
  destruct (drop l (r s)) as [|q [|k rest]] eqn:Hd; [done..|].
  apply drop_cons_inv in Hd as (Hq & Hd & Hl).
  apply drop_cons_inv in Hd as (Hk & Hd & Hl1).
  destruct (ascii_eqb q "'") eqn:Hq'; [|done].
  apply ascii_eqb_true in Hq' as ->. intros H. split; [done|].
  unfold rb_quote. cbv zeta.
  rewrite (bind_Val _ _ s (r s) s) by done.
  rewrite bool_decide_eq_true_2 by done.
  rewrite (bind_Val _ _ _ k s) by (by apply getitem_Some).
  destruct (ascii_eqb k "d"); [|destruct (ascii_eqb k "s")].
  - unfold rb_date. cbv zeta. rewrite (bind_Val _ _ s (r s) s) by done.
    destruct rest as [|x rest'].
    + injection H as <-. apply drop_nil_inv in Hd.
      by rewrite bool_decide_eq_true_2 by done.
    + apply drop_cons_inv in Hd as (Hx & _ & Hl2).
      rewrite bool_decide_eq_false_2 by lia.
      rewrite (bind_Val _ _ s (clock s (ticks s)) (set_ticks (S (ticks s)) s)) by done.
      rewrite (bind_Val _ _ _ x (set_ticks (S (ticks s)) s)) by (by apply getitem_Some).
      destruct (is_date_code x) eqn:Hdc; [done|]. injection H as <-.
      unfold is_date_code in Hdc.
      repeat (apply orb_false_iff in Hdc as [Hdc ?]).
      repeat match goal with
             | Hc : ascii_eqb x _ = false |- _ => rewrite Hc; clear Hc
             end.
      by rewrite exit_then_ret.
  - unfold rb_seq. cbv zeta. rewrite (bind_Val _ _ s (r s) s) by done.
    destruct rest as [|x rest'].
    + injection H as <-. apply drop_nil_inv in Hd.
      by rewrite bool_decide_eq_true_2 by done.
    + apply drop_cons_inv in Hd as (Hx & _ & Hl2).
      rewrite bool_decide_eq_false_2 by lia.
      rewrite (bind_Val _ _ _ x s) by (by apply getitem_Some).
      destruct (int_of_char x) as [d|]; [|by injection H as <-].
      destruct (bool_decide (1 <= d) && bool_decide (d <= 9)) eqn:Hr; [done|].
      injection H as <-.
      replace (bool_decide (d < 1) || bool_decide (9 < d)) with true; [done|].
      symmetry. apply andb_false_iff in Hr as [Hr|Hr];
        apply bool_decide_eq_false in Hr; apply orb_true_iff;
        [left|right]; apply bool_decide_eq_true; lia.
  - by injection H as <-.
Qed.

Lemma rebuild_loop_defect n l s msg :
  escape_defect (r s) l = Some msg ->
  (rebuild_loop (S n) l s).1 = Raise (SystemExit 2) /\
  stdout (rebuild_loop (S n) l s).2 = stdout s ++ [msg].
Proof.
  intros H. apply rb_quote_defect in H as (Hq & Ho & Hout).
  apply lookup_lt_Some in Hq as Hl.
  cbn [rebuild_loop]. rewrite (bind_Val _ _ s (r s) s) by done.
  rewrite bool_decide_eq_true_2 by done.
  rewrite (bind_Val _ _ _ "'"%char s) by (by apply getitem_Some).
  change (ascii_eqb "'" "*") with false. change (ascii_eqb "'" "?") with false.
  change (ascii_eqb "'" "'") with true. cbv iota.
  destruct (rb_quote l s) as [o s'] eqn:Hrq. cbn [fst snd] in Ho, Hout. subst o.
  by rewrite (bind_Raise _ _ s (SystemExit 2) s' Hrq).
Qed.

Lemma rebuild_loop_last_quote n l s :
  r s !! l = Some "'"%char -> length (r s) = l + 1 ->
  rebuild_loop (S (S n)) l s = (Val tt, s).
Proof.
  intros Hq Hlen. cbn [rebuild_loop]. rewrite (bind_Val _ _ s (r s) s) by done.
  rewrite bool_decide_eq_true_2 by lia.
  rewrite (bind_Val _ _ _ "'"%char s) by (by apply getitem_Some).
  change (ascii_eqb "'" "*") with false. change (ascii_eqb "'" "?") with false.
  change (ascii_eqb "'" "'") with true. cbv iota.
  rewrite (bind_Val _ _ s (l + 1) s).
  - rewrite (bind_Val _ _ s (r s) s) by done. by rewrite bool_decide_eq_false_2 by lia.
  - unfold rb_quote. cbv zeta. rewrite (bind_Val _ _ s (r s) s) by done.
    by rewrite bool_decide_eq_false_2 by lia.
Qed.

Lemma rebuild_loop_oo n : forall l s, wf s -> only_overflow (rebuild_loop n l) s.
Proof.
  induction n as [|n IH]; intros l s Hwf; [done|].
  cbn [rebuild_loop]. apply oo_bind; [by eapply oo_Val|].
  intros tmpl s0 [= <- <-].
  case_bool_decide as Hl; [|by eapply oo_Val].
  destruct (lookup_lt_is_Some_2 (r s) l Hl) as [c Hc].
  apply oo_bind; [eapply oo_Val; by apply getitem_Some|].
  intros c' s0 Hget. rewrite (getitem_Some _ _ _ _ Hc) in Hget. injection Hget as <- <-.
  destruct (ascii_eqb c "*"); [|destruct (ascii_eqb c "?"); [|destruct (ascii_eqb c "'")]].
  - apply oo_bind; [by apply rb_star_oo|]. intros [] s1 H1. apply IH.
    destruct (rb_star_sat l s) as [Hf _]. rewrite H1 in Hf. by eapply wf_rb_frame.
  - apply oo_bind; [by apply rb_qmark_oo|]. intros [] s1 H1. apply IH.
    destruct (rb_qmark_sat l s) as [Hf _]. rewrite H1 in Hf. by eapply wf_rb_frame.
  - apply oo_bind.
    + intros Hie. by apply rb_quote_no_IndexError in Hie; [|apply Hwf].
    + intros l' s1 H1. apply IH.
      destruct (rb_quote_spec l s) as [Hf _]. rewrite H1 in Hf. by eapply wf_rb_frame.
  - unfold only_overflow.
    destruct (decide (nnp s < length (nn s))) as [Hroom|Hfull].
    + rewrite push_emit by done. apply IH.
      apply wf_emit; [done|cbn [length]; lia].
    + rewrite (bind_Val _ _ s (nnp s) s) by done.
      rewrite (bind_Raise _ _ s IndexError s).
      * cbn. lia.
      * unfold nn_set. rewrite (bind_Val _ _ s (nn s) s) by done.
        by rewrite decide_False.
Qed.

Lemma wf_reset s : wf s -> wf (reset s).
Proof.
  intros [Ht _]. split; [done|]. cbn. by rewrite length_replicate.
Qed.

Lemma rebuild_oo s : wf s -> only_overflow rebuild s.
Proof.
  intros Hwf. unfold only_overflow. rewrite rebuild_reset by done.
  rewrite (bind_Val _ _ _ (r s) (reset s)) by done.
  by apply rebuild_loop_oo, wf_reset.
Qed.

Lemma rebuild_fatal s :
  wf s -> fatal_escape (r s) = true ->
  (rebuild s).1 = Raise (SystemExit 2) \/
  ((rebuild s).1 = Raise IndexError /\ FNLEN <= nnp (rebuild s).2).
Proof.
  intros Hwf Hfatal. destruct (rebuild_outcome s) as [Hf Ho].
  unfold loop_outcome in Ho. rewrite Hfatal in Ho. destruct Ho as [Ho|Ho]; [by left|].
  right. split; [done|].
  apply (wf_rb_frame _ _ Hwf) in Hf as [_ Hnn]. rewrite <- Hnn.
  by apply rebuild_oo.
Qed.

Lemma process_file_fatal dirspec f s :
  wf s -> fatal_escape (r s) = true -> (clear_and_match f s).1 = Val true ->
  (process_file dirspec f s).1 = Raise (SystemExit 2) \/
  ((process_file dirspec f s).1 = Raise IndexError /\
   FNLEN <= nnp (process_file dirspec f s).2).
Proof.
  intros Hwf Hfatal Hm.
  pose proof (process_file_cases dirspec f s Hwf) as Hc. rewrite Hm in Hc.
  destruct (clear_and_match_sat f s Hwf) as [Hto _].
  destruct (Hto Hwf) as [Hwf1 Hs1].
  assert (r (clear_and_match f s).2 = r s) as Hr by (by rewrite Hs1).
  destruct (rebuild_fatal _ Hwf1) as [Ho|[Ho Hfull]]; [by rewrite Hr|..];
    rewrite Ho in Hc; rewrite Hc.
  - by left.
  - by right.
Qed.

(** C4, as the code has it.  From a well-shaped object:
    - when the token loop of [rebuild] stands on a malformed quote-escape
      (an unknown letter after the quote marker, an unknown or missing
      date code after ['d], a missing character, a non-digit or a digit
      outside 1-9 after ['s]), it prints the diagnostic of that defect
      and ends in [sys.exit(2)], at once and whatever the object holds;
    - a template in which the token scan meets such an escape never lets
      [rebuild] return: [rebuild], and with it the processing of a file
      that matches, ends in [sys.exit(2)], the only other end being the
      [IndexError] of a buffer that overflowed before the escape was
      reached ([nnp] at FNLEN);
    - a quote marker that is the last character of the template is
      ignored: the loop returns and changes nothing;
    - a run of [process_files] that ends in [sys.exit] has status 2, a
      non-zero exit status, and such a template;
    - an exception raised while a file is processed ends the run there,
      with what earlier files printed still printed. *)
Theorem malformed_escape_exits (dirspec : str) (s : Filer) :
  wf s ->
  (forall l n msg,
     escape_defect (r s) l = Some msg ->
     (rebuild_loop (S n) l s).1 = Raise (SystemExit 2) /\
     stdout (rebuild_loop (S n) l s).2 = stdout s ++ [msg]) /\
  (fatal_escape (r s) = true ->
     ((rebuild s).1 = Raise (SystemExit 2) \/
      ((rebuild s).1 = Raise IndexError /\ FNLEN <= nnp (rebuild s).2)) /\
     (forall f,
        (clear_and_match f s).1 = Val true ->
        (process_file dirspec f s).1 = Raise (SystemExit 2) \/
        ((process_file dirspec f s).1 = Raise IndexError /\
         FNLEN <= nnp (process_file dirspec f s).2))) /\
  (forall l n,
     r s !! l = Some "'"%char -> length (r s) = l + 1 ->
     rebuild_loop (S (S n)) l s = (Val tt, s)) /\
  (forall ls n,
     (process_files dirspec ls s).1 = Raise (SystemExit n) ->
     n = 2 /\ fatal_escape (r s) = true /\
     exit_status (process_files dirspec ls s).1 = 2) /\
  (forall files1 f files2 s1 e s2,
     for_each files1 (process_file dirspec) s = (Val tt, s1) ->
     process_file dirspec f s1 = (Raise e, s2) ->
     process_files dirspec (Listing (files1 ++ f :: files2)) s = (Raise e, s2) /\
     stdout s1 `prefix_of` stdout s2).
Proof.
  intros Hwf. split_and!.
  - intros l n msg H. by apply rebuild_loop_defect.
  - intros Hfatal. split; [by apply rebuild_fatal|].
    intros f Hm. by apply process_file_fatal.
  - intros l n Hq Hlen. by apply rebuild_loop_last_quote.
  - intros ls n Hexit. destruct ls as [files|e]; [|done].
    destruct (for_each_sat dirspec files s Hwf) as [_ Ho].
    cbn [process_files] in *. rewrite Hexit in *. cbn in Ho.
    destruct Ho as [-> Hf]. done.
  - intros files1 f files2 s1 e s2 H1 H2. split.
    + cbn [process_files]. by eapply for_each_stops.
    + destruct (for_each_sat dirspec files1 s Hwf) as [HI1 _].
      rewrite H1 in HI1. destruct (HI1 Hwf) as [Hwf1 _].
      destruct (process_file_sat dirspec f s1 Hwf1) as [HI2 _].
      rewrite H2 in HI2. by apply HI2.
Qed.

Lemma malformed_escape_exits_witness :
  ((rebuild_loop 1 2 (matched false (lit "a*c") (lit "x*'dq") (lit "abc"))).1
   = Raise (SystemExit 2) /\
   stdout (rebuild_loop 1 2 (matched false (lit "a*c") (lit "x*'dq") (lit "abc"))).2
   = [lit "Filer: Invalid 'd_ date spec!"]) /\
  ((process_file (lit ".") (lit "abc") (configured false (lit "a*c") (lit "x's0"))).1
   = Raise (SystemExit 2) \/
   ((process_file (lit ".") (lit "abc") (configured false (lit "a*c") (lit "x's0"))).1
    = Raise IndexError /\
    FNLEN <= nnp (process_file (lit ".") (lit "abc")
                    (configured false (lit "a*c") (lit "x's0"))).2)) /\
  exit_status (run_main false (lit "a*c") (lit "x's0") [lit "nope"; lit "abc"; lit "adc"]).1
  = 2 /\
  (run_main false (lit "a*c") (lit "x's0") [lit "nope"; lit "abc"; lit "adc"]).1
  = Raise (SystemExit 2).
Proof.
  split_and!.
  - apply (proj1 (proj1 (malformed_escape_exits (lit ".") _
                           (wf_matched false (lit "a*c") (lit "x*'dq") (lit "abc")))
                    2 0 (lit "Filer: Invalid 'd_ date spec!")
                    ltac:(vm_compute; reflexivity))).
  - apply (proj2 (proj1 (malformed_escape_exits (lit ".") _
                           (wf_matched false (lit "a*c") (lit "x*'dq") (lit "abc")))
                    2 0 (lit "Filer: Invalid 'd_ date spec!")
                    ltac:(vm_compute; reflexivity))).
  - apply (proj2 (proj1 (proj2 (malformed_escape_exits (lit ".") _
                    (wf_configured false (lit "a*c") (lit "x's0"))))
                    ltac:(vm_compute; reflexivity))).
    vm_compute. reflexivity.
  - apply (proj1 (proj2 (proj2 (proj2 (malformed_escape_exits (lit ".") _
                    (wf_configured false (lit "a*c") (lit "x's0"))))))
             (Listing [lit "nope"; lit "abc"; lit "adc"]) 2).
    vm_compute. reflexivity.
  - apply (f_equal fst
             (proj1 (proj2 (proj2 (proj2 (proj2 (malformed_escape_exits (lit ".") _
                    (wf_configured false (lit "a*c") (lit "x's0"))))))
             [lit "nope"] (lit "abc") [lit "adc"] _ (SystemExit 2) _
             ltac:(vm_compute; reflexivity) ltac:(vm_compute; reflexivity)))).
Defined.
